(** * openvpn_exporter: the status-report parser and metric reducer

    A shallow embedding of [exporters/openvpn_exporter.go].  Go strings are
    byte strings ([string]), maps are [gmap]s, [float64] is the IEEE-754
    binary64 format of [SpecFloat], and the metrics sent on the Prometheus
    channel are collected in a list, oldest first. *)

From Stdlib Require Import ZArith String Ascii List Lia.
From Stdlib.Floats Require Import SpecFloat.
From stdpp Require Import base option list strings gmap fin_maps countable.

Open Scope string_scope.
Open Scope list_scope.

(** ** float64 *)

Definition float64 : Type := spec_float.

Definition prec64 : Z := 53.
Definition emax64 : Z := 1024.

(** The conversion [float64(n)] of an integer. *)
Definition f64_of_Z (z : Z) : float64 := binary_normalize prec64 emax64 z 0 false.

Definition f64_zero : float64 := S754_zero false.
Definition f64_one : float64 := f64_of_Z 1.

(** Go's [x == y] on float64. *)
Definition f64_eqb (x y : float64) : bool := SFeqb x y.
Definition f64_mul : float64 -> float64 -> float64 := SFmul prec64 emax64.
Definition f64_div : float64 -> float64 -> float64 := SFdiv prec64 emax64.
Definition f64_add : float64 -> float64 -> float64 := SFadd prec64 emax64.
Definition f64_sub : float64 -> float64 -> float64 := SFsub prec64 emax64.
Definition f64_sqrt : float64 -> float64 := SFsqrt prec64 emax64.

(** [math.Pi] rounded to float64: 0x400921FB54442D18. *)
Definition math_Pi : float64 := S754_finite false 7074237752028440 (-51).

(** ** Go's [int], 64 bits wide: the wrap-around of [n++] *)

Definition wrap_int (z : Z) : Z := ((z + 2 ^ 63) mod 2 ^ 64 - 2 ^ 63)%Z.

(** ** Errors

    One constructor per [fmt.Errorf] of the file; [ErrParseFloat] is the
    [*strconv.NumError] of [strconv.ParseFloat], [ErrTooLong] is
    [bufio.ErrTooLong], and [ErrExternal] stands for the errors of [os],
    [io], [net/http] and [encoding/json]. *)

Inductive error : Type :=
| ErrClientStatus
| ErrUnexpectedContents (buf : string)
| ErrNoHeader (key : string)
| ErrColumnCount (key : string)
| ErrUnsupportedKey (key : string)
| ErrParseFloat (input : string)
| ErrTooLong
| ErrExternal (msg : string).

(** ** Strings and slices *)

(** [strings.Split(s, sep)] for a non-empty [sep]: [skip] counts the bytes
    of a separator that was just matched and is still to be passed over. *)
Fixpoint splitOn (sep : string) (skip : nat) (s : string) : list string :=
  match s with
  | EmptyString => [EmptyString]
  | String c s' =>
      match skip with
      | S k => splitOn sep k s'
      | O =>
          if String.prefix sep s
          then EmptyString :: splitOn sep (String.length sep - 1) s'
          else match splitOn sep 0 s' with
               | cur :: more => String c cur :: more
               | [] => [String c EmptyString]
               end
      end
  end.

(** With an empty separator Go splits after each UTF-8 sequence (and
    returns no element at all for an empty [s]); bytes stand for the
    sequences here.  The exporter only ever passes "," , a tab or ":". *)
Fixpoint explode (s : string) : list string :=
  match s with
  | EmptyString => []
  | String c s' => String c EmptyString :: explode s'
  end.

Definition Split (s sep : string) : list string :=
  match sep with
  | EmptyString => explode s
  | _ => splitOn sep 0 s
  end.

(** [bytes.HasPrefix] / [strings.HasPrefix]. *)
Definition HasPrefix (s p : string) : bool := String.prefix p s.

(** [s[i]] on a slice of strings; every use below sits under a length test
    that keeps [i] in range. *)
Definition index (l : list string) (i : nat) : string := default "" (l !! i).

(** Does slice contain string *)
Fixpoint contains (s : list string) (e : string) : bool :=
  match s with
  | [] => false
  | a :: s' => if String.eqb a e then true else contains s' e
  end.

Fixpoint allContained (sub main : list string) : bool :=
  match sub with
  | [] => true
  | s :: sub' => if negb (contains main s) then false else allContained sub' main
  end.

(** Is a sub-slice of slice *)
Definition subslice (sub main : list string) : bool :=
  if (length main <? length sub)%nat then false else allContained sub main.

(** ** The Prometheus client library, as far as the exporter uses it *)

Inductive prometheus_ValueType : Type := CounterValue | GaugeValue.

(** [*prometheus.Desc]: a descriptor is identified by what [NewDesc] was
    given (the descriptors of this exporter differ in their names). *)
Record prometheus_Desc : Type := NewDesc {
  fqName : string;
  help : string;
  variableLabels : list string;
}.

Definition BuildFQName (namespace subsystem name : string) : string :=
  if String.eqb name "" then ""
  else if negb (String.eqb namespace "") && negb (String.eqb subsystem "")
  then namespace +:+ "_" +:+ subsystem +:+ "_" +:+ name
  else if negb (String.eqb namespace "") then namespace +:+ "_" +:+ name
  else if negb (String.eqb subsystem "") then subsystem +:+ "_" +:+ name
  else name.

(** [utf8.ValidString].  After a first byte the bytes that may follow are
    fixed, as the tables [first] and [acceptRanges] of the package give
    them: [utf8_first] tells, for a first byte, the ranges its
    continuation bytes must lie in, and nothing for a byte that cannot
    start a sequence. *)
Definition locb_hicb : N * N := (128, 191)%N.

Definition utf8_first (c : ascii) : option (list (N * N)) :=
  let b := N_of_ascii c in
  if (b <? 128)%N then Some []
  else if (b <? 194)%N then None
  else if (b <? 224)%N then Some [locb_hicb]
  else if (b =? 224)%N then Some [(160, 191)%N; locb_hicb]
  else if (b =? 237)%N then Some [(128, 159)%N; locb_hicb]
  else if (b <? 240)%N then Some [locb_hicb; locb_hicb]
  else if (b =? 240)%N then Some [(144, 191)%N; locb_hicb; locb_hicb]
  else if (b <? 244)%N then Some [locb_hicb; locb_hicb; locb_hicb]
  else if (b =? 244)%N then Some [(128, 143)%N; locb_hicb; locb_hicb]
  else None.

Fixpoint utf8_valid (pending : list (N * N)) (s : string) : bool :=
  match s with
  | EmptyString => match pending with [] => true | _ => false end
  | String c s' =>
      match pending with
      | (lo, hi) :: rest =>
          if ((lo <=? N_of_ascii c) && (N_of_ascii c <=? hi))%N then utf8_valid rest s'
          else false
      | [] =>
          match utf8_first c with
          | Some rest => utf8_valid rest s'
          | None => false
          end
      end
  end.

Definition utf8_ValidString (s : string) : bool := utf8_valid [] s.

(** [validateLabelValues] of the library: the number of values is the
    number of label names of the descriptor, and every value is valid
    UTF-8.  [true] stands for a nil error. *)
Definition validateLabelValues (vals : list string) (expectedNumberOfValues : nat) : bool :=
  if negb (length vals =? expectedNumberOfValues)%nat then false
  else forallb utf8_ValidString vals.

(** A constant metric, as handed to the channel. *)
Record Metric : Type := constMetric {
  desc : prometheus_Desc;
  valueType : prometheus_ValueType;
  value : float64;
  labelValues : list string;
}.

(** [prometheus.MustNewConstMetric]: the metric of [NewConstMetric], and a
    panic, which is [None] here, when [NewConstMetric] returns an error.
    That is the error of [validateLabelValues].  (The error a descriptor
    can carry from [NewDesc] is nil for the seven descriptors of this
    file, whose names are constants that [NewDesc] accepts.) *)
Definition MustNewConstMetric (d : prometheus_Desc) (vt : prometheus_ValueType) (v : float64)
    (ls : list string) : option Metric :=
  if validateLabelValues ls (length (variableLabels d))
  then Some {| desc := d; valueType := vt; value := v; labelValues := ls |}
  else None.

(** ** The exporter's data *)

Record OpenvpnServerHeaderField : Type := {
  Column : string;
  Desc : prometheus_Desc;
  ValueType : prometheus_ValueType;
}.

Record OpenvpnServerHeader : Type := {
  LabelColumns : list string;
  Metrics : list OpenvpnServerHeaderField;
}.

Record GeoIP : Type := {
  Ip : string;
  CountryName : string;
  RegionName : string;
  City : string;
  Lat : float64;
  Lon : float64;
  Geohash : string;
}.

(** The zero value [GeoIP{}]. *)
Definition GeoIP_zero : GeoIP :=
  {| Ip := ""; CountryName := ""; RegionName := ""; City := "";
     Lat := f64_zero; Lon := f64_zero; Geohash := "" |}.

Record OpenVPNExporter : Type := {
  statusPath : string;
  geoIP : GeoIP;
  openvpnUpDesc : prometheus_Desc;
  openvpnStatusUpdateTimeDesc : prometheus_Desc;
  openvpnConnectedClientsDesc : prometheus_Desc;
  openvpnServerHeaders : gmap string OpenvpnServerHeader;
}.

(** Map keys: [recordedMetrics] is indexed by header fields. *)

#[global] Instance prometheus_ValueType_eq_dec : EqDecision prometheus_ValueType.
Proof. solve_decision. Defined.

#[global] Instance prometheus_Desc_eq_dec : EqDecision prometheus_Desc.
Proof. solve_decision. Defined.

#[global] Instance OpenvpnServerHeaderField_eq_dec : EqDecision OpenvpnServerHeaderField.
Proof. solve_decision. Defined.

#[global] Instance prometheus_ValueType_countable : Countable prometheus_ValueType.
Proof.
  refine (inj_countable'
            (fun v => match v with CounterValue => true | GaugeValue => false end)
            (fun b : bool => if b then CounterValue else GaugeValue) _).
  intros []; reflexivity.
Defined.

#[global] Instance prometheus_Desc_countable : Countable prometheus_Desc.
Proof.
  refine (inj_countable'
            (fun d => (fqName d, help d, variableLabels d))
            (fun t => match t with (n, h, ls) => NewDesc n h ls end) _).
  intros []; reflexivity.
Defined.

#[global] Instance OpenvpnServerHeaderField_countable : Countable OpenvpnServerHeaderField.
Proof.
  refine (inj_countable'
            (fun f => (Column f, Desc f, ValueType f))
            (fun t => match t with
                      | (c, d, v) => {| Column := c; Desc := d; ValueType := v |}
                      end) _).
  intros []; reflexivity.
Defined.

(** ** What the exporter takes from outside

    The standard library and third-party functions whose results the
    exporter only passes on, and the geolocation service.  [http_geo n a]
    is what the [n]-th request to the service yields for address [a]: the
    decoded body ([http.Get], [ioutil.ReadAll], [json.Unmarshal]) and the
    error of the first of the three that failed. *)
Class Externals : Type := {
  ParseFloat : string -> option float64;
  Sprintf_f : float64 -> string;
  geohash_Encode : float64 -> float64 -> string;
  http_geo : nat -> string -> GeoIP * option error;
  math_Sin : float64 -> float64;
  math_Cos : float64 -> float64;
  math_Asin : float64 -> float64;
  math_Pow : float64 -> float64 -> float64;
}.

(** The process-wide state: [geoCache] and the requests made so far. *)
Record World : Type := {
  geoCache : gmap string GeoIP;
  requests : nat;
}.

(** An [io.Reader]: the bytes it delivers and the error, if any, that ends
    them instead of [io.EOF]. *)
Record Reader : Type := {
  content : string;
  readErr : option error;
}.

(** A [bufio.Scanner] seen from its user: the tokens the calls of [Scan]
    deliver, then the value of [Err]. *)
Record Scanner : Type := {
  tokens : list string;
  scanErr : option error;
}.

(** ** bufio.Scanner with bufio.ScanLines *)

Definition newline : ascii := "010"%char.
Definition carriageReturn : ascii := "013"%char.
Definition tab : string := String "009"%char EmptyString.

(** The lines of a byte stream, terminators removed; a last line without
    terminator counts when it is not empty. *)
Fixpoint rawLines (s : string) : list string :=
  match s with
  | EmptyString => []
  | String c s' =>
      if Ascii.eqb c newline then EmptyString :: rawLines s'
      else match rawLines s' with
           | cur :: more => String c cur :: more
           | [] => [String c EmptyString]
           end
  end.

(** [dropCR]: one trailing carriage return goes. *)
Fixpoint dropCR (s : string) : string :=
  match s with
  | EmptyString => EmptyString
  | String c EmptyString => if Ascii.eqb c carriageReturn then EmptyString else s
  | String c s' => String c (dropCR s')
  end.

(** [bufio.MaxScanTokenSize]: a line that does not fit the buffer stops
    the scanner with [bufio.ErrTooLong]. *)
Definition MaxScanTokenSize : Z := 64 * 1024.

Fixpoint scanTokens (lines : list string) (err : option error) : Scanner :=
  match lines with
  | [] => {| tokens := []; scanErr := err |}
  | l :: rest =>
      if (Z.of_nat (String.length l) <? MaxScanTokenSize)%Z
      then let sc := scanTokens rest err in
           {| tokens := dropCR l :: tokens sc; scanErr := scanErr sc |}
      else {| tokens := []; scanErr := Some ErrTooLong |}
  end.

(** [bufio.NewScanner(file)] followed by [scanner.Split(bufio.ScanLines)]. *)
Definition NewScanner (file : Reader) : Scanner :=
  scanTokens (rawLines (content file)) (readErr file).

(** [reader.Peek(n)]: the first [n] bytes, or all there is. *)
Definition Peek (n : nat) (file : Reader) : string := String.substring 0 n (content file).

(** ** The reducer's state *)

(** The locals of [collectServerStatusFromReader], the metrics it has sent
    on [ch], and the process-wide state. *)
Record State : Type := {
  headersFound : gmap string (list string);
  numberConnectedClient : Z;
  recordedMetrics : gmap OpenvpnServerHeaderField (list string);
  ch : list Metric;
  world : World;
}.

(** What one turn of the line loop does: go on with the next line
    ([continue] or the end of the body), [return err], or panic. *)
Inductive flow : Type :=
| Continue (st : State)
| Return (err : error) (st : State)
| Panic (st : State).

(** How a call ends. *)
Inductive result : Type :=
| Returned (err : option error)
| Panicked.

Record Outcome : Type := {
  sent : list Metric;
  ret : result;
  after : World;
}.

(** [ch <- m] *)
Definition send (m : Metric) (st : State) : State :=
  {| headersFound := headersFound st;
     numberConnectedClient := numberConnectedClient st;
     recordedMetrics := recordedMetrics st;
     ch := ch st ++ [m];
     world := world st |}.

(** [headersFound[key] = columns] *)
Definition setHeader (key : string) (columns : list string) (st : State) : State :=
  {| headersFound := <[key := columns]> (headersFound st);
     numberConnectedClient := numberConnectedClient st;
     recordedMetrics := recordedMetrics st;
     ch := ch st;
     world := world st |}.

(** [numberConnectedClient++] *)
Definition countClient (st : State) : State :=
  {| headersFound := headersFound st;
     numberConnectedClient := wrap_int (numberConnectedClient st + 1);
     recordedMetrics := recordedMetrics st;
     ch := ch st;
     world := world st |}.

(** [recordedMetrics[metric] = l] *)
Definition setRecorded (metric : OpenvpnServerHeaderField) (l : list string) (st : State) : State :=
  {| headersFound := headersFound st;
     numberConnectedClient := numberConnectedClient st;
     recordedMetrics := <[metric := l]> (recordedMetrics st);
     ch := ch st;
     world := world st |}.

Definition setWorld (w : World) (st : State) : State :=
  {| headersFound := headersFound st;
     numberConnectedClient := numberConnectedClient st;
     recordedMetrics := recordedMetrics st;
     ch := ch st;
     world := w |}.

(** Reading a Go map: the zero value for a missing key. *)
Definition mapGet (m : gmap string string) (k : string) : string := default "" (m !! k).

Definition recorded (st : State) (metric : OpenvpnServerHeaderField) : list string :=
  default [] (recordedMetrics st !! metric).

(** The five server-level label values. *)
Definition serverLabels (e : OpenVPNExporter) : list string :=
  [Geohash (geoIP e); City (geoIP e); CountryName (geoIP e); RegionName (geoIP e); Ip (geoIP e)].

Section Exporter.

Context {ext : Externals}.

(** ** getGeo *)

Definition getGeo (address : string) (w : World) : GeoIP * option error * World :=
  match geoCache w !! address with
  | Some val => (val, None, w)
  | None =>
      let '(geo, err) := http_geo (requests w) address in
      match err with
      | Some err => (geo, Some err, {| geoCache := geoCache w; requests := S (requests w) |})
      | None =>
          let geo := {| Ip := Ip geo; CountryName := CountryName geo;
                        RegionName := RegionName geo; City := City geo;
                        Lat := Lat geo; Lon := Lon geo;
                        Geohash := geohash_Encode (Lat geo) (Lon geo) |} in
          (geo, None, {| geoCache := <[address := geo]> (geoCache w);
                         requests := S (requests w) |})
      end
  end.

(** ** NewOpenVPNExporter *)

Definition serverLabelNames : list string :=
  ["server_geohash"; "server_city"; "server_country"; "server_region"; "server_public_ip"].

Definition serverHeaderClientLabels : list string :=
  ["server_geohash"; "server_city"; "server_country"; "server_region"; "server_public_ip";
   "common_name"; "connection_time"; "real_address"; "virtual_address"; "username";
   "geohash"; "city"; "country"; "region"].

Definition serverHeaderClientLabelColumns : list string :=
  ["Common Name"; "Connected Since (time_t)"; "Real Address"; "Virtual Address"; "Username";
   "Geohash"; "City"; "Country"; "Region"].

Definition serverHeaderRoutingLabels : list string :=
  ["server_geohash"; "server_city"; "server_country"; "server_region"; "server_public_ip";
   "common_name"; "real_address"; "virtual_address"; "username";
   "geohash"; "city"; "country"; "region"].

Definition serverHeaderRoutingLabelColumns : list string :=
  ["Common Name"; "Real Address"; "Virtual Address"; "Username";
   "Geohash"; "City"; "Country"; "Region"].

(** The metric fields of the two record types, then the table entries. *)
Definition clientReceivedBytes : OpenvpnServerHeaderField :=
  {| Column := "Bytes Received";
     Desc := NewDesc (BuildFQName "openvpn" "server" "client_received_bytes_total")
               "Amount of data received over a connection on the VPN server, in bytes."
               serverHeaderClientLabels;
     ValueType := CounterValue |}.

Definition clientSentBytes : OpenvpnServerHeaderField :=
  {| Column := "Bytes Sent";
     Desc := NewDesc (BuildFQName "openvpn" "server" "client_sent_bytes_total")
               "Amount of data sent over a connection on the VPN server, in bytes."
               serverHeaderClientLabels;
     ValueType := CounterValue |}.

Definition clientDistance : OpenvpnServerHeaderField :=
  {| Column := "Distance From Server";
     Desc := NewDesc (BuildFQName "openvpn" "server" "client_distance")
               "Distance from server to client, in meters"
               serverHeaderClientLabels;
     ValueType := GaugeValue |}.

Definition routeLastReference : OpenvpnServerHeaderField :=
  {| Column := "Last Ref (time_t)";
     Desc := NewDesc (BuildFQName "openvpn" "server" "route_last_reference_time_seconds")
               "Time at which a route was last referenced, in seconds."
               serverHeaderRoutingLabels;
     ValueType := GaugeValue |}.

Definition clientListHeader : OpenvpnServerHeader :=
  {| LabelColumns := serverHeaderClientLabelColumns;
     Metrics := [clientReceivedBytes; clientSentBytes; clientDistance] |}.

Definition routingTableHeader : OpenvpnServerHeader :=
  {| LabelColumns := serverHeaderRoutingLabelColumns;
     Metrics := [routeLastReference] |}.

Definition NewOpenVPNExporter (statusPath : string) (w : World) : OpenVPNExporter * World :=
  let openvpnUpDesc :=
    NewDesc (BuildFQName "openvpn" "" "up")
      "Whether scraping OpenVPN's metrics was successful." serverLabelNames in
  let openvpnStatusUpdateTimeDesc :=
    NewDesc (BuildFQName "openvpn" "" "status_update_time_seconds")
      "UNIX timestamp at which the OpenVPN statistics were updated." serverLabelNames in
  let openvpnConnectedClientsDesc :=
    NewDesc (BuildFQName "openvpn" "" "server_connected_clients")
      "Number Of Connected Clients" serverLabelNames in
  let openvpnServerHeaders : gmap string OpenvpnServerHeader :=
    <["ROUTING_TABLE" := routingTableHeader]> (<["CLIENT_LIST" := clientListHeader]> ∅) in
  (* the error of getGeo is logged; its GeoIP is kept either way *)
  let '(geo, _, w) := getGeo "" w in
  ({| statusPath := statusPath;
      geoIP := geo;
      openvpnUpDesc := openvpnUpDesc;
      openvpnStatusUpdateTimeDesc := openvpnStatusUpdateTimeDesc;
      openvpnConnectedClientsDesc := openvpnConnectedClientsDesc;
      openvpnServerHeaders := openvpnServerHeaders |}, w).

(** ** distance

    The operations of float64 are those of IEEE 754, each rounded on its
    own. *)

Definition hsin (theta : float64) : float64 :=
  math_Pow (math_Sin (f64_div theta (f64_of_Z 2))) (f64_of_Z 2).

Definition distance (lat1 lon1 lat2 lon2 : float64) : float64 :=
  let la1 := f64_div (f64_mul lat1 math_Pi) (f64_of_Z 180) in
  let lo1 := f64_div (f64_mul lon1 math_Pi) (f64_of_Z 180) in
  let la2 := f64_div (f64_mul lat2 math_Pi) (f64_of_Z 180) in
  let lo2 := f64_div (f64_mul lon2 math_Pi) (f64_of_Z 180) in
  let r := f64_of_Z 6378100 in
  let h := f64_add (hsin (f64_sub la2 la1))
             (f64_mul (f64_mul (math_Cos la1) (math_Cos la2)) (hsin (f64_sub lo2 lo1))) in
  f64_mul (f64_mul (f64_of_Z 2) r) (math_Asin (f64_sqrt h)).

(** ** collectServerStatusFromReader *)

(** Store entry values in a map indexed by column name. *)
Fixpoint initColumns (labelColumns : list string) (columnValues : gmap string string)
  : gmap string string :=
  match labelColumns with
  | [] => columnValues
  | column :: rest => initColumns rest (<[column := ""]> columnValues)
  end.

Fixpoint overlayColumns (columnNames : list string) (i : nat) (fields : list string)
    (columnValues : gmap string string) : gmap string string :=
  match columnNames with
  | [] => columnValues
  | column :: rest =>
      overlayColumns rest (S i) fields (<[column := index fields (i + 1)]> columnValues)
  end.

Definition buildColumnValues (header : OpenvpnServerHeader) (columnNames fields : list string)
  : gmap string string :=
  overlayColumns columnNames 0 fields (initColumns (LabelColumns header) ∅).

(** The columns synthesized from a resolved address. *)
Definition overlayGeo (e : OpenVPNExporter) (geo : GeoIP) (columnValues : gmap string string)
  : gmap string string :=
  let columnValues := <["Geohash" := Geohash geo]> columnValues in
  let columnValues :=
    <["City" := if negb (String.eqb (City geo) "") then City geo else "Unknown"]> columnValues in
  let columnValues :=
    <["Region" := if negb (String.eqb (RegionName geo) "") then RegionName geo else "Unknown"]>
      columnValues in
  let columnValues :=
    <["Country" := if negb (String.eqb (CountryName geo) "") then CountryName geo else "Unknown"]>
      columnValues in
  if f64_eqb (Lon (geoIP e)) f64_zero && f64_eqb (Lat (geoIP e)) f64_zero
  then (* don't bother calculating, geoIP didn't resolve *)
    <["Distance From Server" := "0"]> columnValues
  else
    let d := distance (Lat geo) (Lon geo) (Lat (geoIP e)) (Lon (geoIP e)) in
    <["Distance From Server" := Sprintf_f d]> columnValues.

Definition resolveRow (e : OpenVPNExporter) (columnValues : gmap string string) (w : World)
  : gmap string string * World :=
  if negb (String.eqb (mapGet columnValues "Real Address") "") then
    let ip := index (Split (mapGet columnValues "Real Address") ":") 0 in
    let '(geo, err, w) := getGeo ip w in
    match err with
    | Some _ => (columnValues, w)
    | None => (overlayGeo e geo columnValues, w)
    end
  else (columnValues, w).

(** Extract columns that should act as entry labels. *)
Definition buildLabels (e : OpenVPNExporter) (header : OpenvpnServerHeader)
    (columnValues : gmap string string) : list string :=
  serverLabels e ++ map (mapGet columnValues) (LabelColumns header).

(** Export relevant columns as individual metrics: the body of the loop
    over [header.Metrics], then the loop. *)
Definition exportMetric (metric : OpenvpnServerHeaderField)
    (columnValues : gmap string string) (labels : list string) (st : State) : flow :=
  match columnValues !! Column metric with
  | Some columnValue =>
      let l := recorded st metric in
      if negb (subslice labels l) then
        match ParseFloat columnValue with
        | None => Return (ErrParseFloat columnValue) st
        | Some value =>
            match MustNewConstMetric (Desc metric) (ValueType metric) value labels with
            | None => Panic st
            | Some m => Continue (setRecorded metric (recorded st metric ++ labels) (send m st))
            end
        end
      else Continue st
  | None => Continue st
  end.

Fixpoint exportMetrics (metrics : list OpenvpnServerHeaderField)
    (columnValues : gmap string string) (labels : list string) (st : State) : flow :=
  match metrics with
  | [] => Continue st
  | metric :: rest =>
      match exportMetric metric columnValues labels st with
      | Continue st => exportMetrics rest columnValues labels st
      | stop => stop
      end
  end.

(** Entry that depends on a preceding HEADERS directive. *)
Definition dataRow (e : OpenVPNExporter) (header : OpenvpnServerHeader)
    (fields : list string) (st : State) : flow :=
  match headersFound st !! index fields 0 with
  | None => Return (ErrNoHeader (index fields 0)) st
  | Some columnNames =>
      if negb (length fields =? length columnNames + 1)%nat
      then Return (ErrColumnCount (index fields 0)) st
      else
        let columnValues := buildColumnValues header columnNames fields in
        if String.eqb (mapGet columnValues "Common Name") "UNDEF"
           || String.eqb (mapGet columnValues "Common Name") ""
        then Continue st (* skip this 'client' *)
        else
          let st := if String.eqb (index fields 0) "CLIENT_LIST" then countClient st else st in
          let '(columnValues, w) := resolveRow e columnValues (world st) in
          let st := setWorld w st in
          let labels := buildLabels e header columnValues in
          exportMetrics (Metrics header) columnValues labels st
  end.

(** The body of the loop over the scanner's lines. *)
Definition lineStep (e : OpenVPNExporter) (fields : list string) (st : State) : flow :=
  match fields with
  | [] => Panic st (* fields[0]: index out of range *)
  | key :: _ =>
      if String.eqb key "END" && (length fields =? 1)%nat then Continue st
      else if String.eqb key "GLOBAL_STATS" then Continue st
      else if String.eqb key "HEADER" && (2 <? length fields)%nat then
        Continue (setHeader (index fields 1) (drop 2 fields) st)
      else if String.eqb key "TIME" && (length fields =? 3)%nat then
        match ParseFloat (index fields 2) with
        | None => Return (ErrParseFloat (index fields 2)) st
        | Some timeStartStats =>
            match MustNewConstMetric (openvpnStatusUpdateTimeDesc e) GaugeValue
                    timeStartStats (serverLabels e) with
            | None => Panic st
            | Some m => Continue (send m st)
            end
        end
      else if String.eqb key "TITLE" && (length fields =? 2)%nat then Continue st
      else
        match openvpnServerHeaders e !! key with
        | Some header => dataRow e header fields st
        | None => Return (ErrUnsupportedKey key) st
        end
  end.

Fixpoint scanLoop (e : OpenVPNExporter) (separator : string) (lines : list string)
    (st : State) : flow :=
  match lines with
  | [] => Continue st
  | text :: rest =>
      match lineStep e (Split text separator) st with
      | Continue st => scanLoop e separator rest st
      | stop => stop
      end
  end.

Definition initialState (w : World) : State :=
  {| headersFound := ∅; numberConnectedClient := 0; recordedMetrics := ∅;
     ch := []; world := w |}.

(** Converts OpenVPN server status information into Prometheus metrics. *)
Definition collectServerStatusFromReader (e : OpenVPNExporter) (file : Reader)
    (separator : string) (w : World) : Outcome :=
  let scanner := NewScanner file in
  match scanLoop e separator (tokens scanner) (initialState w) with
  | Continue st =>
      (* add the number of connected client *)
      match MustNewConstMetric (openvpnConnectedClientsDesc e) GaugeValue
              (f64_of_Z (numberConnectedClient st)) (serverLabels e) with
      | None => {| sent := ch st; ret := Panicked; after := world st |}
      | Some m =>
          {| sent := ch st ++ [m]; ret := Returned (scanErr scanner); after := world st |}
      end
  | Return err st => {| sent := ch st; ret := Returned (Some err); after := world st |}
  | Panic st => {| sent := ch st; ret := Panicked; after := world st |}
  end.

(** Converts OpenVPN status information into Prometheus metrics. *)
Definition collectStatusFromReader (e : OpenVPNExporter) (statusPath : string) (file : Reader)
    (w : World) : Outcome :=
  let buf := Peek 18 file in
  if HasPrefix buf "TITLE," then collectServerStatusFromReader e file "," w
  else if HasPrefix buf ("TITLE" +:+ tab) then collectServerStatusFromReader e file tab w
  else if HasPrefix buf "OpenVPN STATISTICS" then
    {| sent := []; ret := Returned (Some ErrClientStatus); after := w |}
  else {| sent := []; ret := Returned (Some (ErrUnexpectedContents buf)); after := w |}.

(** [os.Open] is given by [fs]: the reader, or the error, of a path. *)
Definition collectStatusFromFile (e : OpenVPNExporter) (statusPath : string)
    (fs : string -> Reader + error) (w : World) : Outcome :=
  match fs statusPath with
  | inr err => {| sent := []; ret := Returned (Some err); after := w |}
  | inl conn => collectStatusFromReader e statusPath conn w
  end.

Definition Collect (e : OpenVPNExporter) (fs : string -> Reader + error) (w : World) : Outcome :=
  let r := collectStatusFromFile e (statusPath e) fs w in
  match ret r with
  | Returned None =>
      match MustNewConstMetric (openvpnUpDesc e) GaugeValue f64_one (serverLabels e) with
      | None => {| sent := sent r; ret := Panicked; after := after r |}
      | Some m => {| sent := sent r ++ [m]; ret := Returned None; after := after r |}
      end
  | Returned (Some _) =>
      match MustNewConstMetric (openvpnUpDesc e) GaugeValue f64_zero (serverLabels e) with
      | None => {| sent := sent r; ret := Panicked; after := after r |}
      | Some m => {| sent := sent r ++ [m]; ret := Returned None; after := after r |}
      end
  | Panicked => r
  end.

End Exporter.

(** * Notions used in the statements *)

(** The state a turn of the loop leaves behind, however it ends. *)
Definition stateOf (f : flow) : State :=
  match f with
  | Continue st | Return _ st | Panic st => st
  end.

(** The turn ended in a panic. *)
Definition panics (f : flow) : bool :=
  match f with
  | Panic _ => true
  | _ => false
  end.

(** [st'] is [st] after more metrics, each satisfying [P], were sent and
    more label values were appended to the pools of [recordedMetrics]. *)
Definition grows (P : Metric -> Prop) (st st' : State) : Prop :=
  (exists new, ch st' = ch st ++ new /\ Forall P new) /\
  (forall f, exists more, recorded st' f = recorded st f ++ more).

(** The state apart from the channel and the pools. *)
Definition sameLocals (st st' : State) : Prop :=
  headersFound st' = headersFound st /\
  numberConnectedClient st' = numberConnectedClient st /\
  world st' = world st.

(** The effect of a line on [headersFound]: a HEADER line with more than
    two fields declares the columns of its record type. *)
Definition declareHeader (fields : list string) (hs : gmap string (list string))
  : gmap string (list string) :=
  if String.eqb (index fields 0) "HEADER" && (2 <? length fields)%nat
  then <[index fields 1 := drop 2 fields]> hs
  else hs.

(** The HEADER declarations of the lines read so far. *)
Definition declaredHeaders (separator : string) (lines : list string)
    (hs : gmap string (list string)) : gmap string (list string) :=
  foldl (fun hs line => declareHeader (Split line separator) hs) hs lines.

(** The line is a HEADER line that declares the columns of [key]. *)
Definition declares (separator key line : string) : bool :=
  let fields := Split line separator in
  String.eqb (index fields 0) "HEADER" && (2 <? length fields)%nat
  && String.eqb (index fields 1) key.

(** A field of the exporter's table of record types. *)
Definition tableField (e : OpenVPNExporter) (metric : OpenvpnServerHeaderField) : Prop :=
  exists key header, openvpnServerHeaders e !! key = Some header /\ metric ∈ Metrics header.

(** Every call of [prometheus.NewDesc] yields a descriptor of its own. *)
Record distinctDescs (e : OpenVPNExporter) : Prop := {
  up_not_time : openvpnUpDesc e <> openvpnStatusUpdateTimeDesc e;
  up_not_clients : openvpnUpDesc e <> openvpnConnectedClientsDesc e;
  time_not_clients : openvpnStatusUpdateTimeDesc e <> openvpnConnectedClientsDesc e;
  field_not_up : forall metric, tableField e metric -> Desc metric <> openvpnUpDesc e;
  field_not_time :
    forall metric, tableField e metric -> Desc metric <> openvpnStatusUpdateTimeDesc e;
  field_not_clients :
    forall metric, tableField e metric -> Desc metric <> openvpnConnectedClientsDesc e;
  field_by_desc :
    forall m1 m2, tableField e m1 -> tableField e m2 -> Desc m1 = Desc m2 -> m1 = m2;
}.

(** The three gauges of the exporter itself, as the library builds them
    when it accepts their label values. *)
Definition statusUpdateTimeMetric (e : OpenVPNExporter) (t : float64) : Metric :=
  constMetric (openvpnStatusUpdateTimeDesc e) GaugeValue t (serverLabels e).

Definition connectedClientsMetric (e : OpenVPNExporter) (n : Z) : Metric :=
  constMetric (openvpnConnectedClientsDesc e) GaugeValue (f64_of_Z n) (serverLabels e).

Definition upMetric (e : OpenVPNExporter) (v : float64) : Metric :=
  constMetric (openvpnUpDesc e) GaugeValue v (serverLabels e).

(** The label values are ones the library accepts: all valid UTF-8. *)
Definition validLabels (labels : list string) : bool := forallb utf8_ValidString labels.

(** A descriptor and a label vector that the exporter hands to
    [MustNewConstMetric] during a scrape: one of its own three gauges with
    the server-level values, or a field of the table with the label vector
    of a row. *)
Definition handed (e : OpenVPNExporter) (d : prometheus_Desc) (labels : list string) : Prop :=
  (d ∈ [openvpnUpDesc e; openvpnStatusUpdateTimeDesc e; openvpnConnectedClientsDesc e] /\
   labels = serverLabels e) \/
  (exists key header columnValues metric,
      openvpnServerHeaders e !! key = Some header /\ metric ∈ Metrics header /\
      d = Desc metric /\ labels = buildLabels e header columnValues).

(** The library refused what it was handed. *)
Definition refused (e : OpenVPNExporter) : Prop :=
  exists d labels,
    handed e d labels /\ validateLabelValues labels (length (variableLabels d)) = false.

(** The label vectors of the metrics sent with the descriptor of a field. *)
Definition sentFor (metric : OpenvpnServerHeaderField) (c : list Metric) : list (list string) :=
  map labelValues (filter (fun m => desc m = Desc metric) c).

(** The pool of every field of the table is the concatenation of the
    label vectors sent for the field, and no label vector is sent twice
    for a field. *)
Definition poolsInvariant (e : OpenVPNExporter) (c : list Metric)
    (r : gmap OpenvpnServerHeaderField (list string)) : Prop :=
  forall metric,
    tableField e metric ->
    default [] (r !! metric) = concat (sentFor metric c) /\ NoDup (sentFor metric c).

(** A property [I] of the metrics sent so far and of the pools holds in a
    state. *)
Definition holds (I : list Metric -> gmap OpenvpnServerHeaderField (list string) -> Prop)
    (st : State) : Prop :=
  I (ch st) (recordedMetrics st).

Section Sent.

Context {ext : Externals}.

(** A metric that the loop over [metrics] can send for a row. *)
Definition exportedFrom (metrics : list OpenvpnServerHeaderField)
    (columnValues : gmap string string) (labels : list string) (m : Metric) : Prop :=
  exists metric columnValue,
    metric ∈ metrics /\
    columnValues !! Column metric = Some columnValue /\
    ParseFloat columnValue = Some (value m) /\
    desc m = Desc metric /\ valueType m = ValueType metric /\ labelValues m = labels.

(** A metric that a line of the status file can make the reducer send. *)
Definition sentByLine (e : OpenVPNExporter) (m : Metric) : Prop :=
  (desc m = openvpnStatusUpdateTimeDesc e /\ valueType m = GaugeValue /\
   labelValues m = serverLabels e) \/
  (exists key header columnValues,
      openvpnServerHeaders e !! key = Some header /\
      exportedFrom (Metrics header) columnValues (buildLabels e header columnValues) m).

(** What the reducer can send during one scrape. *)
Definition sentByScrape (e : OpenVPNExporter) (m : Metric) : Prop :=
  sentByLine e m \/ exists n, m = connectedClientsMetric e n.

End Sent.

(** ** A concrete environment for running the reducer

    A host without network access: every request fails.  [parseDecimal]
    accepts unsigned decimal integers, which [strconv.ParseFloat] reads as
    the same numbers; the formatting and trigonometric functions are not
    reached when the server's own location is unresolved. *)

Definition digitValue (c : ascii) : option Z :=
  let n := Z.of_nat (nat_of_ascii c) in
  if ((48 <=? n) && (n <=? 57))%Z then Some (n - 48)%Z else None.

Fixpoint parseDigits (s : string) (acc : Z) : option Z :=
  match s with
  | EmptyString => Some acc
  | String c s' =>
      match digitValue c with
      | Some d => parseDigits s' (10 * acc + d)%Z
      | None => None
      end
  end.

Definition parseDecimal (s : string) : option float64 :=
  match s with
  | EmptyString => None
  | _ => option_map f64_of_Z (parseDigits s 0)
  end.

Definition offline : Externals :=
  {| ParseFloat := parseDecimal;
     Sprintf_f := fun _ => "0.000000";
     geohash_Encode := fun _ _ => "s00000000000";
     http_geo := fun _ _ => (GeoIP_zero, Some (ErrExternal "no route to host"));
     math_Sin := fun x => x;
     math_Cos := fun x => x;
     math_Asin := fun x => x;
     math_Pow := fun x _ => x |}.

Definition emptyWorld : World := {| geoCache := ∅; requests := 0 |}.

(** The exporter of a host whose own location did not resolve. *)
Definition offlineExporter : OpenVPNExporter :=
  fst (NewOpenVPNExporter (ext := offline) "/etc/openvpn/status.log" emptyWorld).

(** A status file given by its lines. *)
Definition fileOf (lines : list string) : Reader :=
  {| content := String.concat (String newline EmptyString) lines; readErr := None |}.

(** The label vector the reducer builds for a row that names no real
    address (so that no location is looked up), under the given HEADER
    columns. *)
Definition labelsOfRow (e : OpenVPNExporter) (header : OpenvpnServerHeader)
    (columnNames : list string) (row : string) : list string :=
  buildLabels e header (buildColumnValues header columnNames (Split row ",")).

(** The membership test in the words of the specification: some previously
    recorded label combination is a superset of the values of the current
    label vector. *)
Definition spec_supersetRecorded (combinations : list (list string)) (labels : list string)
  : bool :=
  existsb (fun combination => forallb (fun v => existsb (String.eqb v) combination) labels)
    combinations.

(** Three clients; the third shares its name with the first and its user
    with the second. *)
Definition threeClients : Reader :=
  fileOf ["TITLE,OpenVPN 2.4.7";
          "HEADER,CLIENT_LIST,Common Name,Username,Bytes Received";
          "CLIENT_LIST,alice,u1,10";
          "CLIENT_LIST,bob,u2,20";
          "CLIENT_LIST,alice,u2,30";
          "END"].

(** Four routes; the address of the first was given to the client of the
    second, and that route is listed twice. *)
Definition fourRoutes : Reader :=
  fileOf ["TITLE,OpenVPN 2.4.7";
          "HEADER,ROUTING_TABLE,Virtual Address,Common Name,Last Ref (time_t)";
          "ROUTING_TABLE,10.8.0.2,alice,100";
          "ROUTING_TABLE,10.8.0.3,bob,200";
          "ROUTING_TABLE,10.8.0.2,bob,300";
          "ROUTING_TABLE,10.8.0.2,bob,400";
          "END"].

Definition clientColumns : list string := ["Common Name"; "Username"; "Bytes Received"].

Definition routeColumns : list string := ["Virtual Address"; "Common Name"; "Last Ref (time_t)"].

(** The state after the HEADER line of [threeClients]. *)
Definition afterClientHeader : State :=
  setHeader "CLIENT_LIST" clientColumns (initialState emptyWorld).

(** A snapshot whose client has a name that is not valid UTF-8: the one
    byte 0xFF. *)
Definition invalidName : Reader :=
  fileOf ["TITLE,OpenVPN 2.4.7";
          "HEADER,CLIENT_LIST,Common Name,Bytes Received";
          "CLIENT_LIST," +:+ String "255"%char "" +:+ ",10";
          "END"].

(** A client with a name and a peer without one. *)
Definition oneNamedClient : Reader :=
  fileOf ["TITLE,OpenVPN 2.4.7";
          "HEADER,CLIENT_LIST,Common Name,Bytes Received";
          "CLIENT_LIST,alice,10";
          "CLIENT_LIST,UNDEF,20";
          "END"].

(** A stream that breaks off with a read error after two lines. *)
Definition brokenFile : Reader :=
  {| content := content (fileOf ["TITLE,OpenVPN 2.4.7"; "GLOBAL_STATS,Max bcast/mcast queue length,0"]);
     readErr := Some (ErrExternal "read /var/run/openvpn/status.log: input/output error") |}.

(** A location as the service reports it, and a cache that holds it. *)
Definition someClientLocation : GeoIP :=
  {| Ip := "203.0.113.7"; CountryName := "France"; RegionName := ""; City := "Paris";
     Lat := f64_of_Z 48; Lon := f64_of_Z 2; Geohash := "u09tvw0f6szy" |}.

Definition warmWorld : World :=
  {| geoCache := <["203.0.113.7" := someClientLocation]> ∅; requests := 1 |}.

(** * More of the exporter, and more notions *)

(** [Describe] sends the one descriptor the exporter announces. *)
Definition Describe (e : OpenVPNExporter) : list prometheus_Desc := [openvpnUpDesc e].

(** The cache of [w'] holds every entry of the cache of [w], unchanged. *)
Definition cacheGrows (w w' : World) : Prop :=
  (forall address geo, geoCache w !! address = Some geo -> geoCache w' !! address = Some geo) /\
  (requests w <= requests w')%nat.

(** The string has no colon in it. *)
Fixpoint noColon (s : string) : bool :=
  match s with
  | EmptyString => true
  | String c s' => negb (Ascii.eqb c ":"%char) && noColon s'
  end.

(** An error that the line loop itself returns. *)
Definition loopError (err : error) : Prop :=
  match err with
  | ErrNoHeader _ | ErrColumnCount _ | ErrUnsupportedKey _ | ErrParseFloat _ => True
  | _ => False
  end.

(** The row is a CLIENT_LIST row with a name, read with the columns that
    [hs] declares for CLIENT_LIST. *)
Definition namedClient (hs : gmap string (list string)) (fields : list string) : bool :=
  String.eqb (index fields 0) "CLIENT_LIST"
  && negb (String.eqb (mapGet (buildColumnValues clientListHeader
                                 (default [] (hs !! "CLIENT_LIST")) fields) "Common Name")
             "UNDEF"
           || String.eqb (mapGet (buildColumnValues clientListHeader
                                    (default [] (hs !! "CLIENT_LIST")) fields) "Common Name")
                "").

(** The number of such rows among the lines of a snapshot, each read with
    the HEADER declarations before it. *)
Fixpoint namedClients (separator : string) (hs : gmap string (list string))
    (lines : list string) : nat :=
  match lines with
  | [] => 0
  | line :: rest =>
      (if namedClient hs (Split line separator) then 1 else 0)
      + namedClients separator (declareHeader (Split line separator) hs) rest
  end.

Section Times.

Context {ext : Externals}.

(** The time that a line reports: the third field of a TIME line of three
    fields, when it parses. *)
Definition reportedTime (separator line : string) : option float64 :=
  let fields := Split line separator in
  if String.eqb (index fields 0) "TIME" && (length fields =? 3)%nat
  then ParseFloat (index fields 2)
  else None.

End Times.

(** The names and kinds of the metrics of the exporter. *)
Definition metricIdentities : list (string * prometheus_ValueType) :=
  [("openvpn_up", GaugeValue);
   ("openvpn_status_update_time_seconds", GaugeValue);
   ("openvpn_server_connected_clients", GaugeValue);
   ("openvpn_server_client_received_bytes_total", CounterValue);
   ("openvpn_server_client_sent_bytes_total", CounterValue);
   ("openvpn_server_client_distance", GaugeValue);
   ("openvpn_server_route_last_reference_time_seconds", GaugeValue)].

(** A location service that knows one address, and everything else as in
    [offline]. *)
Definition lookupService : Externals :=
  {| ParseFloat := parseDecimal;
     Sprintf_f := fun _ => "0.000000";
     geohash_Encode := fun _ _ => "u09tvw0f6szy";
     http_geo := fun _ address =>
                   if String.eqb address "203.0.113.7"
                   then (someClientLocation, None)
                   else (GeoIP_zero, Some (ErrExternal "no route to host"));
     math_Sin := fun x => x;
     math_Cos := fun x => x;
     math_Asin := fun x => x;
     math_Pow := fun x _ => x |}.

(** A snapshot that reports its time twice. *)
Definition twoTimes : Reader :=
  fileOf ["TITLE,OpenVPN 2.4.7";
          "TIME,Thu Jun 18 04:23:03 2015,1434601383";
          "TIME,Thu Jun 18 04:23:13 2015,1434601393";
          "END"].

(** A snapshot whose footer carries a second field. *)
Definition longFooter : Reader :=
  fileOf ["TITLE,OpenVPN 2.4.7"; "END,of file"; "GLOBAL_STATS,Max bcast/mcast queue length,0"].

(** The ranges still to be met all lie above the ASCII bytes. *)
Definition continuationRanges (pending : list (N * N)) : Prop :=
  Forall (fun range => (128 <= fst range)%N) pending.

(** The strings of a location are valid UTF-8. *)
Definition validGeo (geo : GeoIP) : bool :=
  validLabels [Geohash geo; City geo; CountryName geo; RegionName geo; Ip geo].

(** The cache holds valid locations only. *)
Definition validWorld (w : World) : Prop :=
  forall address geo, geoCache w !! address = Some geo -> validGeo geo = true.

(** The values of all columns are valid UTF-8. *)
Definition validColumns (columnValues : gmap string string) : Prop :=
  forall column v, columnValues !! column = Some v -> utf8_ValidString v = true.

Section Service.

Context {ext : Externals}.

(** What the libraries behind [Externals] guarantee for strings: those
    that [json.Unmarshal] decodes are valid UTF-8 (it replaces what is
    not), and a geohash and a formatted float are ASCII. *)
Definition validService : Prop :=
  (forall n address, validGeo (fst (http_geo n address)) = true) /\
  (forall lat lon, utf8_ValidString (geohash_Encode lat lon) = true) /\
  (forall d, utf8_ValidString (Sprintf_f d) = true).

End Service.

(** * Proof tools *)

Ltac row_facts H :=
  let G := fresh "G" in
  let H1 := fresh "H" in
  let H2 := fresh "H" in
  let H3 := fresh "H" in
  pose proof H as (G & H1 & H2 & H3);
  split; [exact G | split; [exact H1 | split; [intros _; exact H2 | exact H3]]].

(** * Properties *)

(** ** Strings and slices *)

Lemma Split_nonempty (s sep : string) : sep <> "" -> Split s sep <> [].
Proof.
  intros Hsep. destruct sep as [|a sep']; [congruence|].
  unfold Split. generalize 0%nat. induction s as [|c s IH]; intros skip; cbn [splitOn].
  - intros H; discriminate H.
  - destruct skip as [|k]; [|apply IH].
    destruct (String.prefix _ _); [intros H; discriminate H|].
    destruct (splitOn _ 0 s); intros H; discriminate H.
Qed.

Lemma contains_elem_of (s : list string) (e : string) : contains s e = true <-> e ∈ s.
Proof.
  induction s as [|a s IH]; simpl.
  - split; [discriminate|]. intros H. inversion H.
  - destruct (String.eqb_spec a e) as [->|Hne].
    + split; [intros _; left | reflexivity].
    + rewrite IH. split; [intros H; right; exact H|].
      intros H. inversion H; subst; [congruence | assumption].
Qed.

Lemma allContained_spec (sub main : list string) :
  allContained sub main = true <-> forall v, v ∈ sub -> v ∈ main.
Proof.
  induction sub as [|s sub IH]; simpl.
  - split; [|reflexivity]. intros _ v H. inversion H.
  - destruct (contains main s) eqn:Hc; simpl.
    + rewrite IH. apply contains_elem_of in Hc. split.
      * intros H v Hv. inversion Hv; subst; auto.
      * intros H v Hv. apply H. right. exact Hv.
    + split; [discriminate|]. intros H.
      assert (contains main s = true) as Hc'; [|congruence].
      apply contains_elem_of, H. left.
Qed.

(** The test of [subslice]: the pool [main] is at least as long as [sub]
    and holds each of its values somewhere. *)
Lemma subslice_spec (sub main : list string) :
  subslice sub main = true <->
  (length sub <= length main)%nat /\ forall v, v ∈ sub -> v ∈ main.
Proof.
  unfold subslice. destruct (Nat.ltb_spec (length main) (length sub)) as [Hlt|Hge].
  - split; [discriminate|]. intros [Hle _]. lia.
  - rewrite allContained_spec. split; [intros H; split; [exact Hge | exact H] | intros [_ H]; exact H].
Qed.

Lemma prefix_substring (p s : string) (n : nat) :
  (String.length p <= n)%nat -> String.prefix p (String.substring 0 n s) = String.prefix p s.
Proof.
  revert s n. induction p as [|a p IH]; intros s n Hlen.
  - destruct s, n; reflexivity.
  - simpl in Hlen. destruct n as [|n]; [lia|].
    destruct s as [|b s]; simpl; [reflexivity|].
    destruct (ascii_dec a b); [|reflexivity]. apply IH. lia.
Qed.

Lemma prefix_first_byte (a b : ascii) (p q s : string) :
  String.prefix (String a p) s = true -> String.prefix (String b q) s = true -> a = b.
Proof.
  destruct s as [|c s]; simpl; [discriminate|].
  destruct (ascii_dec a c), (ascii_dec b c); congruence.
Qed.

Lemma prefix_sixth_byte (a b c1 c2 c3 c4 c5 : ascii) (p q s : string) :
  String.prefix (String c1 (String c2 (String c3 (String c4 (String c5 (String a p)))))) s = true ->
  String.prefix (String c1 (String c2 (String c3 (String c4 (String c5 (String b q)))))) s = true ->
  a = b.
Proof.
  do 5 (destruct s as [|? s]; simpl; [discriminate|]; destruct (ascii_dec _ _); [|discriminate]).
  apply prefix_first_byte.
Qed.

(** ** What a step does to the state *)

Lemma grows_refl (P : Metric -> Prop) (st : State) : grows P st st.
Proof.
  split.
  - exists []. rewrite app_nil_r. split; [reflexivity | constructor].
  - intros f. exists []. rewrite app_nil_r. reflexivity.
Qed.

Lemma grows_trans (P : Metric -> Prop) (st1 st2 st3 : State) :
  grows P st1 st2 -> grows P st2 st3 -> grows P st1 st3.
Proof.
  intros [[n1 [E1 F1]] R1] [[n2 [E2 F2]] R2]. split.
  - exists (n1 ++ n2). rewrite E2, E1, app_assoc. split; [reflexivity|].
    apply Forall_app. split; assumption.
  - intros f. destruct (R1 f) as [m1 H1]. destruct (R2 f) as [m2 H2].
    exists (m1 ++ m2). rewrite H2, H1, app_assoc. reflexivity.
Qed.

Lemma grows_weaken (P Q : Metric -> Prop) (st st' : State) :
  (forall m, P m -> Q m) -> grows P st st' -> grows Q st st'.
Proof.
  intros HPQ [[new [E F]] R]. split; [|exact R].
  exists new. split; [exact E|]. revert F. apply List.Forall_impl. exact HPQ.
Qed.

Lemma recorded_setRecorded (metric f : OpenvpnServerHeaderField) (l : list string) (st : State) :
  recorded (setRecorded metric l st) f = if decide (metric = f) then l else recorded st f.
Proof.
  unfold recorded, setRecorded; cbn [recordedMetrics].
  destruct (decide (metric = f)) as [->|Hne].
  - rewrite lookup_insert_eq. reflexivity.
  - rewrite lookup_insert_ne by exact Hne. reflexivity.
Qed.

(** ** What the library accepts *)

Lemma MustNewConstMetric_Some (d : prometheus_Desc) (vt : prometheus_ValueType) (v : float64)
    (ls : list string) (m : Metric) :
  MustNewConstMetric d vt v ls = Some m ->
  m = constMetric d vt v ls /\ validateLabelValues ls (length (variableLabels d)) = true.
Proof.
  unfold MustNewConstMetric. destruct (validateLabelValues _ _); [|discriminate].
  intros [= <-]. split; reflexivity.
Qed.

Lemma MustNewConstMetric_None (d : prometheus_Desc) (vt : prometheus_ValueType) (v : float64)
    (ls : list string) :
  MustNewConstMetric d vt v ls = None ->
  validateLabelValues ls (length (variableLabels d)) = false.
Proof.
  unfold MustNewConstMetric. destruct (validateLabelValues _ _); [discriminate | reflexivity].
Qed.

Lemma MustNewConstMetric_accepts (d : prometheus_Desc) (vt : prometheus_ValueType) (v : float64)
    (ls : list string) :
  validateLabelValues ls (length (variableLabels d)) = true ->
  MustNewConstMetric d vt v ls = Some (constMetric d vt v ls).
Proof. unfold MustNewConstMetric. intros ->. reflexivity. Qed.

Lemma validateLabelValues_cardinal (ls : list string) (n : nat) :
  length ls = n -> validateLabelValues ls n = validLabels ls.
Proof. intros <-. unfold validateLabelValues. rewrite Nat.eqb_refl. reflexivity. Qed.

Section Reducer.

Context {ext : Externals}.

Lemma exportMetric_grows (metric : OpenvpnServerHeaderField)
    (columnValues : gmap string string) (labels : list string) (st : State) :
  let st' := stateOf (exportMetric metric columnValues labels st) in
  grows (exportedFrom [metric] columnValues labels) st st' /\ sameLocals st st' /\
  (panics (exportMetric metric columnValues labels st) = true ->
   validateLabelValues labels (length (variableLabels (Desc metric))) = false).
Proof.
  unfold exportMetric.
  destruct (columnValues !! Column metric) as [columnValue|] eqn:Hcol;
    [|cbn; split; [apply grows_refl | repeat split; discriminate]].
  destruct (subslice labels (recorded st metric)); cbn [negb];
    [cbn; split; [apply grows_refl | repeat split; discriminate]|].
  destruct (ParseFloat columnValue) as [v|] eqn:Hparse;
    [|cbn; split; [apply grows_refl | repeat split; discriminate]].
  destruct (MustNewConstMetric (Desc metric) (ValueType metric) v labels) as [m|] eqn:Hm.
  2:{ cbn [stateOf panics]. split; [apply grows_refl|]. split; [repeat split|].
      intros _. exact (MustNewConstMetric_None _ _ _ _ Hm). }
  apply MustNewConstMetric_Some in Hm as [-> _].
  cbn [stateOf panics]. split; [|split; [repeat split | discriminate]]. split.
  - exists [constMetric (Desc metric) (ValueType metric) v labels].
    split; [reflexivity|]. constructor; [|constructor].
    exists metric, columnValue. cbn. repeat split; try assumption. left.
  - intros f. rewrite recorded_setRecorded. destruct (decide (metric = f)) as [->|_].
    + exists labels. reflexivity.
    + exists []. rewrite app_nil_r. reflexivity.
Qed.

Lemma exportedFrom_mono (ms ms' : list OpenvpnServerHeaderField)
    (columnValues : gmap string string) (labels : list string) (m : Metric) :
  (forall x, x ∈ ms -> x ∈ ms') ->
  exportedFrom ms columnValues labels m -> exportedFrom ms' columnValues labels m.
Proof.
  intros Hsub (metric & c & Hin & H). exists metric, c. split; [apply Hsub, Hin | exact H].
Qed.

Lemma sameLocals_trans (st1 st2 st3 : State) :
  sameLocals st1 st2 -> sameLocals st2 st3 -> sameLocals st1 st3.
Proof.
  intros (A1 & B1 & C1) (A2 & B2 & C2). repeat split; congruence.
Qed.

Lemma exportMetrics_grows (metrics : list OpenvpnServerHeaderField)
    (columnValues : gmap string string) (labels : list string) (st : State) :
  let st' := stateOf (exportMetrics metrics columnValues labels st) in
  grows (exportedFrom metrics columnValues labels) st st' /\ sameLocals st st' /\
  (panics (exportMetrics metrics columnValues labels st) = true ->
   exists metric,
     metric ∈ metrics /\
     validateLabelValues labels (length (variableLabels (Desc metric))) = false).
Proof.
  revert st. induction metrics as [|metric rest IH]; intros st; cbn [exportMetrics].
  - cbn. split; [apply grows_refl | repeat split; discriminate].
  - pose proof (exportMetric_grows metric columnValues labels st) as (G & L & NP).
    assert (forall m, exportedFrom [metric] columnValues labels m ->
                      exportedFrom (metric :: rest) columnValues labels m) as Hhd.
    { intros m. apply exportedFrom_mono. intros x Hx.
      apply list_elem_of_singleton in Hx. subst. left. }
    assert (forall m, exportedFrom rest columnValues labels m ->
                      exportedFrom (metric :: rest) columnValues labels m) as Htl.
    { intros m. apply exportedFrom_mono. intros x Hx. right. exact Hx. }
    destruct (exportMetric metric columnValues labels st) as [st1|err st1|st1];
      cbn [stateOf panics] in *.
    + destruct (IH st1) as (G' & L' & NP'). split; [|split].
      * eapply grows_trans; [eapply grows_weaken; [exact Hhd | exact G]|].
        eapply grows_weaken; [exact Htl | exact G'].
      * eapply sameLocals_trans; eassumption.
      * intros Hp. destruct (NP' Hp) as (m & Hin & Hm). exists m. split; [right; exact Hin | exact Hm].
    + split; [|split; [exact L | discriminate]].
      eapply grows_weaken; [exact Hhd | exact G].
    + split; [|split; [exact L|]].
      * eapply grows_weaken; [exact Hhd | exact G].
      * intros _. exists metric. split; [left | exact (NP eq_refl)].
Qed.

End Reducer.

Lemma grows_same (P : Metric -> Prop) (st st' : State) :
  ch st' = ch st -> recordedMetrics st' = recordedMetrics st -> grows P st st'.
Proof.
  intros Hch Hrec. split.
  - exists []. rewrite app_nil_r. split; [exact Hch | constructor].
  - intros f. exists []. unfold recorded. rewrite Hrec, app_nil_r. reflexivity.
Qed.

Section Lines.

Context {ext : Externals}.

Lemma dataRow_facts (e : OpenVPNExporter) (key : string) (header : OpenvpnServerHeader)
    (fields : list string) (st : State) :
  openvpnServerHeaders e !! key = Some header ->
  let f := dataRow e header fields st in
  grows (sentByLine e) st (stateOf f) /\
  headersFound (stateOf f) = headersFound st /\
  (panics f = true -> refused e) /\
  (index fields 0 <> "CLIENT_LIST" ->
   numberConnectedClient (stateOf f) = numberConnectedClient st).
Proof.
  intros Hheader. unfold dataRow.
  destruct (headersFound st !! index fields 0) as [columnNames|];
    [|cbn; split; [apply grows_refl | repeat split; discriminate]].
  destruct (negb _); [cbn; split; [apply grows_refl | repeat split; discriminate]|].
  destruct (_ || _); [cbn; split; [apply grows_refl | repeat split; discriminate]|].
  set (st1 := if String.eqb (index fields 0) "CLIENT_LIST" then countClient st else st).
  destruct (resolveRow e _ (world st1)) as [columnValues w].
  pose proof (exportMetrics_grows (Metrics header) columnValues
                (buildLabels e header columnValues) (setWorld w st1)) as (G & (Hh & Hn & _) & NP).
  cbn zeta in G, Hh, Hn.
  assert (ch st1 = ch st /\ recordedMetrics st1 = recordedMetrics st /\
          headersFound st1 = headersFound st) as (Hc1 & Hr1 & Hh1).
  { unfold st1. destruct (String.eqb _ _); repeat split. }
  split; [|split; [|split]].
  - eapply grows_trans; [apply (grows_same _ st (setWorld w st1)); assumption|].
    eapply grows_weaken; [|exact G].
    intros m Hm. right. exists key, header, columnValues. split; assumption.
  - rewrite Hh. exact Hh1.
  - intros Hp. destruct (NP Hp) as (metric & Hin & Hm).
    exists (Desc metric), (buildLabels e header columnValues). split; [|exact Hm].
    right. exists key, header, columnValues, metric. repeat split; assumption.
  - intros Hkey. rewrite Hn. cbn [setWorld numberConnectedClient]. unfold st1.
    destruct (String.eqb_spec (index fields 0) "CLIENT_LIST"); [contradiction | reflexivity].
Qed.

Lemma lineStep_facts (e : OpenVPNExporter) (fields : list string) (st : State) :
  let f := lineStep e fields st in
  grows (sentByLine e) st (stateOf f) /\
  headersFound (stateOf f) = declareHeader fields (headersFound st) /\
  (fields <> [] -> panics f = true -> refused e) /\
  (index fields 0 <> "CLIENT_LIST" ->
   numberConnectedClient (stateOf f) = numberConnectedClient st).
Proof.
  unfold lineStep, declareHeader.
  destruct fields as [|key rest].
  { cbn. split; [apply grows_refl | repeat split]. intros H. contradiction. }
  change (index (key :: rest) 0) with key.
  set (fields := key :: rest).
  assert (forall st' : State,
             st' = st ->
             grows (sentByLine e) st (stateOf (Continue st')) /\
             headersFound (stateOf (Continue st')) = headersFound st /\
             (fields <> [] -> panics (Continue st') = true -> refused e) /\
             (key <> "CLIENT_LIST" ->
              numberConnectedClient (stateOf (Continue st')) = numberConnectedClient st))
    as Hskip.
  { intros st' ->. cbn. split; [apply grows_refl | repeat split; discriminate]. }
  assert (forall err,
             grows (sentByLine e) st (stateOf (Return err st)) /\
             headersFound (stateOf (Return err st)) = headersFound st /\
             (fields <> [] -> panics (Return err st) = true -> refused e) /\
             (key <> "CLIENT_LIST" ->
              numberConnectedClient (stateOf (Return err st)) = numberConnectedClient st))
    as Hreturn.
  { intros err. cbn. split; [apply grows_refl | repeat split; discriminate]. }
  destruct (String.eqb_spec key "END") as [->|HnEND]; cbn [andb].
  { destruct (length fields =? 1)%nat; [apply Hskip; reflexivity|].
    cbn [String.eqb Ascii.eqb Bool.eqb andb].
    destruct (openvpnServerHeaders e !! "END") as [header|] eqn:Hh; [|apply Hreturn].
    row_facts (dataRow_facts e "END" header fields st Hh). }
  destruct (String.eqb_spec key "GLOBAL_STATS") as [->|HnGS]; [apply Hskip; reflexivity|].
  destruct (String.eqb_spec key "HEADER") as [->|HnH]; cbn [andb].
  { destruct (2 <? length fields)%nat.
    - cbn [stateOf panics].
      split; [apply grows_same; reflexivity | repeat split; discriminate].
    - cbn [String.eqb Ascii.eqb Bool.eqb andb].
      destruct (openvpnServerHeaders e !! "HEADER") as [header|] eqn:Hh; [|apply Hreturn].
      row_facts (dataRow_facts e "HEADER" header fields st Hh). }
  destruct (String.eqb_spec key "TIME") as [->|HnT]; cbn [andb].
  { destruct (length fields =? 3)%nat.
    - destruct (ParseFloat (index fields 2)) as [t|]; [|apply Hreturn].
      destruct (MustNewConstMetric _ _ t _) as [m|] eqn:Hm.
      + apply MustNewConstMetric_Some in Hm as [-> _].
        cbn [stateOf panics]. split; [|repeat split; discriminate]. split.
        * eexists. split; [reflexivity|]. constructor; [|constructor].
          left. repeat split.
        * intros f. exists []. rewrite app_nil_r. reflexivity.
      + cbn [stateOf panics]. split; [apply grows_refl|]. split; [reflexivity|].
        split; [|reflexivity]. intros _ _.
        exists (openvpnStatusUpdateTimeDesc e), (serverLabels e).
        split; [|exact (MustNewConstMetric_None _ _ _ _ Hm)].
        left. split; [right; left | reflexivity].
    - cbn [String.eqb Ascii.eqb Bool.eqb andb].
      destruct (openvpnServerHeaders e !! "TIME") as [header|] eqn:Hh; [|apply Hreturn].
      row_facts (dataRow_facts e "TIME" header fields st Hh). }
  destruct (String.eqb key "TITLE" && (length fields =? 2)%nat); [apply Hskip; reflexivity|].
  destruct (openvpnServerHeaders e !! key) as [header|] eqn:Hh; [|apply Hreturn].
  row_facts (dataRow_facts e key header fields st Hh).
Qed.

End Lines.

Section Loop.

Context {ext : Externals}.

Lemma scanLoop_app (e : OpenVPNExporter) (separator : string) (l1 l2 : list string)
    (st : State) :
  scanLoop e separator (l1 ++ l2) st =
  match scanLoop e separator l1 st with
  | Continue st' => scanLoop e separator l2 st'
  | stop => stop
  end.
Proof.
  revert st. induction l1 as [|text l1 IH]; intros st; cbn [scanLoop app]; [reflexivity|].
  destruct (lineStep e (Split text separator) st); [apply IH | reflexivity | reflexivity].
Qed.

Lemma scanLoop_facts (e : OpenVPNExporter) (separator : string) (lines : list string)
    (st : State) :
  let f := scanLoop e separator lines st in
  grows (sentByLine e) st (stateOf f) /\
  (forall st', f = Continue st' ->
               headersFound st' = declaredHeaders separator lines (headersFound st)) /\
  (separator <> "" -> panics f = true -> refused e) /\
  (Forall (fun line => index (Split line separator) 0 <> "CLIENT_LIST") lines ->
   numberConnectedClient (stateOf f) = numberConnectedClient st).
Proof.
  revert st. induction lines as [|text rest IH]; intros st; cbn [scanLoop].
  - cbn. split; [apply grows_refl|]. split; [|split; [discriminate | reflexivity]].
    intros st' [= <-]. reflexivity.
  - pose proof (lineStep_facts e (Split text separator) st) as (G & Hh & NP & Hn).
    cbn zeta in G, Hh, NP, Hn.
    destruct (lineStep e (Split text separator) st) as [st1|err st1|st1];
      cbn [stateOf panics] in *.
    + destruct (IH st1) as (G' & Hh' & NP' & Hn'). split; [|split; [|split]].
      * eapply grows_trans; eassumption.
      * intros st' Hst'. rewrite (Hh' st' Hst'), Hh. reflexivity.
      * exact NP'.
      * intros Hall. inversion Hall; subst. rewrite Hn' by assumption. auto.
    + split; [exact G|]. split; [|split].
      * intros st' [=].
      * discriminate.
      * intros Hall. inversion Hall; subst. auto.
    + split; [exact G|]. split; [|split].
      * intros st' [=].
      * intros Hsep _. apply NP; [apply Split_nonempty, Hsep | reflexivity].
      * intros Hall. inversion Hall; subst. auto.
Qed.

End Loop.

(** ** Format detection *)

Section Claims.

Context {ext : Externals}.

(** C2.  Format detection looks at the prefix of the stream only: a stream
    starting with "TITLE," is reduced with the comma as separator, one
    starting with "TITLE" and a tab with the tab as separator; a stream
    starting with "OpenVPN STATISTICS" is refused with the client-status
    error, any other stream with the unexpected-contents error, and in both
    refusals nothing is sent and the process-wide state is untouched. *)
Theorem format_detection (e : OpenVPNExporter) (statusPath : string) (file : Reader)
    (w : World) :
  let r := collectStatusFromReader e statusPath file w in
  (HasPrefix (content file) "TITLE," = true ->
   r = collectServerStatusFromReader e file "," w) /\
  (HasPrefix (content file) ("TITLE" +:+ tab) = true ->
   r = collectServerStatusFromReader e file tab w) /\
  (HasPrefix (content file) "OpenVPN STATISTICS" = true ->
   r = {| sent := []; ret := Returned (Some ErrClientStatus); after := w |}) /\
  (HasPrefix (content file) "TITLE," = false ->
   HasPrefix (content file) ("TITLE" +:+ tab) = false ->
   HasPrefix (content file) "OpenVPN STATISTICS" = false ->
   r = {| sent := []; ret := Returned (Some (ErrUnexpectedContents (Peek 18 file)));
          after := w |}).
Proof.
  cbn zeta. unfold collectStatusFromReader, HasPrefix, Peek.
  rewrite (prefix_substring "TITLE,") by (vm_compute; lia).
  rewrite (prefix_substring ("TITLE" +:+ tab)) by (vm_compute; lia).
  rewrite (prefix_substring "OpenVPN STATISTICS") by (vm_compute; lia).
  split; [|split; [|split]].
  - intros H. rewrite H. reflexivity.
  - intros H. destruct (String.prefix "TITLE," (content file)) eqn:Hcomma.
    + pose proof (prefix_sixth_byte _ _ _ _ _ _ _ _ _ _ Hcomma H). discriminate.
    + rewrite H. reflexivity.
  - intros H. destruct (String.prefix "TITLE," (content file)) eqn:Hcomma.
    { pose proof (prefix_first_byte _ _ _ _ _ Hcomma H). discriminate. }
    destruct (String.prefix ("TITLE" +:+ tab) (content file)) eqn:Htab.
    { pose proof (prefix_first_byte _ _ _ _ _ Htab H). discriminate. }
    rewrite H. reflexivity.
  - intros H1 H2 H3. rewrite H1, H2, H3. reflexivity.
Qed.

(** ** HEADER lines *)

(** C3, as the code has it.  A line whose first field is "HEADER" and that
    has at least three fields records the fields after the second as the
    column order of the record type named by the second, replacing what was
    declared for that type before; nothing else of the state changes and
    the line is no error. *)
Theorem header_line_declares (e : OpenVPNExporter) (fields : list string) (st : State) :
  index fields 0 = "HEADER" ->
  (3 <= length fields)%nat ->
  lineStep e fields st = Continue (setHeader (index fields 1) (drop 2 fields) st) /\
  (forall key,
      headersFound (setHeader (index fields 1) (drop 2 fields) st) !! key =
      if decide (index fields 1 = key) then Some (drop 2 fields) else headersFound st !! key) /\
  ch (setHeader (index fields 1) (drop 2 fields) st) = ch st.
Proof.
  intros Hkey Hlen. split; [|split; [|reflexivity]].
  - unfold lineStep. destruct fields as [|key rest]; [cbn in Hlen; lia|].
    change (index (key :: rest) 0) with key in Hkey. subst key.
    cbn [String.eqb Ascii.eqb Bool.eqb andb].
    destruct (Nat.ltb_spec 2 (length ("HEADER" :: rest))) as [_|Hle]; [reflexivity | lia].
  - intros key. cbn [setHeader headersFound].
    destruct (decide (index fields 1 = key)) as [->|Hne].
    + apply lookup_insert_eq.
    + apply lookup_insert_ne. exact Hne.
Qed.

(** ** Data rows *)

(** C4.  A CLIENT_LIST row that matches its HEADER declaration and whose
    "Common Name" is "UNDEF" or empty leaves the whole state as it was:
    the client counter is not incremented, nothing is sent, and the loop
    goes on with the next line. *)
Theorem undef_client_row_dropped (e : OpenVPNExporter) (header : OpenvpnServerHeader)
    (fields columnNames : list string) (st : State) :
  index fields 0 = "CLIENT_LIST" ->
  openvpnServerHeaders e !! "CLIENT_LIST" = Some header ->
  headersFound st !! "CLIENT_LIST" = Some columnNames ->
  length fields = (length columnNames + 1)%nat ->
  mapGet (buildColumnValues header columnNames fields) "Common Name" = "UNDEF" \/
  mapGet (buildColumnValues header columnNames fields) "Common Name" = "" ->
  lineStep e fields st = Continue st.
Proof.
  intros Hkey Hheader Hfound Hlen Hname.
  unfold lineStep. destruct fields as [|key rest]; [discriminate Hkey|].
  change (index (key :: rest) 0) with key in Hkey. subst key.
  cbn [String.eqb Ascii.eqb Bool.eqb andb]. rewrite Hheader.
  unfold dataRow. change (index ("CLIENT_LIST" :: rest) 0) with "CLIENT_LIST".
  rewrite Hfound, Hlen, Nat.eqb_refl. cbn [negb].
  destruct Hname as [-> | ->]; reflexivity.
Qed.

End Claims.

(** ** HEADER declarations seen earlier in the snapshot *)

Lemma declaredHeaders_none (separator key : string) (lines : list string)
    (hs : gmap string (list string)) :
  Forall (fun l => declares separator key l = false) lines ->
  declaredHeaders separator lines hs !! key = hs !! key.
Proof.
  revert hs. induction lines as [|line rest IH]; intros hs Hall; [reflexivity|].
  inversion Hall as [|? ? Hline Hrest]; subst.
  unfold declaredHeaders in *. cbn [foldl]. rewrite IH by exact Hrest.
  unfold declares in Hline. unfold declareHeader.
  destruct (String.eqb (index (Split line separator) 0) "HEADER"
            && (2 <? length (Split line separator))%nat); [|reflexivity].
  cbn [andb] in Hline. apply String.eqb_neq in Hline.
  apply lookup_insert_ne. exact Hline.
Qed.

Lemma declaredHeaders_last (separator key decl : string) (before between : list string)
    (hs : gmap string (list string)) :
  declares separator key decl = true ->
  Forall (fun l => declares separator key l = false) between ->
  declaredHeaders separator (before ++ decl :: between) hs !! key
  = Some (drop 2 (Split decl separator)).
Proof.
  intros Hdecl Hbetween. unfold declaredHeaders. rewrite foldl_app. cbn [foldl].
  fold (declaredHeaders separator between
          (declareHeader (Split decl separator)
             (foldl (fun hs line => declareHeader (Split line separator) hs) hs before))).
  rewrite declaredHeaders_none by exact Hbetween.
  unfold declares in Hdecl. unfold declareHeader.
  apply andb_prop in Hdecl as [Hhead Hkey]. rewrite Hhead.
  apply String.eqb_eq in Hkey. rewrite Hkey. apply lookup_insert_eq.
Qed.

Section DataRows.

Context {ext : Externals}.

(** A line whose keyword is one of the two record types of the exporter's
    table reaches the data-row branch. *)
Lemma lineStep_dataRow (e : OpenVPNExporter) (header : OpenvpnServerHeader)
    (fields : list string) (st : State) :
  index fields 0 = "CLIENT_LIST" \/ index fields 0 = "ROUTING_TABLE" ->
  openvpnServerHeaders e !! index fields 0 = Some header ->
  lineStep e fields st = dataRow e header fields st.
Proof.
  intros Hkey Hheader. unfold lineStep.
  destruct fields as [|key rest]; [destruct Hkey; discriminate|].
  change (index (key :: rest) 0) with key in *.
  destruct Hkey; subst key; cbn [String.eqb Ascii.eqb Bool.eqb andb];
    rewrite Hheader; reflexivity.
Qed.

(** C5.  A data row of a known record type halts the reducer with a fatal
    error, and nothing more is sent (not even the client-count gauge), when
    no HEADER line for its type came earlier in the snapshot, and also when
    the latest such line declares a number of columns other than the row's
    field count minus one. *)
Theorem data_row_requires_header (e : OpenVPNExporter) (file : Reader) (separator : string)
    (earlier : list string) (row : string) (later : list string) (w : World) (st : State)
    (header : OpenvpnServerHeader) :
  let fields := Split row separator in
  let key := index fields 0 in
  let r := collectServerStatusFromReader e file separator w in
  tokens (NewScanner file) = earlier ++ row :: later ->
  key = "CLIENT_LIST" \/ key = "ROUTING_TABLE" ->
  openvpnServerHeaders e !! key = Some header ->
  scanLoop e separator earlier (initialState w) = Continue st ->
  (Forall (fun l => declares separator key l = false) earlier ->
   ret r = Returned (Some (ErrNoHeader key)) /\ sent r = ch st) /\
  (forall before decl between,
      earlier = before ++ decl :: between ->
      declares separator key decl = true ->
      Forall (fun l => declares separator key l = false) between ->
      length fields <> (length (drop 2 (Split decl separator)) + 1)%nat ->
      ret r = Returned (Some (ErrColumnCount key)) /\ sent r = ch st).
Proof.
  intros fields key r Htokens Hkey Hheader Hloop.
  pose proof (scanLoop_facts e separator earlier (initialState w)) as (_ & Hh & _).
  specialize (Hh st Hloop). cbn [initialState headersFound] in Hh.
  assert (forall err,
             dataRow e header fields st = Return err st ->
             ret r = Returned (Some err) /\ sent r = ch st) as Hhalt.
  { intros err Hrow. unfold r, collectServerStatusFromReader.
    rewrite Htokens, scanLoop_app, Hloop. cbn [scanLoop]. fold fields.
    rewrite (lineStep_dataRow e header fields st Hkey Hheader), Hrow.
    split; reflexivity. }
  split.
  - intros Hnone. apply Hhalt. unfold dataRow. fold key.
    rewrite Hh, declaredHeaders_none by exact Hnone. reflexivity.
  - intros before decl between -> Hdecl Hbetween Hlen. apply Hhalt.
    unfold dataRow. fold key.
    rewrite Hh, (declaredHeaders_last _ _ _ _ _ _ Hdecl Hbetween).
    destruct (Nat.eqb_spec (length fields) (length (drop 2 (Split decl separator)) + 1))
      as [Heq|_]; [contradiction | reflexivity].
Qed.

End DataRows.

(** ** The exporter built by NewOpenVPNExporter *)

Section Constructor.

Context {ext : Externals}.

Lemma NewOpenVPNExporter_parts (path : string) (w0 : World) :
  let e := fst (NewOpenVPNExporter path w0) in
  statusPath e = path /\
  geoIP e = fst (fst (getGeo "" w0)) /\
  fqName (openvpnUpDesc e) = "openvpn_up" /\
  fqName (openvpnStatusUpdateTimeDesc e) = "openvpn_status_update_time_seconds" /\
  fqName (openvpnConnectedClientsDesc e) = "openvpn_server_connected_clients" /\
  openvpnServerHeaders e
  = <["ROUTING_TABLE" := routingTableHeader]> (<["CLIENT_LIST" := clientListHeader]> ∅).
Proof.
  unfold NewOpenVPNExporter. destruct (getGeo "" w0) as [[geo err] w1].
  cbn. repeat split.
Qed.

Lemma NewOpenVPNExporter_tableField (path : string) (w0 : World)
    (metric : OpenvpnServerHeaderField) :
  tableField (fst (NewOpenVPNExporter path w0)) metric ->
  fqName (Desc metric) ∈
    ["openvpn_server_client_received_bytes_total"; "openvpn_server_client_sent_bytes_total";
     "openvpn_server_client_distance"; "openvpn_server_route_last_reference_time_seconds"] /\
  metric ∈ Metrics clientListHeader ++ Metrics routingTableHeader.
Proof.
  intros (key & header & Hlook & Hin).
  destruct (NewOpenVPNExporter_parts path w0) as (_ & _ & _ & _ & _ & Htable).
  rewrite Htable in Hlook.
  apply lookup_insert_Some in Hlook as [[_ <-] | [_ Hlook]].
  - cbn in Hin. apply list_elem_of_singleton in Hin. subst metric.
    split; [vm_compute | cbn]; repeat (first [left | right]).
  - apply lookup_insert_Some in Hlook as [[_ <-] | [_ Hlook]];
      [|rewrite lookup_empty in Hlook; discriminate].
    cbn in Hin.
    repeat (apply elem_of_cons in Hin as [-> | Hin];
            [split; [vm_compute | cbn]; (repeat (first [left | right])) |]).
    inversion Hin.
Qed.

Lemma NewOpenVPNExporter_lookup (path : string) (w0 : World) (key : string) :
  openvpnServerHeaders (fst (NewOpenVPNExporter path w0)) !! key
  = if String.eqb key "ROUTING_TABLE" then Some routingTableHeader
    else if String.eqb key "CLIENT_LIST" then Some clientListHeader
    else None.
Proof.
  destruct (NewOpenVPNExporter_parts path w0) as (_ & _ & _ & _ & _ & ->).
  destruct (String.eqb_spec key "ROUTING_TABLE") as [->|H1]; [apply lookup_insert_eq|].
  rewrite lookup_insert_ne by congruence.
  destruct (String.eqb_spec key "CLIENT_LIST") as [->|H2]; [apply lookup_insert_eq|].
  rewrite lookup_insert_ne by congruence. apply lookup_empty.
Qed.

(** The label vectors that the exporter hands to the library have as many
    values as their descriptors have label names, and begin with the five
    server-level values. *)
Lemma serverLabels_cardinal (path : string) (w0 : World) (d : prometheus_Desc) :
  let e := fst (NewOpenVPNExporter path w0) in
  d ∈ [openvpnUpDesc e; openvpnStatusUpdateTimeDesc e; openvpnConnectedClientsDesc e] ->
  length (serverLabels e) = length (variableLabels d).
Proof.
  unfold NewOpenVPNExporter. destruct (getGeo "" w0) as [[geo err] w1]. cbn.
  intros Hd. repeat (apply elem_of_cons in Hd as [-> | Hd]; [reflexivity|]). inversion Hd.
Qed.

Lemma NewOpenVPNExporter_handed (path : string) (w0 : World) (d : prometheus_Desc)
    (labels : list string) :
  let e := fst (NewOpenVPNExporter path w0) in
  handed e d labels ->
  length labels = length (variableLabels d) /\ take 5 labels = serverLabels e.
Proof.
  intros e [[Hd ->] | (key & header & cv & metric & Hlook & Hin & -> & ->)].
  - split; [apply serverLabels_cardinal, Hd | reflexivity].
  - split; [|reflexivity]. unfold buildLabels. rewrite length_app, length_map.
    subst e. rewrite NewOpenVPNExporter_lookup in Hlook.
    destruct (String.eqb key "ROUTING_TABLE").
    + injection Hlook as <-. apply list_elem_of_singleton in Hin as ->. reflexivity.
    + destruct (String.eqb key "CLIENT_LIST"); [|discriminate].
      injection Hlook as <-.
      repeat (apply elem_of_cons in Hin as [-> | Hin]; [reflexivity|]).
      inversion Hin.
Qed.

End Constructor.

Section ConstructorDescs.

Context {ext : Externals}.

Lemma fqName_neq (d1 d2 : prometheus_Desc) : fqName d1 <> fqName d2 -> d1 <> d2.
Proof. intros H ->. apply H. reflexivity. Qed.

Lemma NewOpenVPNExporter_distinctDescs (path : string) (w0 : World) :
  distinctDescs (fst (NewOpenVPNExporter path w0)).
Proof.
  destruct (NewOpenVPNExporter_parts path w0) as (_ & _ & Hup & Htime & Hclients & _).
  cbn zeta in *.
  assert (forall metric name,
             tableField (fst (NewOpenVPNExporter path w0)) metric ->
             name ∈ ["openvpn_up"; "openvpn_status_update_time_seconds";
                     "openvpn_server_connected_clients"] ->
             fqName (Desc metric) <> name) as Hfield.
  { intros metric name Hmetric Hname.
    apply NewOpenVPNExporter_tableField in Hmetric as [Hmetric _].
    repeat (apply elem_of_cons in Hname as [-> | Hname]);
      [| | | inversion Hname];
      repeat (apply elem_of_cons in Hmetric as [-> | Hmetric]);
      first [discriminate | inversion Hmetric]. }
  split.
  - apply fqName_neq. rewrite Hup, Htime. discriminate.
  - apply fqName_neq. rewrite Hup, Hclients. discriminate.
  - apply fqName_neq. rewrite Htime, Hclients. discriminate.
  - intros metric Hm. apply fqName_neq. rewrite Hup. apply Hfield; [exact Hm|].
    repeat (first [left | right]).
  - intros metric Hm. apply fqName_neq. rewrite Htime. apply Hfield; [exact Hm|].
    repeat (first [left | right]).
  - intros metric Hm. apply fqName_neq. rewrite Hclients. apply Hfield; [exact Hm|].
    repeat (first [left | right]).
  - intros m1 m2 H1 H2 Hdesc.
    apply NewOpenVPNExporter_tableField in H1 as [_ H1].
    apply NewOpenVPNExporter_tableField in H2 as [_ H2].
    cbn in H1, H2.
    repeat (apply elem_of_cons in H1 as [-> | H1]); [| | | | inversion H1];
      (repeat (apply elem_of_cons in H2 as [-> | H2]); [| | | | inversion H2]);
      first [reflexivity | discriminate Hdesc].
Qed.

End ConstructorDescs.

(** ** Whole scrapes *)

Section Scrape.

Context {ext : Externals}.

Lemma sentByLine_props (e : OpenVPNExporter) (m : Metric) :
  sentByLine e m ->
  take 5 (labelValues m) = serverLabels e /\
  (desc m = openvpnStatusUpdateTimeDesc e \/
   exists metric, tableField e metric /\ desc m = Desc metric).
Proof.
  intros [(Hd & _ & Hl) | (key & header & cv & Hlook & metric & c & Hin & _ & _ & Hd & _ & Hl)].
  - rewrite Hl. split; [reflexivity | left; exact Hd].
  - rewrite Hl. split; [reflexivity|]. right. exists metric. split; [|exact Hd].
    exists key, header. split; assumption.
Qed.

Lemma sentByScrape_labels (e : OpenVPNExporter) (m : Metric) :
  sentByScrape e m -> take 5 (labelValues m) = serverLabels e.
Proof.
  intros [H | [n ->]]; [apply sentByLine_props, H | reflexivity].
Qed.

Lemma sentByLine_not_clients (e : OpenVPNExporter) (m : Metric) :
  distinctDescs e -> sentByLine e m -> desc m <> openvpnConnectedClientsDesc e.
Proof.
  intros D H. apply sentByLine_props in H as [_ [-> | (metric & Hm & ->)]].
  - apply (time_not_clients e D).
  - apply (field_not_clients e D), Hm.
Qed.

Lemma sentByScrape_not_up (e : OpenVPNExporter) (m : Metric) :
  distinctDescs e -> sentByScrape e m -> desc m <> openvpnUpDesc e.
Proof.
  intros D [H | [n ->]].
  - apply sentByLine_props in H as [_ [-> | (metric & Hm & ->)]].
    + intros H. apply (up_not_time e D). symmetry. exact H.
    + apply (field_not_up e D), Hm.
  - cbn. intros H. apply (up_not_clients e D). symmetry. exact H.
Qed.

(** The metrics of the state that the line loop reaches from the initial
    state were all sent by lines. *)
Lemma scanLoop_initial (e : OpenVPNExporter) (separator : string) (lines : list string)
    (w : World) :
  Forall (sentByLine e) (ch (stateOf (scanLoop e separator lines (initialState w)))).
Proof.
  pose proof (scanLoop_facts e separator lines (initialState w)) as ([(new & -> & Hnew) _] & _).
  exact Hnew.
Qed.

Lemma collectServerStatusFromReader_facts (e : OpenVPNExporter) (file : Reader)
    (separator : string) (w : World) :
  let r := collectServerStatusFromReader e file separator w in
  Forall (sentByScrape e) (sent r) /\ (separator <> "" -> ret r = Panicked -> refused e).
Proof.
  unfold collectServerStatusFromReader.
  pose proof (scanLoop_initial e separator (tokens (NewScanner file)) w) as Hsent.
  pose proof (scanLoop_facts e separator (tokens (NewScanner file)) (initialState w))
    as (_ & _ & NP & _).
  cbn zeta in NP.
  assert (forall st, Forall (sentByLine e) (ch st) -> Forall (sentByScrape e) (ch st)) as Hlines.
  { intros st. apply List.Forall_impl. intros m Hm. left. exact Hm. }
  destruct (scanLoop e separator (tokens (NewScanner file)) (initialState w)) as [st|err st|st];
    cbn [stateOf panics sent ret] in *.
  - destruct (MustNewConstMetric _ _ _ _) as [m|] eqn:Hm; cbn [sent ret].
    + apply MustNewConstMetric_Some in Hm as [-> _]. split; [|discriminate].
      apply Forall_app. split; [apply Hlines, Hsent|].
      constructor; [|constructor]. right. eexists. reflexivity.
    + split; [apply Hlines, Hsent|]. intros _ _.
      exists (openvpnConnectedClientsDesc e), (serverLabels e).
      split; [|exact (MustNewConstMetric_None _ _ _ _ Hm)].
      left. split; [right; right; left | reflexivity].
  - split; [apply Hlines, Hsent | discriminate].
  - split; [apply Hlines, Hsent|]. intros Hsep _. apply NP; [exact Hsep | reflexivity].
Qed.

Lemma tab_nonempty : tab <> "".
Proof. discriminate. Qed.

Lemma collectStatusFromFile_facts (e : OpenVPNExporter) (path : string)
    (fs : string -> Reader + error) (w : World) :
  let r := collectStatusFromFile e path fs w in
  Forall (sentByScrape e) (sent r) /\ (ret r = Panicked -> refused e).
Proof.
  unfold collectStatusFromFile. destruct (fs path) as [conn|err];
    [|cbn; split; [constructor | discriminate]].
  unfold collectStatusFromReader.
  destruct (HasPrefix _ "TITLE,").
  { pose proof (collectServerStatusFromReader_facts e conn "," w) as [H1 H2].
    split; [exact H1 | apply H2; discriminate]. }
  destruct (HasPrefix _ ("TITLE" +:+ tab)).
  { pose proof (collectServerStatusFromReader_facts e conn tab w) as [H1 H2].
    split; [exact H1 | apply H2, tab_nonempty]. }
  destruct (HasPrefix _ "OpenVPN STATISTICS"); cbn; split; first [constructor | discriminate].
Qed.

(** What [Collect] sends is what the scrape sent and, at most, the [up]
    gauge after it. *)
Lemma Collect_sent (e : OpenVPNExporter) (fs : string -> Reader + error) (w : World) :
  let scrape := collectStatusFromFile e (statusPath e) fs w in
  sent (Collect e fs w) = sent scrape \/
  exists v, sent (Collect e fs w) = sent scrape ++ [upMetric e v].
Proof.
  unfold Collect.
  destruct (ret (collectStatusFromFile e (statusPath e) fs w)) as [[err|]|];
    [| |left; reflexivity];
    (destruct (MustNewConstMetric _ _ _ _) as [m|] eqn:Hm; [|left; reflexivity]);
    apply MustNewConstMetric_Some in Hm as [-> _]; right; eexists; reflexivity.
Qed.

Lemma Collect_after (e : OpenVPNExporter) (fs : string -> Reader + error) (w : World) :
  after (Collect e fs w) = after (collectStatusFromFile e (statusPath e) fs w).
Proof.
  unfold Collect.
  destruct (ret (collectStatusFromFile e (statusPath e) fs w)) as [[err|]|];
    [| |reflexivity]; destruct (MustNewConstMetric _ _ _ _); reflexivity.
Qed.

End Scrape.

Lemma filter_none {A : Type} (P : A -> Prop) `{forall x, Decision (P x)} (l : list A) :
  Forall (fun x => ~ P x) l -> filter P l = [].
Proof.
  induction 1 as [|x l Hx _ IH]; [reflexivity|].
  rewrite filter_cons_False by exact Hx. exact IH.
Qed.

Section ScrapeClaims.

Context {ext : Externals}.

(** C7, as the code has it.  A call of [Collect] on the exporter built by
    [NewOpenVPNExporter] returns without error or panics.  It panics
    exactly when the scrape itself panicked or the library refuses the
    server-level label values, and then some label vector handed to the
    library held a value that is not valid UTF-8, and no metric with the
    descriptor of [up] has been sent.  When the call returns it has sent,
    after whatever the scrape sent, one gauge with the descriptor of [up]
    and the five server-level label values, valued 1 when the scrape
    returned no error and 0 when it returned one; no metric of the scrape
    has that descriptor. *)
Theorem up_gauge_sent_once (path : string) (w0 : World) (fs : string -> Reader + error)
    (w : World) :
  let e := fst (NewOpenVPNExporter path w0) in
  let scrape := collectStatusFromFile e (statusPath e) fs w in
  let r := Collect e fs w in
  let server := [Geohash (geoIP e); City (geoIP e); CountryName (geoIP e);
                 RegionName (geoIP e); Ip (geoIP e)] in
  let up v := {| desc := openvpnUpDesc e; valueType := GaugeValue; value := v;
                 labelValues := server |} in
  (ret r = Returned None \/ ret r = Panicked) /\
  (ret r = Panicked <-> ret scrape = Panicked \/ validLabels server = false) /\
  (ret r = Panicked ->
   filter (fun m => desc m = openvpnUpDesc e) (sent r) = [] /\
   exists labels, take 5 labels = server /\ validLabels labels = false) /\
  (ret r = Returned None ->
   (ret scrape = Returned None -> sent r = sent scrape ++ [up f64_one]) /\
   (forall err, ret scrape = Returned (Some err) -> sent r = sent scrape ++ [up f64_zero]) /\
   length (filter (fun m => desc m = openvpnUpDesc e) (sent r)) = 1%nat) /\
  filter (fun m => desc m = openvpnUpDesc e) (sent scrape) = [] /\
  f64_one <> f64_zero.
Proof.
  intros e scrape r server up.
  pose proof (collectStatusFromFile_facts e (statusPath e) fs w) as [Hsent Hpanic].
  fold scrape in Hsent, Hpanic.
  assert (filter (fun m => desc m = openvpnUpDesc e) (sent scrape) = []) as Hnone.
  { apply filter_none. revert Hsent. apply List.Forall_impl.
    intros m Hm. apply sentByScrape_not_up; [|exact Hm].
    apply NewOpenVPNExporter_distinctDescs. }
  assert (forall v, length (filter (fun m => desc m = openvpnUpDesc e)
                              (sent scrape ++ [up v])) = 1%nat) as Hone.
  { intros v. rewrite list.filter_app, Hnone. cbn [app].
    rewrite filter_cons_True by reflexivity. reflexivity. }
  assert (forall v, MustNewConstMetric (openvpnUpDesc e) GaugeValue v (serverLabels e)
                    = if validLabels server then Some (up v) else None) as Hup.
  { intros v. unfold MustNewConstMetric.
    rewrite validateLabelValues_cardinal
      by (apply serverLabels_cardinal; repeat (first [left | right])). reflexivity. }
  assert (refused e -> exists labels, take 5 labels = server /\ validLabels labels = false)
    as Hcause.
  { intros (d & labels & Hhanded & Hrefused). exists labels.
    destruct (NewOpenVPNExporter_handed path w0 d labels Hhanded) as [Hlen Htake].
    split; [exact Htake|]. rewrite <- Hrefused. symmetry.
    apply validateLabelValues_cardinal, Hlen. }
  assert (f64_one <> f64_zero) as Hvalues by discriminate.
  subst r. unfold Collect. fold scrape.
  destruct (ret scrape) as [[err|]|] eqn:Hret; rewrite ?Hup;
    [destruct (validLabels server) eqn:Hvalid.. |]; cbn [sent ret].
  - split; [left; reflexivity|]. split; [split; [discriminate | intros [H | H]; discriminate H]|].
    split; [discriminate|]. split; [|split; [exact Hnone | exact Hvalues]].
    intros _. split; [discriminate|]. split; [|apply Hone]. intros err' _. reflexivity.
  - split; [right; reflexivity|]. split; [split; [intros _; right; reflexivity | reflexivity]|].
    split; [|split; [discriminate | split; [exact Hnone | exact Hvalues]]].
    intros _. split; [exact Hnone|]. exists server. split; [reflexivity | exact Hvalid].
  - split; [left; reflexivity|]. split; [split; [discriminate | intros [H | H]; discriminate H]|].
    split; [discriminate|]. split; [|split; [exact Hnone | exact Hvalues]].
    intros _. split; [reflexivity|]. split; [|apply Hone]. intros err' H. discriminate H.
  - split; [right; reflexivity|]. split; [split; [intros _; right; reflexivity | reflexivity]|].
    split; [|split; [discriminate | split; [exact Hnone | exact Hvalues]]].
    intros _. split; [exact Hnone|]. exists server. split; [reflexivity | exact Hvalid].
  - rewrite Hret.
    split; [right; reflexivity|]. split; [split; [intros _; left; reflexivity | reflexivity]|].
    split; [|split; [discriminate | split; [exact Hnone | exact Hvalues]]].
    intros _. split; [exact Hnone|]. apply Hcause, Hpanic. reflexivity.
Qed.

(** C8.  When the server's own location is the zero value (resolution
    failed at startup), every metric that [Collect] sends carries five
    empty strings as its server-level label values, and a row whose client
    address resolves gets "0" as its "Distance From Server", whatever the
    client's coordinates are. *)
Theorem unresolved_server_location (e : OpenVPNExporter) (fs : string -> Reader + error)
    (w : World) (columnValues : gmap string string) (geo : GeoIP) (w1 w2 : World) :
  geoIP e = GeoIP_zero ->
  mapGet columnValues "Real Address" <> "" ->
  getGeo (index (Split (mapGet columnValues "Real Address") ":") 0) w1 = (geo, None, w2) ->
  Forall (fun m => take 5 (labelValues m) = [""; ""; ""; ""; ""]) (sent (Collect e fs w)) /\
  overlayGeo e geo columnValues !! "Distance From Server" = Some "0" /\
  resolveRow e columnValues w1 = (overlayGeo e geo columnValues, w2).
Proof.
  intros Hgeo Haddr Hresolved.
  assert (serverLabels e = [""; ""; ""; ""; ""]) as Hlabels.
  { unfold serverLabels. rewrite Hgeo. reflexivity. }
  split; [|split].
  - pose proof (collectStatusFromFile_facts e (statusPath e) fs w) as [Hsent _].
    cbn zeta in Hsent.
    assert (Forall (fun m => take 5 (labelValues m) = [""; ""; ""; ""; ""])
              (sent (collectStatusFromFile e (statusPath e) fs w))) as Hscrape.
    { revert Hsent. apply List.Forall_impl. intros m Hm.
      rewrite <- Hlabels. apply sentByScrape_labels, Hm. }
    destruct (Collect_sent e fs w) as [-> | [v ->]]; [exact Hscrape|].
    apply Forall_app. split; [exact Hscrape|].
    constructor; [cbn; rewrite <- Hlabels; reflexivity | constructor].
  - unfold overlayGeo. rewrite Hgeo. cbn [Lon Lat GeoIP_zero].
    change (f64_eqb f64_zero f64_zero) with true. cbn [andb].
    apply lookup_insert_eq.
  - unfold resolveRow. apply String.eqb_neq in Haddr. rewrite Haddr. cbn [negb].
    rewrite Hresolved. reflexivity.
Qed.

(** C10.  When the scanner ends with an error of its own, the line loop
    having run through all lines it delivered, the connected-clients gauge
    is still sent, last, and the scanner's error is returned, provided the
    library accepts the server-level label values (it panics otherwise,
    and nothing more is sent); when the loop itself returns an error, that
    error is returned and no metric with the connected-clients descriptor
    has been sent. *)
Theorem client_count_sent_before_scan_error (path : string) (w0 : World) (file : Reader)
    (separator : string) (w : World) (ioerr : error) :
  let e := fst (NewOpenVPNExporter path w0) in
  let r := collectServerStatusFromReader e file separator w in
  scanErr (NewScanner file) = Some ioerr ->
  (forall st,
      scanLoop e separator (tokens (NewScanner file)) (initialState w) = Continue st ->
      (validLabels (serverLabels e) = true ->
       sent r = ch st ++ [connectedClientsMetric e (numberConnectedClient st)] /\
       ret r = Returned (Some ioerr)) /\
      (validLabels (serverLabels e) = false -> sent r = ch st /\ ret r = Panicked)) /\
  (forall err st,
      scanLoop e separator (tokens (NewScanner file)) (initialState w) = Return err st ->
      sent r = ch st /\ ret r = Returned (Some err) /\
      Forall (fun m => desc m <> openvpnConnectedClientsDesc e) (sent r)).
Proof.
  intros e r Hscan. subst r. unfold collectServerStatusFromReader.
  pose proof (scanLoop_initial e separator (tokens (NewScanner file)) w) as Hsent.
  split.
  - intros st ->. unfold MustNewConstMetric.
    rewrite validateLabelValues_cardinal
      by (apply serverLabels_cardinal; repeat (first [left | right])).
    destruct (validLabels (serverLabels e)); cbn [sent ret]; rewrite ?Hscan.
    + split; [intros _; split; reflexivity | discriminate].
    + split; [discriminate | intros _; split; reflexivity].
  - intros err st Hloop. rewrite Hloop in *. cbn [stateOf sent ret] in *.
    repeat split. revert Hsent. apply List.Forall_impl. intros m.
    apply sentByLine_not_clients, NewOpenVPNExporter_distinctDescs.
Qed.

End ScrapeClaims.

(** * An invariant principle for the reducer *)

Section Invariant.

Context {ext : Externals}.

Variable e : OpenVPNExporter.

(** A property of the metrics sent so far and of the pools. *)
Variable I : list Metric -> gmap OpenvpnServerHeaderField (list string) -> Prop.

(** It survives the gauge of a TIME line ... *)
Hypothesis I_time :
  forall c r t,
    I c r ->
    I (c ++ [constMetric (openvpnStatusUpdateTimeDesc e) GaugeValue t (serverLabels e)]) r.

(** ... and the tuple of a field of the table, sent for a label vector
    that the pool of the field does not make a duplicate. *)
Hypothesis I_field :
  forall c r metric v labels,
    tableField e metric ->
    take 5 labels = serverLabels e ->
    subslice labels (default [] (r !! metric)) = false ->
    I c r ->
    I (c ++ [constMetric (Desc metric) (ValueType metric) v labels])
      (<[metric := default [] (r !! metric) ++ labels]> r).

Lemma exportMetric_invariant (metric : OpenvpnServerHeaderField)
    (columnValues : gmap string string) (labels : list string) (st : State) :
  tableField e metric -> take 5 labels = serverLabels e ->
  holds I st -> holds I (stateOf (exportMetric metric columnValues labels st)).
Proof.
  unfold holds. intros Hfield Hlabels Hst. unfold exportMetric.
  destruct (columnValues !! Column metric) as [columnValue|]; [|exact Hst].
  destruct (subslice labels (recorded st metric)) eqn:Hdup; cbn [negb]; [exact Hst|].
  destruct (ParseFloat columnValue) as [v|]; [|exact Hst].
  destruct (MustNewConstMetric _ _ v _) as [m|] eqn:Hm; [|exact Hst].
  apply MustNewConstMetric_Some in Hm as [-> _].
  apply I_field; assumption.
Qed.

Lemma exportMetrics_invariant (metrics : list OpenvpnServerHeaderField)
    (columnValues : gmap string string) (labels : list string) (st : State) :
  (forall metric, metric ∈ metrics -> tableField e metric) ->
  take 5 labels = serverLabels e ->
  holds I st -> holds I (stateOf (exportMetrics metrics columnValues labels st)).
Proof.
  revert st. induction metrics as [|metric rest IH]; intros st Hfields Hlabels Hst;
    cbn [exportMetrics]; [exact Hst|].
  pose proof (exportMetric_invariant metric columnValues labels st
                (Hfields metric (list_elem_of_here _ _)) Hlabels Hst) as Hstep.
  destruct (exportMetric metric columnValues labels st) as [st1|err st1|st1];
    cbn [stateOf] in *; [|exact Hstep|exact Hstep].
  apply IH; [|exact Hlabels|exact Hstep].
  intros m Hm. apply Hfields. right. exact Hm.
Qed.

Lemma dataRow_invariant (key : string) (header : OpenvpnServerHeader) (fields : list string)
    (st : State) :
  openvpnServerHeaders e !! key = Some header ->
  holds I st -> holds I (stateOf (dataRow e header fields st)).
Proof.
  intros Hheader Hst. unfold dataRow.
  destruct (headersFound st !! index fields 0) as [columnNames|]; [|exact Hst].
  destruct (negb _); [exact Hst|]. destruct (_ || _); [exact Hst|].
  set (st1 := if String.eqb (index fields 0) "CLIENT_LIST" then countClient st else st).
  destruct (resolveRow e _ (world st1)) as [columnValues w].
  apply exportMetrics_invariant.
  - intros metric Hm. exists key, header. split; assumption.
  - reflexivity.
  - unfold st1. destruct (String.eqb _ _); exact Hst.
Qed.

Lemma lineStep_invariant (fields : list string) (st : State) :
  holds I st -> holds I (stateOf (lineStep e fields st)).
Proof.
  intros Hst. unfold lineStep. destruct fields as [|key rest]; [exact Hst|].
  destruct (String.eqb key "END" && _); [exact Hst|].
  destruct (String.eqb key "GLOBAL_STATS"); [exact Hst|].
  destruct (String.eqb key "HEADER" && _); [exact Hst|].
  destruct (String.eqb key "TIME" && _).
  { destruct (ParseFloat _) as [t|]; [|exact Hst].
    destruct (MustNewConstMetric _ _ t _) as [m|] eqn:Hm; [|exact Hst].
    apply MustNewConstMetric_Some in Hm as [-> _]. apply I_time. exact Hst. }
  destruct (String.eqb key "TITLE" && _); [exact Hst|].
  destruct (openvpnServerHeaders e !! key) as [header|] eqn:Hheader; [|exact Hst].
  apply (dataRow_invariant key header); assumption.
Qed.

Lemma scanLoop_invariant (separator : string) (lines : list string) (st : State) :
  holds I st -> holds I (stateOf (scanLoop e separator lines st)).
Proof.
  revert st. induction lines as [|text rest IH]; intros st Hst; cbn [scanLoop]; [exact Hst|].
  pose proof (lineStep_invariant (Split text separator) st Hst) as Hstep.
  destruct (lineStep e (Split text separator) st) as [st1|err st1|st1];
    cbn [stateOf] in *; [apply IH; exact Hstep | exact Hstep | exact Hstep].
Qed.

End Invariant.

(** * The pools and the metrics sent *)

Lemma concat_member (labels : list string) (vectors : list (list string)) :
  labels ∈ vectors ->
  (length labels <= length (concat vectors))%nat /\
  forall v, v ∈ labels -> v ∈ concat vectors.
Proof.
  induction vectors as [|x vectors IH]; intros Hin; [inversion Hin|].
  cbn [concat]. rewrite length_app.
  apply elem_of_cons in Hin as [-> | Hin].
  - split; [lia|]. intros v Hv. apply elem_of_app. left. exact Hv.
  - destruct (IH Hin) as [Hlen Hvals]. split; [lia|].
    intros v Hv. apply elem_of_app. right. apply Hvals, Hv.
Qed.

Section Pools.

Context {ext : Externals}.

Lemma sentFor_other (metric : OpenvpnServerHeaderField) (c : list Metric) (m : Metric) :
  desc m <> Desc metric -> sentFor metric (c ++ [m]) = sentFor metric c.
Proof.
  intros Hne. unfold sentFor. rewrite list.filter_app.
  rewrite (filter_cons_False _ m []) by exact Hne.
  rewrite filter_nil, app_nil_r. reflexivity.
Qed.

Lemma sentFor_same (metric : OpenvpnServerHeaderField) (c : list Metric) (m : Metric) :
  desc m = Desc metric -> sentFor metric (c ++ [m]) = sentFor metric c ++ [labelValues m].
Proof.
  intros Heq. unfold sentFor. rewrite list.filter_app.
  rewrite (filter_cons_True _ m []) by exact Heq.
  rewrite filter_nil, map_app. reflexivity.
Qed.

Lemma poolsInvariant_scanLoop (e : OpenVPNExporter) (separator : string)
    (lines : list string) (w : World) :
  distinctDescs e ->
  let st := stateOf (scanLoop e separator lines (initialState w)) in
  poolsInvariant e (ch st) (recordedMetrics st).
Proof.
  intros D.
  apply (scanLoop_invariant e (poolsInvariant e)).
  - intros c r t Hinv metric Hfield. rewrite sentFor_other; [apply Hinv, Hfield|].
    cbn [desc]. intros H. apply (field_not_time e D metric Hfield). symmetry. exact H.
  - intros c r metric' v labels Hfield' _ Hnew Hinv metric Hfield.
    destruct (decide (metric' = metric)) as [->|Hne].
    + destruct (Hinv metric Hfield) as [Hpool Hnodup].
      rewrite lookup_insert_eq, sentFor_same by reflexivity. cbn [default labelValues].
      rewrite concat_app, Hpool. cbn [concat]. rewrite app_nil_r. split; [reflexivity|].
      apply list.NoDup_app. split; [exact Hnodup|]. split; [|apply list.NoDup_singleton].
      intros x Hx Hx'. apply list_elem_of_singleton in Hx'. subst x.
      apply concat_member in Hx. rewrite <- Hpool in Hx.
      apply subslice_spec in Hx. congruence.
    + rewrite lookup_insert_ne by exact Hne. rewrite sentFor_other; [apply Hinv, Hfield|].
      cbn [desc]. intros Hdesc. apply Hne. apply (field_by_desc e D); assumption.
  - intros metric _. cbn. rewrite lookup_empty. split; [reflexivity | constructor].
Qed.

(** X1.  The pool a field has after any number of lines of a snapshot is the
    concatenation, in the order of sending, of the label vectors of the
    metrics sent for the field; and these label vectors are pairwise
    different. *)
Theorem pool_is_sent_label_vectors (path : string) (w0 : World) (separator : string)
    (lines : list string) (w : World) :
  let e := fst (NewOpenVPNExporter path w0) in
  let st := stateOf (scanLoop e separator lines (initialState w)) in
  Forall (fun metric =>
            recorded st metric = concat (sentFor metric (ch st)) /\
            NoDup (sentFor metric (ch st)))
    [clientReceivedBytes; clientSentBytes; clientDistance; routeLastReference].
Proof.
  intros e st. apply list.Forall_forall. intros metric Hmetric.
  apply (poolsInvariant_scanLoop e separator lines w (NewOpenVPNExporter_distinctDescs path w0)).
  destruct (NewOpenVPNExporter_parts path w0) as (_ & _ & _ & _ & _ & Htable).
  fold e in Htable. unfold tableField. rewrite Htable.
  apply elem_of_cons in Hmetric as [-> | Hmetric];
    [exists "CLIENT_LIST", clientListHeader; split; [reflexivity | left] |].
  apply elem_of_cons in Hmetric as [-> | Hmetric];
    [exists "CLIENT_LIST", clientListHeader; split; [reflexivity | right; left] |].
  apply elem_of_cons in Hmetric as [-> | Hmetric];
    [exists "CLIENT_LIST", clientListHeader; split; [reflexivity | right; right; left] |].
  apply list_elem_of_singleton in Hmetric as ->.
  exists "ROUTING_TABLE", routingTableHeader. split; [reflexivity | left].
Qed.

End Pools.

(** * The label values of the metrics sent *)

Section Labels.

Context {ext : Externals}.

(** X2.  Every metric that [Collect] sends on the exporter built by
    [NewOpenVPNExporter] begins with the five server-level label values and
    has as many label values as its descriptor has label names, which is
    what [MustNewConstMetric] requires. *)
Theorem sent_metrics_labels (path : string) (w0 : World) (fs : string -> Reader + error)
    (w : World) :
  let e := fst (NewOpenVPNExporter path w0) in
  Forall (fun m => take 5 (labelValues m) = serverLabels e /\
                   length (labelValues m) = length (variableLabels (desc m)))
    (sent (Collect e fs w)).
Proof.
  intros e.
  assert (forall v, take 5 (labelValues (upMetric e v)) = serverLabels e /\
                    length (labelValues (upMetric e v))
                    = length (variableLabels (desc (upMetric e v)))) as Hup.
  { intros v. subst e. unfold NewOpenVPNExporter.
    destruct (getGeo "" w0) as [[geo err] w1]. split; reflexivity. }
  assert (Forall (fun m => take 5 (labelValues m) = serverLabels e /\
                           length (labelValues m) = length (variableLabels (desc m)))
            (sent (collectStatusFromFile e (statusPath e) fs w))) as Hscrape.
  { pose proof (collectStatusFromFile_facts e (statusPath e) fs w) as [Hsent _].
    revert Hsent. apply List.Forall_impl. intros m Hm.
    split; [apply sentByScrape_labels, Hm|].
    destruct (NewOpenVPNExporter_parts path w0) as (_ & _ & _ & _ & _ & Htable).
    fold e in Htable.
    destruct Hm as [[(Hd & _ & Hl) | (key & header & cv & Hlook & metric & c & Hin & _ & _
                                       & Hd & _ & Hl)] | [n ->]].
    - rewrite Hd, Hl. subst e. unfold NewOpenVPNExporter.
      destruct (getGeo "" w0) as [[geo err] w1]. reflexivity.
    - rewrite Hd, Hl. unfold buildLabels. rewrite length_app, length_map.
      rewrite Htable in Hlook.
      apply lookup_insert_Some in Hlook as [[_ <-] | [_ Hlook]].
      + apply list_elem_of_singleton in Hin as ->. reflexivity.
      + apply lookup_insert_Some in Hlook as [[_ <-] | [_ Hlook]];
          [|rewrite lookup_empty in Hlook; discriminate].
        repeat (apply elem_of_cons in Hin as [-> | Hin]; [reflexivity|]).
        inversion Hin.
    - subst e. unfold NewOpenVPNExporter.
      destruct (getGeo "" w0) as [[geo err] w1]. reflexivity. }
  destruct (Collect_sent e fs w) as [-> | [v ->]]; [exact Hscrape|].
  apply Forall_app. split; [exact Hscrape|]. constructor; [apply Hup | constructor].
Qed.

End Labels.

(** * The value a row has for a column *)

Lemma overlayColumns_absent (columnNames : list string) (i : nat) (fields : list string)
    (columnValues : gmap string string) (column : string) :
  column ∉ columnNames ->
  overlayColumns columnNames i fields columnValues !! column = columnValues !! column.
Proof.
  revert i columnValues. induction columnNames as [|c rest IH]; intros i cv Hnot;
    cbn [overlayColumns]; [reflexivity|].
  apply not_elem_of_cons in Hnot as [Hne Hrest].
  rewrite IH by exact Hrest. apply lookup_insert_ne. congruence.
Qed.

Lemma overlayColumns_last (columnNames : list string) (i : nat) (fields : list string)
    (columnValues : gmap string string) (column : string) (j : nat) :
  columnNames !! j = Some column ->
  column ∉ drop (S j) columnNames ->
  overlayColumns columnNames i fields columnValues !! column = Some (index fields (i + j + 1)).
Proof.
  revert i columnValues j. induction columnNames as [|c rest IH]; intros i cv j Hj Hlast;
    [discriminate Hj|].
  cbn [overlayColumns]. destruct j as [|j].
  - injection Hj as ->. cbn [drop] in Hlast.
    rewrite overlayColumns_absent by exact Hlast.
    rewrite lookup_insert_eq, Nat.add_0_r. reflexivity.
  - cbn in Hj. cbn [drop] in Hlast. rewrite (IH (S i) _ j Hj Hlast).
    do 2 f_equal. lia.
Qed.

(** The value of a column that the HEADER line declares is the field at
    the position of its last declaration; a column it does not declare is
    empty. *)
Lemma buildColumnValues_declared (header : OpenvpnServerHeader) (columnNames fields : list string)
    (column : string) (j : nat) :
  columnNames !! j = Some column ->
  column ∉ drop (S j) columnNames ->
  mapGet (buildColumnValues header columnNames fields) column = index fields (j + 1).
Proof.
  intros Hj Hlast. unfold mapGet, buildColumnValues.
  rewrite (overlayColumns_last _ _ _ _ _ _ Hj Hlast). reflexivity.
Qed.

Lemma initColumns_empty (labelColumns : list string) (column : string) :
  default "" (initColumns labelColumns ∅ !! column) = "".
Proof.
  assert (forall cv : gmap string string,
             (forall k v, cv !! k = Some v -> v = "") ->
             forall k v, initColumns labelColumns cv !! k = Some v -> v = "") as Hall.
  { induction labelColumns as [|c rest IH]; intros cv Hcv k v; cbn [initColumns];
      [apply Hcv|].
    apply IH. intros k' v' Hk'. apply lookup_insert_Some in Hk' as [[_ <-] | [_ Hk']];
      [reflexivity | exact (Hcv _ _ Hk')]. }
  destruct (initColumns labelColumns ∅ !! column) as [v|] eqn:Hv; [|reflexivity].
  cbn. apply (Hall ∅) in Hv; [exact Hv|].
  intros k v' Hk. rewrite lookup_empty in Hk. discriminate.
Qed.

Lemma buildColumnValues_undeclared (header : OpenvpnServerHeader)
    (columnNames fields : list string) (column : string) :
  column ∉ columnNames ->
  mapGet (buildColumnValues header columnNames fields) column = "".
Proof.
  intros Hnot. unfold mapGet, buildColumnValues.
  rewrite overlayColumns_absent by exact Hnot. apply initColumns_empty.
Qed.

Section Support.

Context {ext : Externals}.

(** A failed request for the server's own location that decoded nothing
    leaves the exporter with the zero location. *)
Lemma NewOpenVPNExporter_unresolved (path : string) (w0 : World) (err : error) :
  geoCache w0 !! "" = None ->
  http_geo (requests w0) "" = (GeoIP_zero, Some err) ->
  geoIP (fst (NewOpenVPNExporter path w0)) = GeoIP_zero.
Proof.
  intros Hcache Hget. unfold NewOpenVPNExporter, getGeo. rewrite Hcache, Hget. reflexivity.
Qed.

End Support.

(** * More properties *)

Section GeoCache.

Context {ext : Externals}.

(** X3.  [getGeo] memoizes its successes and only those: after a call that
    returned a location for an address, the cache holds that location
    under the address, the entries of other addresses are as before, and
    the next call for the address returns the same location without
    changing anything; after a call that returned an error, the cache is
    as before, the address is still missing from it, and one request more
    has been made. *)
Theorem getGeo_memoizes_successes (address : string) (w : World) :
  (forall geo w',
      getGeo address w = (geo, None, w') ->
      getGeo address w' = (geo, None, w') /\
      geoCache w' !! address = Some geo /\
      forall other, other <> address -> geoCache w' !! other = geoCache w !! other) /\
  (forall geo err w',
      getGeo address w = (geo, Some err, w') ->
      geoCache w' = geoCache w /\ geoCache w' !! address = None /\
      requests w' = S (requests w)).
Proof.
  unfold getGeo. destruct (geoCache w !! address) as [val|] eqn:Hcache.
  - split.
    + intros geo w' [= <- <-]. rewrite Hcache.
      split; [reflexivity | split; [reflexivity | intros other _; reflexivity]].
    + intros geo err w' [=].
  - destruct (http_geo (requests w) address) as [got [err|]]; split.
    + intros geo w' [=].
    + intros geo err' w' [= <- <- <-]. cbn.
      split; [reflexivity | split; [exact Hcache | reflexivity]].
    + intros geo w' [= <- <-]. cbn [geoCache]. rewrite lookup_insert_eq.
      split; [reflexivity | split; [reflexivity|]].
      intros other Hother. apply lookup_insert_ne. congruence.
    + intros geo err' w' [=].
Qed.

Lemma cacheGrows_refl (w : World) : cacheGrows w w.
Proof. split; [intros a g H; exact H | lia]. Qed.

Lemma cacheGrows_trans (w1 w2 w3 : World) :
  cacheGrows w1 w2 -> cacheGrows w2 w3 -> cacheGrows w1 w3.
Proof. intros [H1 L1] [H2 L2]. split; [intros a g H; apply H2, H1, H | lia]. Qed.

Lemma getGeo_cacheGrows (address : string) (w : World) :
  cacheGrows w (snd (getGeo address w)).
Proof.
  unfold getGeo. destruct (geoCache w !! address) as [val|] eqn:Hcache;
    [apply cacheGrows_refl|].
  destruct (http_geo (requests w) address) as [got [err|]]; cbn [snd].
  - split; [intros a g H; exact H | cbn; lia].
  - split; [|cbn; lia]. intros a g H. cbn [geoCache].
    rewrite lookup_insert_ne; [exact H | congruence].
Qed.

Lemma resolveRow_cacheGrows (e : OpenVPNExporter) (columnValues : gmap string string)
    (w : World) :
  cacheGrows w (snd (resolveRow e columnValues w)).
Proof.
  unfold resolveRow. destruct (negb _); [|apply cacheGrows_refl].
  pose proof (getGeo_cacheGrows (index (Split (mapGet columnValues "Real Address") ":") 0) w)
    as Hgeo.
  destruct (getGeo _ w) as [[geo err] w']. destruct err; exact Hgeo.
Qed.

Lemma dataRow_cacheGrows (e : OpenVPNExporter) (header : OpenvpnServerHeader)
    (fields : list string) (st : State) :
  cacheGrows (world st) (world (stateOf (dataRow e header fields st))).
Proof.
  unfold dataRow.
  destruct (headersFound st !! index fields 0) as [columnNames|]; [|apply cacheGrows_refl].
  destruct (negb _); [apply cacheGrows_refl|]. destruct (_ || _); [apply cacheGrows_refl|].
  set (st1 := if String.eqb (index fields 0) "CLIENT_LIST" then countClient st else st).
  assert (world st1 = world st) as Hw by (unfold st1; destruct (String.eqb _ _); reflexivity).
  pose proof (resolveRow_cacheGrows e
                (buildColumnValues header columnNames fields) (world st1)) as Hrow.
  destruct (resolveRow e _ (world st1)) as [columnValues w].
  pose proof (exportMetrics_grows (Metrics header) columnValues
                (buildLabels e header columnValues) (setWorld w st1)) as (_ & (_ & _ & Hsame) & _).
  cbn zeta in Hsame. rewrite Hsame. cbn [setWorld world snd] in *. rewrite <- Hw. exact Hrow.
Qed.

Lemma lineStep_cacheGrows (e : OpenVPNExporter) (fields : list string) (st : State) :
  cacheGrows (world st) (world (stateOf (lineStep e fields st))).
Proof.
  unfold lineStep. destruct fields as [|key rest]; [apply cacheGrows_refl|].
  destruct (String.eqb key "END" && _); [apply cacheGrows_refl|].
  destruct (String.eqb key "GLOBAL_STATS"); [apply cacheGrows_refl|].
  destruct (String.eqb key "HEADER" && _); [apply cacheGrows_refl|].
  destruct (String.eqb key "TIME" && _).
  { destruct (ParseFloat _); [|apply cacheGrows_refl].
    destruct (MustNewConstMetric _ _ _ _); apply cacheGrows_refl. }
  destruct (String.eqb key "TITLE" && _); [apply cacheGrows_refl|].
  destruct (openvpnServerHeaders e !! key) as [header|]; [|apply cacheGrows_refl].
  apply dataRow_cacheGrows.
Qed.

Lemma scanLoop_cacheGrows (e : OpenVPNExporter) (separator : string) (lines : list string)
    (st : State) :
  cacheGrows (world st) (world (stateOf (scanLoop e separator lines st))).
Proof.
  revert st. induction lines as [|text rest IH]; intros st; cbn [scanLoop];
    [apply cacheGrows_refl|].
  pose proof (lineStep_cacheGrows e (Split text separator) st) as Hstep.
  destruct (lineStep e (Split text separator) st) as [st1|err st1|st1];
    cbn [stateOf] in *; [|exact Hstep|exact Hstep].
  eapply cacheGrows_trans; [exact Hstep | apply IH].
Qed.

(** X4.  A scrape never evicts or alters an entry of the location cache:
    whatever [Collect] is given, every address cached before it is cached
    with the same location after it, and the count of requests made does
    not go down. *)
Theorem scrape_keeps_cache (e : OpenVPNExporter) (fs : string -> Reader + error) (w : World) :
  cacheGrows w (after (Collect e fs w)).
Proof.
  assert (forall file separator,
             cacheGrows w (after (collectServerStatusFromReader e file separator w))) as Hserver.
  { intros file separator. unfold collectServerStatusFromReader.
    pose proof (scanLoop_cacheGrows e separator (tokens (NewScanner file)) (initialState w))
      as Hloop.
    destruct (scanLoop e separator (tokens (NewScanner file)) (initialState w));
      [destruct (MustNewConstMetric _ _ _ _)| |]; exact Hloop. }
  assert (cacheGrows w (after (collectStatusFromFile e (statusPath e) fs w))) as Hfile.
  { unfold collectStatusFromFile. destruct (fs (statusPath e)) as [conn|err];
      [|apply cacheGrows_refl].
    unfold collectStatusFromReader.
    destruct (HasPrefix _ "TITLE,"); [apply Hserver|].
    destruct (HasPrefix _ ("TITLE" +:+ tab)); [apply Hserver|].
    destruct (HasPrefix _ "OpenVPN STATISTICS"); apply cacheGrows_refl. }
  rewrite Collect_after. exact Hfile.
Qed.

End GeoCache.

(** X5.  [subslice] is no test for a sub-slice: it holds exactly when
    [main] is at least as long as [sub] and every element of [sub] occurs
    in [main], so neither the order nor the multiplicity of the elements
    matters, and with it every slice passes against itself and the empty
    slice passes against every slice. *)
Theorem subslice_ignores_order (sub main : list string) :
  (subslice sub main = true <->
   (length sub <= length main)%nat /\ forall v, v ∈ sub -> v ∈ main) /\
  (forall sub' main', sub ≡ₚ sub' -> main ≡ₚ main' -> subslice sub main = subslice sub' main') /\
  subslice sub sub = true /\ subslice [] main = true /\
  (forall v, contains main v = true <-> v ∈ main).
Proof.
  split; [apply subslice_spec|]. split; [|split; [|split]].
  - intros sub' main' Hsub Hmain.
    destruct (subslice sub' main') eqn:Hright.
    + apply subslice_spec in Hright as [Hlen Hin]. apply subslice_spec. split.
      * rewrite (Permutation_length Hsub), (Permutation_length Hmain). exact Hlen.
      * intros v Hv. rewrite Hmain. apply Hin. rewrite <- Hsub. exact Hv.
    + destruct (subslice sub main) eqn:Hleft; [|reflexivity].
      apply subslice_spec in Hleft as [Hlen Hin].
      assert (subslice sub' main' = true) as Habs; [|congruence].
      apply subslice_spec. split.
      * rewrite <- (Permutation_length Hsub), <- (Permutation_length Hmain). exact Hlen.
      * intros v Hv. rewrite <- Hmain. apply Hin. rewrite Hsub. exact Hv.
  - apply subslice_spec. split; [lia | auto].
  - apply subslice_spec. split; [cbn; lia|]. intros v Hv. inversion Hv.
  - intros v. apply contains_elem_of.
Qed.

Section Rows.

Context {ext : Externals}.

Lemma overlayGeo_other (e : OpenVPNExporter) (geo : GeoIP)
    (columnValues : gmap string string) (column : string) :
  column ∉ ["Geohash"; "City"; "Region"; "Country"; "Distance From Server"] ->
  overlayGeo e geo columnValues !! column = columnValues !! column.
Proof.
  intros Hnot. unfold overlayGeo.
  assert (column <> "Geohash" /\ column <> "City" /\ column <> "Region" /\
          column <> "Country" /\ column <> "Distance From Server") as (N1 & N2 & N3 & N4 & N5).
  { repeat split; intros ->; apply Hnot; repeat (first [left | right]). }
  destruct (f64_eqb (Lon (geoIP e)) f64_zero && f64_eqb (Lat (geoIP e)) f64_zero);
    repeat (rewrite lookup_insert_ne by congruence); reflexivity.
Qed.

Lemma resolveRow_other (e : OpenVPNExporter) (columnValues : gmap string string) (w : World)
    (column : string) :
  column ∉ ["Geohash"; "City"; "Region"; "Country"; "Distance From Server"] ->
  fst (resolveRow e columnValues w) !! column = columnValues !! column.
Proof.
  intros Hnot. unfold resolveRow.
  destruct (negb (String.eqb (mapGet columnValues "Real Address") "")); [|reflexivity].
  destruct (getGeo _ w) as [[geo [err|]] w']; [reflexivity|].
  apply overlayGeo_other. exact Hnot.
Qed.

(** X6.  The overlay of a resolved location touches five columns and no
    other: it sets "Geohash" to the location's geohash, gives "City",
    "Region" and "Country" a value that is never empty, and sets
    "Distance From Server". *)
Theorem overlayGeo_columns (e : OpenVPNExporter) (geo : GeoIP)
    (columnValues : gmap string string) :
  let overlaid := overlayGeo e geo columnValues in
  overlaid !! "Geohash" = Some (Geohash geo) /\
  overlaid !! "City" = Some (if String.eqb (City geo) "" then "Unknown" else City geo) /\
  overlaid !! "Region"
  = Some (if String.eqb (RegionName geo) "" then "Unknown" else RegionName geo) /\
  overlaid !! "Country"
  = Some (if String.eqb (CountryName geo) "" then "Unknown" else CountryName geo) /\
  (forall column, column ∈ ["City"; "Region"; "Country"] -> mapGet overlaid column <> "") /\
  is_Some (overlaid !! "Distance From Server") /\
  (forall column,
      column ∉ ["Geohash"; "City"; "Region"; "Country"; "Distance From Server"] ->
      overlaid !! column = columnValues !! column).
Proof.
  intros overlaid.
  assert (overlaid !! "Geohash" = Some (Geohash geo) /\
          overlaid !! "City" = Some (if String.eqb (City geo) "" then "Unknown" else City geo) /\
          overlaid !! "Region"
          = Some (if String.eqb (RegionName geo) "" then "Unknown" else RegionName geo) /\
          overlaid !! "Country"
          = Some (if String.eqb (CountryName geo) "" then "Unknown" else CountryName geo))
    as (Hg & Hc & Hr & Hn).
  { subst overlaid. unfold overlayGeo.
    destruct (f64_eqb (Lon (geoIP e)) f64_zero && f64_eqb (Lat (geoIP e)) f64_zero);
      repeat (rewrite lookup_insert_ne by discriminate);
      (split; [|split; [|split]]);
      repeat first [rewrite lookup_insert_eq | rewrite lookup_insert_ne by discriminate];
      try reflexivity;
      match goal with |- Some (if negb ?b then _ else _) = _ => destruct b; reflexivity end. }
  split; [exact Hg|]. split; [exact Hc|]. split; [exact Hr|]. split; [exact Hn|].
  split; [|split].
  - intros column Hcol. unfold mapGet.
    repeat (apply elem_of_cons in Hcol as [-> | Hcol]); [| | | inversion Hcol].
    + rewrite Hc. cbn. destruct (String.eqb_spec (City geo) ""); [discriminate | assumption].
    + rewrite Hr. cbn. destruct (String.eqb_spec (RegionName geo) "");
        [discriminate | assumption].
    + rewrite Hn. cbn. destruct (String.eqb_spec (CountryName geo) "");
        [discriminate | assumption].
  - subst overlaid. unfold overlayGeo.
    destruct (f64_eqb (Lon (geoIP e)) f64_zero && f64_eqb (Lat (geoIP e)) f64_zero);
      rewrite lookup_insert_eq; eexists; reflexivity.
  - intros column Hnot. subst overlaid. apply overlayGeo_other. exact Hnot.
Qed.

(** X7.  Label values follow the names of the columns, not their
    positions.  The label vector built for a row, after its address has
    been looked up, has the five server-level values and then one value
    per label column of the record type.  For a label column other than
    the five that the location overlay writes, the value is the row's
    field at the place of the last declaration of that column in the
    HEADER line, and the empty string when the HEADER line does not
    declare the column. *)
Theorem labels_follow_column_names (e : OpenVPNExporter) (header : OpenvpnServerHeader)
    (columnNames fields : list string) (w : World) (i : nat) (column : string) :
  LabelColumns header !! i = Some column ->
  let labels :=
    buildLabels e header (fst (resolveRow e (buildColumnValues header columnNames fields) w)) in
  length labels = (5 + length (LabelColumns header))%nat /\
  take 5 labels = serverLabels e /\
  (column ∉ ["Geohash"; "City"; "Region"; "Country"; "Distance From Server"] ->
   (forall j, columnNames !! j = Some column -> column ∉ drop (S j) columnNames ->
              labels !! (5 + i)%nat = Some (index fields (j + 1))) /\
   (column ∉ columnNames -> labels !! (5 + i)%nat = Some "")).
Proof.
  intros Hi labels. subst labels. unfold buildLabels.
  split; [rewrite length_app, length_map; reflexivity|]. split; [reflexivity|].
  intros Hgeo.
  assert (forall v, mapGet (buildColumnValues header columnNames fields) column = v ->
                    (serverLabels e
                     ++ map (mapGet (fst (resolveRow e
                                            (buildColumnValues header columnNames fields) w)))
                          (LabelColumns header)) !! (5 + i)%nat = Some v) as Hat.
  { intros v <-. rewrite lookup_app_r by (cbn; lia).
    replace (5 + i - length (serverLabels e))%nat with i by (cbn; lia).
    rewrite list_lookup_fmap, Hi. cbn [fmap option_fmap option_map]. f_equal.
    unfold mapGet. rewrite (resolveRow_other _ _ _ _ Hgeo). reflexivity. }
  split.
  - intros j Hj Hlast. apply Hat. apply buildColumnValues_declared; assumption.
  - intros Hnot. apply Hat. apply buildColumnValues_undeclared. exact Hnot.
Qed.

Lemma splitOn_colon_first (ip rest : string) :
  noColon ip = true ->
  exists more, splitOn ":" 0 (ip +:+ ":" +:+ rest) = ip :: more.
Proof.
  induction ip as [|c ip IH]; intros Hno.
  - change ("" +:+ ":" +:+ rest) with (String ":"%char rest).
    cbn [splitOn String.prefix]. destruct (ascii_dec ":" ":"); [|congruence].
    assert (String.prefix "" rest = true) as -> by (destruct rest; reflexivity).
    eexists. reflexivity.
  - cbn in Hno. apply andb_prop in Hno as [Hc Hip]. destruct (IH Hip) as [more Hmore].
    change (String c ip +:+ ":" +:+ rest) with (String c (ip +:+ ":" +:+ rest)).
    cbn [splitOn String.prefix].
    destruct (ascii_dec ":" c) as [<-|Hne]; [discriminate Hc|].
    rewrite Hmore. eexists. reflexivity.
Qed.

Lemma splitOn_no_colon (ip : string) : noColon ip = true -> splitOn ":" 0 ip = [ip].
Proof.
  induction ip as [|c ip IH]; intros Hno; [reflexivity|].
  cbn in Hno. apply andb_prop in Hno as [Hc Hip].
  cbn [splitOn String.prefix]. destruct (ascii_dec ":" c) as [<-|Hne]; [discriminate Hc|].
  rewrite (IH Hip). reflexivity.
Qed.

(** X8.  The resolver is asked for the real address without its port:
    for a real address made of a part without colon, a colon and anything
    after it, and for a real address that is not empty and has no colon
    at all, the row is resolved by the part before the colon; a resolver
    error leaves the columns as they are, a location is laid over them. *)
Theorem real_address_port_stripped (e : OpenVPNExporter) (columnValues : gmap string string)
    (w : World) (ip port : string) :
  noColon ip = true ->
  mapGet columnValues "Real Address" = ip +:+ ":" +:+ port \/
  (mapGet columnValues "Real Address" = ip /\ ip <> "") ->
  resolveRow e columnValues w
  = match getGeo ip w with
    | (geo, None, w') => (overlayGeo e geo columnValues, w')
    | (_, Some _, w') => (columnValues, w')
    end.
Proof.
  intros Hip Haddr. unfold resolveRow.
  assert (String.eqb (mapGet columnValues "Real Address") "" = false
          /\ index (Split (mapGet columnValues "Real Address") ":") 0 = ip) as [-> ->].
  { destruct Haddr as [-> | [-> Hne]].
    - split; [apply String.eqb_neq; destruct ip; discriminate|].
      unfold Split. destruct (splitOn_colon_first ip port Hip) as [more ->]. reflexivity.
    - split; [apply String.eqb_neq; exact Hne|].
      unfold Split. rewrite (splitOn_no_colon ip Hip). reflexivity. }
  cbn [negb]. destruct (getGeo ip w) as [[geo [err|]] w']; reflexivity.
Qed.

End Rows.

Lemma wrap_int_succ (a : Z) : wrap_int (wrap_int a + 1) = wrap_int (a + 1).
Proof.
  unfold wrap_int.
  replace ((a + 2 ^ 63) mod 2 ^ 64 - 2 ^ 63 + 1 + 2 ^ 63)%Z
    with ((a + 2 ^ 63) mod 2 ^ 64 + 1)%Z by lia.
  rewrite Z.add_mod_idemp_l by lia. f_equal. f_equal. lia.
Qed.

Lemma wrap_int_iter (k : nat) :
  Nat.iter k (fun n => wrap_int (n + 1)) 0%Z = wrap_int (Z.of_nat k).
Proof.
  induction k as [|k IH]; [reflexivity|].
  rewrite Nat.iter_succ, IH, wrap_int_succ. f_equal. lia.
Qed.

Section MoreLines.

Context {ext : Externals}.

(** The errors of the loop over the fields of a row. *)
Lemma exportMetrics_error (metrics : list OpenvpnServerHeaderField)
    (columnValues : gmap string string) (labels : list string) (st st' : State) (err : error) :
  exportMetrics metrics columnValues labels st = Return err st' -> loopError err.
Proof.
  revert st. induction metrics as [|metric rest IH]; intros st; cbn [exportMetrics];
    [discriminate|].
  destruct (exportMetric metric columnValues labels st) as [st1|err1 st1|st1] eqn:Hstep.
  - apply IH.
  - intros [= <- <-]. revert Hstep. unfold exportMetric.
    destruct (columnValues !! Column metric); [|discriminate].
    destruct (negb _); [|discriminate].
    destruct (ParseFloat _); [destruct (MustNewConstMetric _ _ _ _); discriminate|].
    intros [= <- _]. exact Logic.I.
  - discriminate.
Qed.

Lemma lineStep_error (e : OpenVPNExporter) (fields : list string) (st st' : State)
    (err : error) :
  lineStep e fields st = Return err st' -> loopError err.
Proof.
  unfold lineStep. destruct fields as [|key rest]; [discriminate|].
  destruct (String.eqb key "END" && _); [discriminate|].
  destruct (String.eqb key "GLOBAL_STATS"); [discriminate|].
  destruct (String.eqb key "HEADER" && _); [discriminate|].
  destruct (String.eqb key "TIME" && _).
  { destruct (ParseFloat _); [destruct (MustNewConstMetric _ _ _ _); discriminate|].
    intros [= <- _]. exact Logic.I. }
  destruct (String.eqb key "TITLE" && _); [discriminate|].
  destruct (openvpnServerHeaders e !! key) as [header|];
    [|intros [= <- _]; exact Logic.I].
  unfold dataRow.
  destruct (headersFound st !! _); [|intros [= <- _]; exact Logic.I].
  destruct (negb _); [intros [= <- _]; exact Logic.I|].
  destruct (_ || _); [discriminate|].
  destruct (resolveRow e _ _) as [columnValues w]. apply exportMetrics_error.
Qed.

Lemma scanLoop_error (e : OpenVPNExporter) (separator : string) (lines : list string)
    (st st' : State) (err : error) :
  scanLoop e separator lines st = Return err st' -> loopError err.
Proof.
  revert st. induction lines as [|text rest IH]; intros st; cbn [scanLoop]; [discriminate|].
  destruct (lineStep e (Split text separator) st) as [st1|err1 st1|st1] eqn:Hstep.
  - apply IH.
  - intros [= <- <-]. exact (lineStep_error _ _ _ _ _ Hstep).
  - discriminate.
Qed.

(** X9.  The only errors that [collectServerStatusFromReader] returns are
    the scanner's own error and the four errors of the line loop (row
    without HEADER, wrong number of columns, unsupported key, number that
    does not parse); an error of the location service is never
    returned as such (it is logged and the row goes on). *)
Theorem returned_errors (e : OpenVPNExporter) (file : Reader) (separator : string)
    (w : World) (err : error) :
  ret (collectServerStatusFromReader e file separator w) = Returned (Some err) ->
  scanErr (NewScanner file) = Some err \/ loopError err.
Proof.
  unfold collectServerStatusFromReader.
  destruct (scanLoop e separator (tokens (NewScanner file)) (initialState w))
    as [st|err1 st|st] eqn:Hloop; cbn [ret].
  - destruct (MustNewConstMetric _ _ _ _); cbn [ret]; [|discriminate].
    intros [= ->]. left. reflexivity.
  - intros [= <-]. right. exact (scanLoop_error _ _ _ _ _ _ Hloop).
  - discriminate.
Qed.

(** X10.  A line that is none of the forms the loop knows ends the scrape
    with the unsupported-key error, and nothing is sent after the metrics
    of the lines before it.  This covers unknown keywords and blank lines,
    and also END with more fields, HEADER with fewer than three fields,
    TIME with other than three fields and TITLE with other than two. *)
Theorem unrecognised_line_halts (path : string) (w0 : World) (file : Reader)
    (separator : string) (earlier : list string) (row : string) (later : list string)
    (w : World) (st : State) :
  let e := fst (NewOpenVPNExporter path w0) in
  let fields := Split row separator in
  let key := index fields 0 in
  let r := collectServerStatusFromReader e file separator w in
  tokens (NewScanner file) = earlier ++ row :: later ->
  scanLoop e separator earlier (initialState w) = Continue st ->
  separator <> "" ->
  key ∉ ["GLOBAL_STATS"; "CLIENT_LIST"; "ROUTING_TABLE"] ->
  (key = "END" -> length fields <> 1%nat) ->
  (key = "HEADER" -> (length fields <= 2)%nat) ->
  (key = "TIME" -> length fields <> 3%nat) ->
  (key = "TITLE" -> length fields <> 2%nat) ->
  ret r = Returned (Some (ErrUnsupportedKey key)) /\ sent r = ch st.
Proof.
  intros e fields key r Htokens Hloop Hsep Hkey Hend Hheader Htime Htitle.
  assert (lineStep e fields st = Return (ErrUnsupportedKey key) st) as Hstep.
  { pose proof (Split_nonempty row separator Hsep) as Hne. fold fields in Hne.
    subst key. unfold lineStep. destruct fields as [|k rest] eqn:Hf; [congruence|].
    change (index (k :: rest) 0) with k in *.
    destruct (String.eqb_spec k "END") as [->|_]; cbn [andb].
    { destruct (Nat.eqb_spec (length ("END" :: rest)) 1) as [Hl|_];
        [exfalso; exact (Hend eq_refl Hl)|].
      cbn [String.eqb Ascii.eqb Bool.eqb andb].
      subst e. rewrite NewOpenVPNExporter_lookup. reflexivity. }
    destruct (String.eqb_spec k "GLOBAL_STATS") as [->|_].
    { exfalso. apply Hkey. left. }
    destruct (String.eqb_spec k "HEADER") as [->|_]; cbn [andb].
    { destruct (Nat.ltb_spec 2 (length ("HEADER" :: rest))) as [Hl|_];
        [specialize (Hheader eq_refl); lia|].
      cbn [String.eqb Ascii.eqb Bool.eqb andb].
      subst e. rewrite NewOpenVPNExporter_lookup. reflexivity. }
    destruct (String.eqb_spec k "TIME") as [->|_]; cbn [andb].
    { destruct (Nat.eqb_spec (length ("TIME" :: rest)) 3) as [Hl|_];
        [exfalso; exact (Htime eq_refl Hl)|].
      cbn [String.eqb Ascii.eqb Bool.eqb andb].
      subst e. rewrite NewOpenVPNExporter_lookup. reflexivity. }
    destruct (String.eqb_spec k "TITLE") as [->|_]; cbn [andb].
    { destruct (Nat.eqb_spec (length ("TITLE" :: rest)) 2) as [Hl|_];
        [exfalso; exact (Htitle eq_refl Hl)|].
      subst e. rewrite NewOpenVPNExporter_lookup. reflexivity. }
    subst e. rewrite NewOpenVPNExporter_lookup.
    destruct (String.eqb_spec k "ROUTING_TABLE") as [->|_];
      [exfalso; apply Hkey; right; right; left|].
    destruct (String.eqb_spec k "CLIENT_LIST") as [->|_];
      [exfalso; apply Hkey; right; left|].
    reflexivity. }
  subst r. unfold collectServerStatusFromReader.
  rewrite Htokens, scanLoop_app, Hloop. cbn [scanLoop]. fold fields. rewrite Hstep.
  split; reflexivity.
Qed.

(** X11.  A scrape that is refused before the first line is read, because
    the status file cannot be opened or because it starts neither with
    "TITLE," nor with "TITLE" and a tab, sends the [up] gauge with value 0
    and nothing else, and leaves the process-wide state as it was; when
    the library refuses the label values of that gauge, the call panics
    instead, with nothing sent and the state as it was. *)
Theorem refused_scrape_sends_only_up (e : OpenVPNExporter) (fs : string -> Reader + error)
    (w : World) :
  let outcome :=
    if validateLabelValues (serverLabels e) (length (variableLabels (openvpnUpDesc e)))
    then {| sent := [upMetric e f64_zero]; ret := Returned None; after := w |}
    else {| sent := []; ret := Panicked; after := w |} in
  (forall err, fs (statusPath e) = inr err -> Collect e fs w = outcome) /\
  (forall file, fs (statusPath e) = inl file ->
                HasPrefix (content file) "TITLE," = false ->
                HasPrefix (content file) ("TITLE" +:+ tab) = false ->
                Collect e fs w = outcome).
Proof.
  intros outcome. subst outcome. split.
  - intros err Hopen. unfold Collect, collectStatusFromFile. rewrite Hopen. cbn [ret sent after].
    unfold MustNewConstMetric. destruct (validateLabelValues _ _); reflexivity.
  - intros file Hopen Hcomma Htab. unfold Collect, collectStatusFromFile. rewrite Hopen.
    unfold collectStatusFromReader, HasPrefix, Peek in *.
    rewrite (prefix_substring "TITLE,") by (vm_compute; lia).
    rewrite (prefix_substring ("TITLE" +:+ tab)) by (vm_compute; lia).
    rewrite Hcomma, Htab. unfold MustNewConstMetric.
    destruct (String.prefix "OpenVPN STATISTICS" _); cbn [ret sent after];
      destruct (validateLabelValues _ _); reflexivity.
Qed.

(** X12.  What has been sent stays sent: the metrics that the line loop
    sends for a snapshot begin with the metrics it sends for any initial
    part of the snapshot, in the same order. *)
Theorem sent_extends_with_lines (e : OpenVPNExporter) (separator : string)
    (lines more : list string) (st : State) :
  ch (stateOf (scanLoop e separator lines st))
    `prefix_of` ch (stateOf (scanLoop e separator (lines ++ more) st)).
Proof.
  rewrite scanLoop_app.
  destruct (scanLoop e separator lines st) as [st1|err st1|st1]; cbn [stateOf];
    [|reflexivity|reflexivity].
  pose proof (scanLoop_facts e separator more st1) as ([(new & -> & _) _] & _).
  exists new. reflexivity.
Qed.

End MoreLines.

Section Counting.

Context {ext : Externals}.

(** What a line does to the counter of connected clients. *)
Lemma lineStep_counts (path : string) (w0 : World) (fields : list string) (st st' : State) :
  lineStep (fst (NewOpenVPNExporter path w0)) fields st = Continue st' ->
  numberConnectedClient st'
  = if namedClient (headersFound st) fields
    then wrap_int (numberConnectedClient st + 1)
    else numberConnectedClient st.
Proof.
  intros Hstep. unfold namedClient.
  destruct (String.eqb_spec (index fields 0) "CLIENT_LIST") as [Hkey|Hkey]; cbn [andb].
  - revert Hstep.
    rewrite (lineStep_dataRow _ clientListHeader fields st (or_introl Hkey))
      by (rewrite Hkey, NewOpenVPNExporter_lookup; reflexivity).
    unfold dataRow. rewrite Hkey.
    destruct (headersFound st !! "CLIENT_LIST") as [columnNames|]; [|discriminate].
    destruct (negb _); [discriminate|]. cbn [default].
    destruct (_ || _); cbn [negb]; [intros [= <-]; reflexivity|].
    cbn [String.eqb Ascii.eqb Bool.eqb].
    destruct (resolveRow _ _ _) as [columnValues w]. intros Hrow.
    pose proof (exportMetrics_grows (Metrics clientListHeader) columnValues
                  (buildLabels (fst (NewOpenVPNExporter path w0)) clientListHeader columnValues)
                  (setWorld w (countClient st))) as (_ & (_ & Hn & _) & _).
    cbn zeta in Hn. rewrite Hrow in Hn. exact Hn.
  - pose proof (lineStep_facts (fst (NewOpenVPNExporter path w0)) fields st)
      as (_ & _ & _ & Hn).
    cbn zeta in Hn. rewrite Hstep in Hn. exact (Hn Hkey).
Qed.

Lemma scanLoop_counts (path : string) (w0 : World) (separator : string)
    (lines : list string) (st st' : State) :
  scanLoop (fst (NewOpenVPNExporter path w0)) separator lines st = Continue st' ->
  numberConnectedClient st'
  = Nat.iter (namedClients separator (headersFound st) lines)
      (fun n => wrap_int (n + 1)) (numberConnectedClient st).
Proof.
  revert st. induction lines as [|text rest IH]; intros st; cbn [scanLoop namedClients].
  - intros [= <-]. reflexivity.
  - destruct (lineStep _ (Split text separator) st) as [st1|err st1|st1] eqn:Hstep;
      [|discriminate|discriminate].
    intros Hrest. rewrite (IH st1 Hrest).
    pose proof (lineStep_facts (fst (NewOpenVPNExporter path w0)) (Split text separator) st)
      as (_ & Hh & _).
    cbn zeta in Hh. rewrite Hstep in Hh. cbn [stateOf] in Hh. rewrite Hh.
    rewrite (lineStep_counts _ _ _ _ _ Hstep).
    destruct (namedClient (headersFound st) (Split text separator)); [|reflexivity].
    rewrite Nat.add_comm, Nat.iter_add. reflexivity.
Qed.

Lemma namedClients_none (separator : string) (hs : gmap string (list string))
    (lines : list string) :
  Forall (fun line => index (Split line separator) 0 <> "CLIENT_LIST") lines ->
  namedClients separator hs lines = 0%nat.
Proof.
  intros Hrows. revert hs.
  induction Hrows as [|line rest Hline _ IH]; intros hs; [reflexivity|].
  cbn [namedClients]. rewrite IH. unfold namedClient.
  apply String.eqb_neq in Hline. rewrite Hline. reflexivity.
Qed.

(** C9.  When [collectServerStatusFromReader] on the exporter built by
    [NewOpenVPNExporter] returns no error, the last metric it sent is the
    gauge of connected clients: a gauge named
    openvpn_server_connected_clients with the five server-level label
    values, whose value is the number of CLIENT_LIST rows of the snapshot
    that have a name (an [int], converted to float64).  No metric before it
    has its descriptor, so it is sent exactly once; and for a snapshot
    without CLIENT_LIST rows its value is 0. *)
Theorem client_count_sent_once (path : string) (w0 : World) (file : Reader)
    (separator : string) (w : World) :
  let e := fst (NewOpenVPNExporter path w0) in
  let r := collectServerStatusFromReader e file separator w in
  let clients := namedClients separator ∅ (tokens (NewScanner file)) in
  ret r = Returned None ->
  exists before,
    sent r
    = before ++ [{| desc := openvpnConnectedClientsDesc e;
                    valueType := GaugeValue;
                    value := f64_of_Z (wrap_int (Z.of_nat clients));
                    labelValues := [Geohash (geoIP e); City (geoIP e); CountryName (geoIP e);
                                    RegionName (geoIP e); Ip (geoIP e)] |}] /\
    Forall (fun m => desc m <> openvpnConnectedClientsDesc e) before /\
    length (filter (fun m => desc m = openvpnConnectedClientsDesc e) (sent r)) = 1%nat /\
    fqName (openvpnConnectedClientsDesc e) = "openvpn_server_connected_clients" /\
    (Forall (fun line => index (Split line separator) 0 <> "CLIENT_LIST")
       (tokens (NewScanner file)) ->
     clients = 0%nat /\ f64_of_Z (wrap_int (Z.of_nat clients)) = f64_zero).
Proof.
  intros e r clients. subst r. unfold collectServerStatusFromReader.
  pose proof (scanLoop_initial e separator (tokens (NewScanner file)) w) as Hsent.
  destruct (scanLoop e separator (tokens (NewScanner file)) (initialState w))
    as [st|err st|st] eqn:Hloop; cbn [stateOf sent ret] in *; [|discriminate|discriminate].
  destruct (MustNewConstMetric _ _ _ _) as [m|] eqn:Hm; cbn [sent ret]; [|discriminate].
  apply MustNewConstMetric_Some in Hm as [-> _]. intros _. exists (ch st).
  assert (Forall (fun m => desc m <> openvpnConnectedClientsDesc e) (ch st)) as Hbefore.
  { revert Hsent. apply List.Forall_impl. intros m. apply sentByLine_not_clients.
    apply NewOpenVPNExporter_distinctDescs. }
  split; [|split; [exact Hbefore | split; [|split]]].
  - rewrite (scanLoop_counts _ _ _ _ _ _ Hloop). cbn [initialState headersFound
      numberConnectedClient]. rewrite wrap_int_iter. reflexivity.
  - rewrite list.filter_app, (filter_none _ _ Hbefore). cbn [app].
    rewrite filter_cons_True by reflexivity. reflexivity.
  - apply NewOpenVPNExporter_parts.
  - intros Hrows.
    subst clients. rewrite (namedClients_none _ _ _ Hrows). split; reflexivity.
Qed.

(** X13.  The gauge of connected clients counts rows, not tuples: when
    [collectServerStatusFromReader] returns no error, the last metric it
    sent is the connected-clients gauge and its value is the number of
    CLIENT_LIST rows of the snapshot whose "Common Name", read with the
    HEADER declaration before the row, is neither "UNDEF" nor empty,
    whether or not the deduplication suppressed the tuples of the row. *)
Theorem client_count_counts_named_rows (path : string) (w0 : World) (file : Reader)
    (separator : string) (w : World) :
  let e := fst (NewOpenVPNExporter path w0) in
  let r := collectServerStatusFromReader e file separator w in
  ret r = Returned None ->
  list.last (sent r)
  = Some (connectedClientsMetric e
            (wrap_int (Z.of_nat (namedClients separator ∅ (tokens (NewScanner file)))))).
Proof.
  intros e r. subst r. unfold collectServerStatusFromReader.
  destruct (scanLoop e separator (tokens (NewScanner file)) (initialState w))
    as [st|err st|st] eqn:Hloop; cbn [sent ret]; [|discriminate|discriminate].
  destruct (MustNewConstMetric _ _ _ _) as [m|] eqn:Hm; cbn [sent ret]; [|discriminate].
  apply MustNewConstMetric_Some in Hm as [-> _].
  intros _. rewrite last_snoc, (scanLoop_counts _ _ _ _ _ _ Hloop).
  cbn [initialState headersFound numberConnectedClient]. rewrite wrap_int_iter. reflexivity.
Qed.

End Counting.

Section Time.

Context {ext : Externals}.

Lemma exportMetrics_no_time (e : OpenVPNExporter) (key : string) (header : OpenvpnServerHeader)
    (columnValues : gmap string string) (labels : list string) (st : State) :
  distinctDescs e ->
  openvpnServerHeaders e !! key = Some header ->
  exists new,
    ch (stateOf (exportMetrics (Metrics header) columnValues labels st)) = ch st ++ new /\
    filter (fun m => desc m = openvpnStatusUpdateTimeDesc e) new = [].
Proof.
  intros D Hheader.
  pose proof (exportMetrics_grows (Metrics header) columnValues labels st)
    as ([(new & Hnew & Hall) _] & _).
  exists new. split; [exact Hnew|]. apply filter_none.
  revert Hall. apply List.Forall_impl.
  intros m (metric & c & Hin & _ & _ & Hd & _). rewrite Hd.
  apply (field_not_time e D). exists key, header. split; assumption.
Qed.

Lemma lineStep_time (e : OpenVPNExporter) (separator line : string) (st st' : State) :
  distinctDescs e ->
  lineStep e (Split line separator) st = Continue st' ->
  filter (fun m => desc m = openvpnStatusUpdateTimeDesc e) (ch st')
  = filter (fun m => desc m = openvpnStatusUpdateTimeDesc e) (ch st)
    ++ match reportedTime separator line with
       | Some t => [statusUpdateTimeMetric e t]
       | None => []
       end.
Proof.
  intros D. unfold reportedTime, lineStep.
  destruct (Split line separator) as [|key rest]; [discriminate|].
  change (index (key :: rest) 0) with key. set (fields := key :: rest).
  assert (forall st1 : State, ch st1 = ch st ->
            filter (fun m => desc m = openvpnStatusUpdateTimeDesc e) (ch st1)
            = filter (fun m => desc m = openvpnStatusUpdateTimeDesc e) (ch st) ++ []) as Hsame.
  { intros st1 ->. rewrite app_nil_r. reflexivity. }
  assert (forall header st1,
             openvpnServerHeaders e !! key = Some header ->
             dataRow e header fields st = Continue st1 ->
             filter (fun m => desc m = openvpnStatusUpdateTimeDesc e) (ch st1)
             = filter (fun m => desc m = openvpnStatusUpdateTimeDesc e) (ch st) ++ []) as Hrow.
  { intros header st1 Hheader. unfold dataRow.
    destruct (headersFound st !! _); [|discriminate].
    destruct (negb _); [discriminate|].
    destruct (_ || _); [intros [= <-]; apply Hsame; reflexivity|].
    destruct (resolveRow e _ _) as [columnValues w].
    match goal with
    | |- exportMetrics _ _ ?labels ?st0 = _ -> _ =>
        destruct (exportMetrics_no_time e key header columnValues labels st0 D Hheader)
          as (new & Hnew & Hfilter)
    end.
    intros Hexp. rewrite Hexp in Hnew. cbn [stateOf] in Hnew.
    rewrite Hnew, list.filter_app, Hfilter. f_equal. f_equal.
    destruct (String.eqb _ _); reflexivity. }
  destruct (String.eqb_spec key "END") as [->|_]; cbn [andb].
  { cbn [String.eqb Ascii.eqb Bool.eqb andb].
    destruct (length fields =? 1)%nat; [intros [= <-]; apply Hsame; reflexivity|].
    destruct (openvpnServerHeaders e !! "END") as [header|] eqn:Hh; [|discriminate].
    apply Hrow; first [exact Hh | reflexivity]. }
  destruct (String.eqb_spec key "GLOBAL_STATS") as [->|_].
  { intros [= <-]. apply Hsame. reflexivity. }
  destruct (String.eqb_spec key "HEADER") as [->|_]; cbn [andb].
  { cbn [String.eqb Ascii.eqb Bool.eqb andb].
    destruct (2 <? length fields)%nat; [intros [= <-]; apply Hsame; reflexivity|].
    destruct (openvpnServerHeaders e !! "HEADER") as [header|] eqn:Hh; [|discriminate].
    apply Hrow; first [exact Hh | reflexivity]. }
  destruct (String.eqb_spec key "TIME") as [->|_]; cbn [andb].
  { destruct (length fields =? 3)%nat.
    - destruct (ParseFloat (index fields 2)) as [t|]; [|discriminate].
      destruct (MustNewConstMetric _ _ t _) as [m|] eqn:Hm; [|discriminate].
      apply MustNewConstMetric_Some in Hm as [-> _].
      intros [= <-]. cbn [send ch]. rewrite list.filter_app.
      rewrite filter_cons_True by reflexivity. reflexivity.
    - cbn [String.eqb Ascii.eqb Bool.eqb andb].
      destruct (openvpnServerHeaders e !! "TIME") as [header|] eqn:Hh; [|discriminate].
      apply Hrow; first [exact Hh | reflexivity]. }
  destruct (String.eqb key "TITLE" && _); [intros [= <-]; apply Hsame; reflexivity|].
  destruct (openvpnServerHeaders e !! key) as [header|] eqn:Hh; [|discriminate].
  apply Hrow; first [exact Hh | reflexivity].
Qed.

Lemma scanLoop_time (e : OpenVPNExporter) (separator : string) (lines : list string)
    (st st' : State) :
  distinctDescs e ->
  scanLoop e separator lines st = Continue st' ->
  filter (fun m => desc m = openvpnStatusUpdateTimeDesc e) (ch st')
  = filter (fun m => desc m = openvpnStatusUpdateTimeDesc e) (ch st)
    ++ map (statusUpdateTimeMetric e) (omap (reportedTime separator) lines).
Proof.
  intros D. revert st. induction lines as [|text rest IH]; intros st; cbn [scanLoop omap].
  - intros [= <-]. cbn. rewrite app_nil_r. reflexivity.
  - destruct (lineStep e (Split text separator) st) as [st1|err st1|st1] eqn:Hstep;
      [|discriminate|discriminate].
    intros Hrest. rewrite (IH st1 Hrest), (lineStep_time e separator text st st1 D Hstep).
    rewrite <- app_assoc. f_equal.
    cbn [omap list_omap]. destruct (reportedTime separator text); reflexivity.
Qed.

(** X14.  Update times are not deduplicated: when
    [collectServerStatusFromReader] returns no error, the metrics it sent
    with the descriptor of the update time are, in the order of the lines,
    one gauge with the five server-level label values for every TIME line
    of three fields, valued with the parsed third field, so that two such
    lines give two gauges with the same labels. *)
Theorem update_time_gauges (path : string) (w0 : World) (file : Reader)
    (separator : string) (w : World) :
  let e := fst (NewOpenVPNExporter path w0) in
  let r := collectServerStatusFromReader e file separator w in
  ret r = Returned None ->
  filter (fun m => desc m = openvpnStatusUpdateTimeDesc e) (sent r)
  = map (statusUpdateTimeMetric e) (omap (reportedTime separator) (tokens (NewScanner file))).
Proof.
  intros e r. subst r. unfold collectServerStatusFromReader.
  pose proof (NewOpenVPNExporter_distinctDescs path w0) as D. fold e in D.
  destruct (scanLoop e separator (tokens (NewScanner file)) (initialState w))
    as [st|err st|st] eqn:Hloop; cbn [sent ret]; [|discriminate|discriminate].
  destruct (MustNewConstMetric _ _ _ _) as [m|] eqn:Hm; cbn [sent ret]; [|discriminate].
  apply MustNewConstMetric_Some in Hm as [-> _].
  intros _. rewrite list.filter_app, (scanLoop_time e _ _ _ _ D Hloop).
  cbn [initialState ch]. rewrite filter_nil. cbn [app].
  rewrite filter_cons_False, filter_nil, app_nil_r; [reflexivity|].
  cbn [desc]. intros H. apply (time_not_clients e D). symmetry. exact H.
Qed.

End Time.

Section Identities.

Context {ext : Externals}.

(** X15.  [Collect] on the exporter built by [NewOpenVPNExporter] sends
    metrics of seven names only, each with its kind: the two byte counts
    of a client are counters, everything else is a gauge. *)
Theorem sent_metric_identities (path : string) (w0 : World) (fs : string -> Reader + error)
    (w : World) :
  Forall (fun m => (fqName (desc m), valueType m) ∈ metricIdentities)
    (sent (Collect (fst (NewOpenVPNExporter path w0)) fs w)).
Proof.
  set (e := fst (NewOpenVPNExporter path w0)).
  destruct (NewOpenVPNExporter_parts path w0) as (_ & _ & Hup & Htime & Hclients & _).
  fold e in Hup, Htime, Hclients.
  assert (forall v, (fqName (desc (upMetric e v)), valueType (upMetric e v)) ∈ metricIdentities)
    as Hupm.
  { intros v. cbn [upMetric desc valueType]. rewrite Hup. left. }
  assert (Forall (fun m => (fqName (desc m), valueType m) ∈ metricIdentities)
            (sent (collectStatusFromFile e (statusPath e) fs w))) as Hscrape.
  { pose proof (collectStatusFromFile_facts e (statusPath e) fs w) as [Hsent _].
    revert Hsent. apply List.Forall_impl. intros m Hm.
    destruct Hm as [[(Hd & Hv & _) | (key & header & cv & Hlook & metric & c & Hin & _ & _
                                      & Hd & Hv & _)] | [n ->]].
    - rewrite Hd, Hv, Htime. right. left.
    - rewrite Hd, Hv. subst e. rewrite NewOpenVPNExporter_lookup in Hlook.
      destruct (String.eqb key "ROUTING_TABLE").
      + injection Hlook as <-. apply list_elem_of_singleton in Hin as ->.
        vm_compute. repeat (first [left | right]).
      + destruct (String.eqb key "CLIENT_LIST"); [|discriminate].
        injection Hlook as <-.
        repeat (apply elem_of_cons in Hin as [-> | Hin];
                [vm_compute; repeat (first [left | right]) |]).
        inversion Hin.
    - cbn [connectedClientsMetric desc valueType]. rewrite Hclients. right. right. left. }
  destruct (Collect_sent e fs w) as [-> | [v ->]]; [exact Hscrape|].
  apply Forall_app. split; [exact Hscrape|]. constructor; [apply Hupm | constructor].
Qed.

End Identities.

Section Described.

Context {ext : Externals}.

(** X16.  Of the metrics that [Collect] sends on the exporter built by
    [NewOpenVPNExporter], only an [up] gauge has a descriptor that
    [Describe] announces: the metrics of the status file itself all have
    descriptors that are not described.  A call that returns has sent one
    described metric, the [up] gauge, last; a call that panics has sent
    none. *)
Theorem described_metrics (path : string) (w0 : World) (fs : string -> Reader + error)
    (w : World) :
  let e := fst (NewOpenVPNExporter path w0) in
  let r := Collect e fs w in
  Forall (fun m => desc m ∉ Describe e) (sent (collectStatusFromFile e (statusPath e) fs w)) /\
  (ret r = Returned None ->
   exists v, filter (fun m => desc m ∈ Describe e) (sent r) = [upMetric e v] /\
             list.last (sent r) = Some (upMetric e v)) /\
  (ret r = Panicked -> filter (fun m => desc m ∈ Describe e) (sent r) = []) /\
  (forall err, ret r <> Returned (Some err)).
Proof.
  intros e r.
  pose proof (collectStatusFromFile_facts e (statusPath e) fs w) as [Hsent _].
  assert (Forall (fun m => desc m ∉ Describe e)
            (sent (collectStatusFromFile e (statusPath e) fs w))) as Hnot.
  { revert Hsent. apply List.Forall_impl. intros m Hm Hin.
    apply list_elem_of_singleton in Hin.
    exact (sentByScrape_not_up e m (NewOpenVPNExporter_distinctDescs path w0) Hm Hin). }
  assert (forall v, filter (fun m => desc m ∈ Describe e)
                      (sent (collectStatusFromFile e (statusPath e) fs w) ++ [upMetric e v])
                    = [upMetric e v]) as Hone.
  { intros v. rewrite list.filter_app, (filter_none _ _ Hnot). cbn [app].
    rewrite filter_cons_True by (cbn; left). reflexivity. }
  split; [exact Hnot|]. subst r. unfold Collect.
  destruct (ret (collectStatusFromFile e (statusPath e) fs w)) as [[err|]|] eqn:Hret;
    [| |rewrite Hret; split; [discriminate | split; [|discriminate]];
        intros _; apply filter_none; exact Hnot];
    (destruct (MustNewConstMetric _ _ _ _) as [m|] eqn:Hm; cbn [sent ret];
     [apply MustNewConstMetric_Some in Hm as [-> _];
      split; [intros _; eexists; split; [apply Hone | apply last_snoc]
             | split; discriminate]
     | split; [discriminate | split; [|discriminate]];
       intros _; apply filter_none; exact Hnot]).
Qed.

End Described.

(** * Status files that are valid UTF-8 *)

(** ** Lines and fields of a valid stream *)

Lemma utf8_first_ranges (c : ascii) (rest : list (N * N)) :
  utf8_first c = Some rest -> continuationRanges rest.
Proof.
  unfold utf8_first, continuationRanges.
  repeat (match goal with
          | |- context [if ?b then _ else _] => destruct b
          end);
    intros [= <-]; repeat constructor; cbn; lia.
Qed.

Lemma utf8_first_ascii (c : ascii) : (N_of_ascii c < 128)%N -> utf8_first c = Some [].
Proof. intros H. unfold utf8_first. apply N.ltb_lt in H. rewrite H. reflexivity. Qed.

(** One step of the validator, for a byte that is read under [pending]. *)
Lemma utf8_valid_step (pending : list (N * N)) (c : ascii) (s : string) :
  continuationRanges pending ->
  utf8_valid pending (String c s) = true ->
  exists rest,
    continuationRanges rest /\ utf8_valid rest s = true /\
    (forall s', utf8_valid pending (String c s') = utf8_valid rest s') /\
    ((N_of_ascii c < 128)%N -> pending = [] /\ rest = []).
Proof.
  intros Hp. cbn [utf8_valid]. destruct pending as [|[lo hi] rest].
  - destruct (utf8_first c) as [rest|] eqn:Hfirst; [|discriminate].
    intros Hvalid. exists rest. split; [exact (utf8_first_ranges _ _ Hfirst)|].
    split; [exact Hvalid|]. split; [reflexivity|].
    intros Hc. rewrite (utf8_first_ascii c Hc) in Hfirst. injection Hfirst as <-.
    split; reflexivity.
  - inversion Hp as [|? ? Hlo Hrest]; subst. cbn [fst] in Hlo.
    destruct ((lo <=? N_of_ascii c)%N && (N_of_ascii c <=? hi)%N) eqn:Hin; [|discriminate].
    intros Hvalid. exists rest. split; [exact Hrest|]. split; [exact Hvalid|].
    split; [reflexivity|].
    intros Hc. apply andb_prop in Hin as [Hin _]. apply N.leb_le in Hin. lia.
Qed.

Lemma utf8_valid_nil (pending : list (N * N)) : utf8_valid pending "" = true -> pending = [].
Proof. destruct pending; [reflexivity | discriminate]. Qed.

(** Splitting at one ASCII byte keeps the parts valid. *)
Lemma splitOn_valid (c : ascii) (pending : list (N * N)) (s : string) :
  (N_of_ascii c < 128)%N ->
  continuationRanges pending ->
  utf8_valid pending s = true ->
  exists f fs,
    splitOn (String c "") 0 s = f :: fs /\ utf8_valid pending f = true /\
    Forall (fun x => utf8_ValidString x = true) fs.
Proof.
  intros Hc. revert pending. induction s as [|a s IH]; intros pending Hp Hvalid.
  - exists "", []. split; [reflexivity|]. split; [exact Hvalid | constructor].
  - destruct (utf8_valid_step pending a s Hp Hvalid) as (rest & Hrest & Hs & Hstep & Hascii).
    destruct (IH rest Hrest Hs) as (f & fs & Hsplit & Hf & Hfs).
    cbn [splitOn String.prefix String.length Nat.sub].
    destruct (ascii_dec c a) as [<-|Hne].
    + destruct (Hascii Hc) as [-> ->].
      assert (String.prefix "" s = true) as -> by (destruct s; reflexivity).
      exists "", (f :: fs). rewrite Hsplit. split; [reflexivity|].
      split; [reflexivity|]. constructor; [exact Hf | exact Hfs].
    + rewrite Hsplit. exists (String a f), fs. split; [reflexivity|].
      split; [rewrite Hstep; exact Hf | exact Hfs].
Qed.

Lemma Split_valid (s sep : string) :
  sep = "," \/ sep = tab ->
  utf8_ValidString s = true ->
  Forall (fun x => utf8_ValidString x = true) (Split s sep).
Proof.
  intros Hsep Hvalid.
  assert (exists c, sep = String c "" /\ (N_of_ascii c < 128)%N) as (c & -> & Hc).
  { destruct Hsep as [-> | ->]; eexists; (split; [reflexivity | vm_compute; reflexivity]). }
  destruct (splitOn_valid c [] s Hc (Forall_nil _) Hvalid) as (f & fs & Hsplit & Hf & Hfs).
  unfold Split. rewrite Hsplit. constructor; assumption.
Qed.

(** The lines of a valid stream are valid. *)
Lemma rawLines_valid (pending : list (N * N)) (s : string) :
  continuationRanges pending ->
  utf8_valid pending s = true ->
  match rawLines s with
  | [] => pending = []
  | l :: ls => utf8_valid pending l = true /\ Forall (fun x => utf8_ValidString x = true) ls
  end.
Proof.
  revert pending. induction s as [|a s IH]; intros pending Hp Hvalid.
  - exact (utf8_valid_nil _ Hvalid).
  - destruct (utf8_valid_step pending a s Hp Hvalid) as (rest & Hrest & Hs & Hstep & Hascii).
    specialize (IH rest Hrest Hs). cbn [rawLines].
    destruct (Ascii.eqb_spec a newline) as [->|Hne].
    + destruct Hascii as [-> ->]; [vm_compute; reflexivity|].
      split; [reflexivity|]. destruct (rawLines s) as [|l ls]; [constructor|].
      destruct IH as [Hl Hls]. constructor; assumption.
    + destruct (rawLines s) as [|l ls].
      * subst rest. split; [rewrite Hstep; reflexivity | constructor].
      * destruct IH as [Hl Hls]. split; [rewrite Hstep; exact Hl | exact Hls].
Qed.

Lemma dropCR_valid (pending : list (N * N)) (s : string) :
  continuationRanges pending ->
  utf8_valid pending s = true -> utf8_valid pending (dropCR s) = true.
Proof.
  revert pending. induction s as [|a s IH]; intros pending Hp Hvalid; [exact Hvalid|].
  destruct (utf8_valid_step pending a s Hp Hvalid) as (rest & Hrest & Hs & Hstep & Hascii).
  destruct s as [|b s].
  - cbn [dropCR]. destruct (Ascii.eqb_spec a carriageReturn) as [->|_]; [|exact Hvalid].
    destruct Hascii as [-> _]; [vm_compute; reflexivity | reflexivity].
  - change (dropCR (String a (String b s))) with (String a (dropCR (String b s))).
    rewrite Hstep. apply IH; assumption.
Qed.

Lemma scanTokens_valid (lines : list string) (err : option error) :
  Forall (fun x => utf8_ValidString x = true) lines ->
  Forall (fun x => utf8_ValidString x = true) (tokens (scanTokens lines err)).
Proof.
  induction 1 as [|l lines Hl _ IH]; cbn [scanTokens]; [constructor|].
  destruct (_ <? _)%Z; cbn [tokens]; [|constructor].
  constructor; [|exact IH]. apply (dropCR_valid [] l (Forall_nil _) Hl).
Qed.

Lemma NewScanner_valid (file : Reader) :
  utf8_ValidString (content file) = true ->
  Forall (fun x => utf8_ValidString x = true) (tokens (NewScanner file)).
Proof.
  intros Hvalid. apply scanTokens_valid.
  pose proof (rawLines_valid [] (content file) (Forall_nil _) Hvalid) as H.
  destruct (rawLines (content file)) as [|l ls]; [constructor|].
  destruct H as [Hl Hls]. constructor; assumption.
Qed.

(** ** No label value is refused *)

Lemma validColumns_insert (columnValues : gmap string string) (column v : string) :
  utf8_ValidString v = true -> validColumns columnValues ->
  validColumns (<[column := v]> columnValues).
Proof.
  intros Hv Hcv k v' Hk. apply lookup_insert_Some in Hk as [[_ <-] | [_ Hk]];
    [exact Hv | exact (Hcv _ _ Hk)].
Qed.

Lemma mapGet_valid (columnValues : gmap string string) (column : string) :
  validColumns columnValues -> utf8_ValidString (mapGet columnValues column) = true.
Proof.
  intros Hcv. unfold mapGet. destruct (columnValues !! column) as [v|] eqn:Hv;
    [exact (Hcv _ _ Hv) | reflexivity].
Qed.

Lemma index_valid (fields : list string) (i : nat) :
  Forall (fun x => utf8_ValidString x = true) fields -> utf8_ValidString (index fields i) = true.
Proof.
  intros Hfields. unfold index. destruct (fields !! i) as [v|] eqn:Hv; [|reflexivity].
  exact (proj1 (list.Forall_forall _ _) Hfields v (list_elem_of_lookup_2 _ _ _ Hv)).
Qed.

Lemma buildColumnValues_valid (header : OpenvpnServerHeader) (columnNames fields : list string) :
  Forall (fun x => utf8_ValidString x = true) fields ->
  validColumns (buildColumnValues header columnNames fields).
Proof.
  intros Hfields. unfold buildColumnValues.
  assert (validColumns (initColumns (LabelColumns header) ∅)) as Hinit.
  { generalize (LabelColumns header).
    assert (validColumns ∅) as Hempty by (intros k v Hk; rewrite lookup_empty in Hk; discriminate).
    revert Hempty. generalize (∅ : gmap string string).
    intros cv Hcv cols. revert cv Hcv.
    induction cols as [|c cols IH]; intros cv Hcv; cbn [initColumns]; [exact Hcv|].
    apply IH, validColumns_insert; [reflexivity | exact Hcv]. }
  revert Hinit. generalize (initColumns (LabelColumns header) ∅). generalize 0%nat.
  induction columnNames as [|c rest IH]; intros i cv Hcv; cbn [overlayColumns]; [exact Hcv|].
  apply IH, validColumns_insert; [apply index_valid, Hfields | exact Hcv].
Qed.

Lemma validLabels_app (l1 l2 : list string) :
  validLabels (l1 ++ l2) = validLabels l1 && validLabels l2.
Proof. apply forallb_app. Qed.

Lemma buildLabels_valid (e : OpenVPNExporter) (header : OpenvpnServerHeader)
    (columnValues : gmap string string) :
  validLabels (serverLabels e) = true -> validColumns columnValues ->
  validLabels (buildLabels e header columnValues) = true.
Proof.
  intros Hserver Hcv. unfold buildLabels. rewrite validLabels_app, Hserver. cbn [andb].
  apply forallb_forall. intros v Hv. apply in_map_iff in Hv as (column & <- & _).
  apply mapGet_valid, Hcv.
Qed.

Section Returns.

Context {ext : Externals}.

Hypothesis service : validService.

Lemma getGeo_valid (address : string) (w : World) :
  validWorld w ->
  validGeo (fst (fst (getGeo address w))) = true /\ validWorld (snd (getGeo address w)).
Proof.
  intros Hw. destruct service as (Hhttp & Hhash & _). unfold getGeo.
  destruct (geoCache w !! address) as [val|] eqn:Hcache.
  - split; [exact (Hw _ _ Hcache) | exact Hw].
  - specialize (Hhttp (requests w) address).
    destruct (http_geo (requests w) address) as [geo [err|]]; cbn [fst snd] in *.
    + split; [exact Hhttp | exact Hw].
    + assert (validGeo {| Ip := Ip geo; CountryName := CountryName geo;
                          RegionName := RegionName geo; City := City geo;
                          Lat := Lat geo; Lon := Lon geo;
                          Geohash := geohash_Encode (Lat geo) (Lon geo) |} = true) as Hgeo.
      { unfold validGeo, validLabels in *. cbn [forallb Geohash City CountryName RegionName Ip] in *.
        apply andb_prop in Hhttp as [_ Hrest]. rewrite Hhash, Hrest. reflexivity. }
      split; [exact Hgeo|]. intros a g Ha. cbn [geoCache] in Ha.
      apply lookup_insert_Some in Ha as [[_ <-] | [_ Ha]]; [exact Hgeo | exact (Hw _ _ Ha)].
Qed.

Lemma overlayGeo_valid (e : OpenVPNExporter) (geo : GeoIP)
    (columnValues : gmap string string) :
  validGeo geo = true -> validColumns columnValues ->
  validColumns (overlayGeo e geo columnValues).
Proof.
  intros Hgeo Hcv. destruct service as (_ & _ & Hfmt).
  unfold validGeo, validLabels in Hgeo. cbn [forallb] in Hgeo.
  apply andb_prop in Hgeo as [Hhash Hgeo]. apply andb_prop in Hgeo as [Hcity Hgeo].
  apply andb_prop in Hgeo as [Hcountry Hgeo]. apply andb_prop in Hgeo as [Hregion _].
  unfold overlayGeo.
  destruct (f64_eqb (Lon (geoIP e)) f64_zero && f64_eqb (Lat (geoIP e)) f64_zero);
    repeat (apply validColumns_insert;
            [first [reflexivity | apply Hfmt | assumption
                   | match goal with |- context [if negb ?b then _ else _] => destruct b end;
                     first [reflexivity | assumption]] |]);
    exact Hcv.
Qed.

Lemma resolveRow_valid (e : OpenVPNExporter) (columnValues : gmap string string) (w : World) :
  validWorld w -> validColumns columnValues ->
  validColumns (fst (resolveRow e columnValues w)) /\ validWorld (snd (resolveRow e columnValues w)).
Proof.
  intros Hw Hcv. unfold resolveRow.
  destruct (negb _); [|split; assumption].
  pose proof (getGeo_valid (index (Split (mapGet columnValues "Real Address") ":") 0) w Hw)
    as [Hgeo Hw'].
  destruct (getGeo _ w) as [[geo [err|]] w']; cbn [fst snd] in *.
  - split; assumption.
  - split; [apply overlayGeo_valid; assumption | exact Hw'].
Qed.

Lemma exportMetrics_returns (metrics : list OpenvpnServerHeaderField)
    (columnValues : gmap string string) (labels : list string) (st : State) :
  validLabels labels = true ->
  (forall metric, metric ∈ metrics -> length labels = length (variableLabels (Desc metric))) ->
  panics (exportMetrics metrics columnValues labels st) = false.
Proof.
  intros Hvalid Hcard.
  pose proof (exportMetrics_grows metrics columnValues labels st) as (_ & _ & Hpanic).
  destruct (panics (exportMetrics metrics columnValues labels st)); [|reflexivity].
  destruct (Hpanic eq_refl) as (metric & Hin & Hrefused).
  rewrite (validateLabelValues_cardinal _ _ (Hcard metric Hin)), Hvalid in Hrefused.
  discriminate Hrefused.
Qed.

Lemma dataRow_returns (e : OpenVPNExporter) (header : OpenvpnServerHeader)
    (fields : list string) (st : State) :
  validLabels (serverLabels e) = true ->
  (forall metric, metric ∈ Metrics header ->
                  length (variableLabels (Desc metric)) = (5 + length (LabelColumns header))%nat) ->
  Forall (fun x => utf8_ValidString x = true) fields ->
  validWorld (world st) ->
  panics (dataRow e header fields st) = false /\
  validWorld (world (stateOf (dataRow e header fields st))).
Proof.
  intros Hserver Hcard Hfields Hw. unfold dataRow.
  destruct (headersFound st !! index fields 0) as [columnNames|]; [|split; [reflexivity | exact Hw]].
  destruct (negb _); [split; [reflexivity | exact Hw]|].
  destruct (_ || _); [split; [reflexivity | exact Hw]|].
  set (st1 := if String.eqb (index fields 0) "CLIENT_LIST" then countClient st else st).
  assert (world st1 = world st) as Hw1 by (unfold st1; destruct (String.eqb _ _); reflexivity).
  pose proof (resolveRow_valid e (buildColumnValues header columnNames fields) (world st1))
    as Hrow.
  rewrite Hw1 in Hrow. specialize (Hrow Hw (buildColumnValues_valid _ _ _ Hfields)).
  rewrite Hw1. destruct (resolveRow e _ (world st)) as [columnValues w]. cbn [fst snd] in Hrow.
  destruct Hrow as [Hcv Hw'].
  pose proof (exportMetrics_grows (Metrics header) columnValues
                (buildLabels e header columnValues) (setWorld w st1)) as (_ & (_ & _ & Hsame) & _).
  cbn zeta in Hsame. split.
  - apply exportMetrics_returns; [apply buildLabels_valid; assumption|].
    intros metric Hin. rewrite (Hcard metric Hin). unfold buildLabels.
    rewrite length_app, length_map. reflexivity.
  - rewrite Hsame. exact Hw'.
Qed.

Lemma lineStep_returns (path : string) (w0 : World) (fields : list string) (st : State) :
  let e := fst (NewOpenVPNExporter path w0) in
  validLabels (serverLabels e) = true ->
  fields <> [] ->
  Forall (fun x => utf8_ValidString x = true) fields ->
  validWorld (world st) ->
  panics (lineStep e fields st) = false /\ validWorld (world (stateOf (lineStep e fields st))).
Proof.
  intros e Hserver Hne Hfields Hw. unfold lineStep.
  destruct fields as [|key rest]; [congruence|].
  assert (forall header,
             openvpnServerHeaders e !! key = Some header ->
             panics (dataRow e header (key :: rest) st) = false /\
             validWorld (world (stateOf (dataRow e header (key :: rest) st)))) as Hrow.
  { intros header Hheader. apply dataRow_returns; try assumption.
    intros metric Hin.
    destruct (NewOpenVPNExporter_handed path w0 (Desc metric)
                (buildLabels e header ∅)) as [Hlen _].
    { right. exists key, header, ∅, metric. repeat split; assumption. }
    rewrite <- Hlen. unfold buildLabels. rewrite length_app, length_map. reflexivity. }
  destruct (String.eqb key "END" && _); [split; [reflexivity | exact Hw]|].
  destruct (String.eqb key "GLOBAL_STATS"); [split; [reflexivity | exact Hw]|].
  destruct (String.eqb key "HEADER" && _); [split; [reflexivity | exact Hw]|].
  destruct (String.eqb key "TIME" && _).
  { destruct (ParseFloat _) as [t|]; [|split; [reflexivity | exact Hw]].
    rewrite MustNewConstMetric_accepts; [split; [reflexivity | exact Hw]|].
    rewrite validateLabelValues_cardinal; [exact Hserver|].
    apply serverLabels_cardinal. right. left. }
  destruct (String.eqb key "TITLE" && _); [split; [reflexivity | exact Hw]|].
  destruct (openvpnServerHeaders e !! key) as [header|] eqn:Hheader;
    [|split; [reflexivity | exact Hw]].
  apply Hrow. reflexivity.
Qed.

Lemma scanLoop_returns (path : string) (w0 : World) (separator : string)
    (lines : list string) (st : State) :
  let e := fst (NewOpenVPNExporter path w0) in
  validLabels (serverLabels e) = true ->
  separator = "," \/ separator = tab ->
  Forall (fun x => utf8_ValidString x = true) lines ->
  validWorld (world st) ->
  panics (scanLoop e separator lines st) = false.
Proof.
  intros e Hserver Hsep Hlines. revert st.
  induction Hlines as [|text rest Htext _ IH]; intros st Hw; cbn [scanLoop]; [reflexivity|].
  destruct (lineStep_returns path w0 (Split text separator) st Hserver) as [Hstep Hw'].
  { apply Split_nonempty. destruct Hsep as [-> | ->]; discriminate. }
  { apply Split_valid; assumption. }
  { exact Hw. }
  fold e in Hstep, Hw'.
  destruct (lineStep e (Split text separator) st) as [st1|err st1|st1];
    cbn [panics stateOf] in *; [apply IH, Hw' | reflexivity | discriminate Hstep].
Qed.

Lemma NewOpenVPNExporter_validLabels (path : string) (w0 : World) :
  validWorld w0 -> validLabels (serverLabels (fst (NewOpenVPNExporter path w0))) = true.
Proof.
  intros Hw0. destruct (getGeo_valid "" w0 Hw0) as [Hgeo _].
  unfold NewOpenVPNExporter. destruct (getGeo "" w0) as [[geo err] w1]. exact Hgeo.
Qed.

(** X17.  A status file that is valid UTF-8 never makes [Collect] panic:
    when the location service and the cache hold valid strings only (as
    decoded JSON and geohashes are), a call of [Collect] on the exporter
    built by [NewOpenVPNExporter] returns, whatever the file holds
    otherwise. *)
Theorem valid_status_file_never_panics (path : string) (w0 : World)
    (fs : string -> Reader + error) (w : World) :
  validWorld w0 -> validWorld w ->
  (forall file, fs path = inl file -> utf8_ValidString (content file) = true) ->
  ret (Collect (fst (NewOpenVPNExporter path w0)) fs w) = Returned None.
Proof.
  intros Hw0 Hw Hfile. set (e := fst (NewOpenVPNExporter path w0)).
  pose proof (NewOpenVPNExporter_validLabels path w0 Hw0) as Hserver. fold e in Hserver.
  assert (forall d v,
             d ∈ [openvpnUpDesc e; openvpnStatusUpdateTimeDesc e; openvpnConnectedClientsDesc e] ->
             MustNewConstMetric d GaugeValue v (serverLabels e)
             = Some (constMetric d GaugeValue v (serverLabels e))) as Hgauge.
  { intros d v Hd. apply MustNewConstMetric_accepts.
    rewrite validateLabelValues_cardinal; [exact Hserver|].
    apply serverLabels_cardinal, Hd. }
  assert (ret (collectStatusFromFile e (statusPath e) fs w) <> Panicked) as Hscrape.
  { assert (statusPath e = path) as -> by apply NewOpenVPNExporter_parts.
    unfold collectStatusFromFile.
    destruct (fs path) as [file|err] eqn:Hopen; [|discriminate].
    pose proof (NewScanner_valid file (Hfile file eq_refl)) as Hlines.
    assert (forall separator,
               separator = "," \/ separator = tab ->
               ret (collectServerStatusFromReader e file separator w) <> Panicked) as Hserverfile.
    { intros separator Hsep. unfold collectServerStatusFromReader.
      pose proof (scanLoop_returns path w0 separator (tokens (NewScanner file))
                    (initialState w) Hserver Hsep Hlines Hw) as Hloop.
      fold e in Hloop.
      destruct (scanLoop e separator (tokens (NewScanner file)) (initialState w));
        cbn [panics] in Hloop; [|discriminate|discriminate Hloop].
      rewrite Hgauge by (right; right; left). discriminate. }
    unfold collectStatusFromReader.
    destruct (HasPrefix _ "TITLE,"); [apply Hserverfile; left; reflexivity|].
    destruct (HasPrefix _ ("TITLE" +:+ tab)); [apply Hserverfile; right; reflexivity|].
    destruct (HasPrefix _ "OpenVPN STATISTICS"); discriminate. }
  unfold Collect.
  destruct (ret (collectStatusFromFile e (statusPath e) fs w)) as [[err|]|];
    [| |contradiction]; rewrite Hgauge by left; reflexivity.
Qed.

End Returns.

(** * Runs on concrete status files *)

(** ** C1: the deduplication test pools the recorded values *)

(** C1, where the code departs from it.  In [threeClients] the tuples of
    the first two clients are sent and the tuple of the third is not.  Yet
    the label vector of the third was not recorded before, and no label
    combination recorded before is a superset of its values: [subslice]
    finds each of its values somewhere in the pool, spread over the two
    vectors recorded before. *)
Lemma pooled_values_suppress_new_combination :
  let r := collectStatusFromReader (ext := offline) offlineExporter "" threeClients emptyWorld in
  let row := labelsOfRow offlineExporter clientListHeader clientColumns in
  ret r = Returned None /\
  sentFor clientReceivedBytes (sent r)
  = [row "CLIENT_LIST,alice,u1,10"; row "CLIENT_LIST,bob,u2,20"] /\
  row "CLIENT_LIST,alice,u2,30" <> row "CLIENT_LIST,alice,u1,10" /\
  row "CLIENT_LIST,alice,u2,30" <> row "CLIENT_LIST,bob,u2,20" /\
  spec_supersetRecorded [] (row "CLIENT_LIST,alice,u1,10") = false /\
  spec_supersetRecorded [row "CLIENT_LIST,alice,u1,10"; row "CLIENT_LIST,bob,u2,20"]
    (row "CLIENT_LIST,alice,u2,30") = false /\
  subslice (row "CLIENT_LIST,alice,u2,30")
    (row "CLIENT_LIST,alice,u1,10" ++ row "CLIENT_LIST,bob,u2,20") = true.
Proof. vm_compute. repeat split; discriminate. Qed.

(** ** C3: a HEADER line needs three fields *)

(** C3 does not hold for a line of exactly two fields: it is refused as an
    unsupported key, and the scrape of a file holding it fails with that
    error. *)
Lemma header_with_two_fields_refused :
  let fields := Split "HEADER,CLIENT_LIST" "," in
  index fields 0 = "HEADER" /\ length fields = 2%nat /\
  lineStep (ext := offline) offlineExporter fields (initialState emptyWorld)
  = Return (ErrUnsupportedKey "HEADER") (initialState emptyWorld) /\
  ret (collectStatusFromReader (ext := offline) offlineExporter ""
         (fileOf ["TITLE,OpenVPN 2.4.7"; "HEADER,CLIENT_LIST"]) emptyWorld)
  = Returned (Some (ErrUnsupportedKey "HEADER")).
Proof. vm_compute. repeat split. Qed.

(** The HEADER line of [threeClients]. *)
Lemma header_line_declares_witness :
  lineStep (ext := offline) offlineExporter
    (Split "HEADER,CLIENT_LIST,Common Name,Username,Bytes Received" ",")
    (initialState emptyWorld)
  = Continue afterClientHeader.
Proof.
  apply (header_line_declares (ext := offline) offlineExporter
           (Split "HEADER,CLIENT_LIST,Common Name,Username,Bytes Received" ",")
           (initialState emptyWorld)).
  - reflexivity.
  - vm_compute. lia.
Defined.

(** ** C4: a client without a name *)

(** A CLIENT_LIST row of an unauthenticated peer, after the HEADER line of
    [threeClients]. *)
Lemma undef_client_row_dropped_witness :
  lineStep (ext := offline) offlineExporter (Split "CLIENT_LIST,UNDEF,u1,10" ",")
    afterClientHeader
  = Continue afterClientHeader.
Proof.
  apply (undef_client_row_dropped (ext := offline) offlineExporter clientListHeader
           (Split "CLIENT_LIST,UNDEF,u1,10" ",") clientColumns afterClientHeader).
  - reflexivity.
  - vm_compute. reflexivity.
  - vm_compute. reflexivity.
  - reflexivity.
  - left. vm_compute. reflexivity.
Defined.

(** ** C5: rows need their HEADER line *)

(** A snapshot whose CLIENT_LIST row comes without a HEADER line. *)
Lemma data_row_requires_header_witness :
  let headless := fileOf ["TITLE,OpenVPN 2.4.7"; "CLIENT_LIST,alice,u1,10"; "END"] in
  let r := collectServerStatusFromReader (ext := offline) offlineExporter headless "," emptyWorld in
  ret r = Returned (Some (ErrNoHeader "CLIENT_LIST")) /\ sent r = [].
Proof.
  cbv zeta.
  refine (proj1 (data_row_requires_header (ext := offline) offlineExporter
                   (fileOf ["TITLE,OpenVPN 2.4.7"; "CLIENT_LIST,alice,u1,10"; "END"]) ","
                   ["TITLE,OpenVPN 2.4.7"] "CLIENT_LIST,alice,u1,10" ["END"] emptyWorld
                   (initialState emptyWorld) clientListHeader _ _ _ _) _).
  - vm_compute. reflexivity.
  - left. reflexivity.
  - vm_compute. reflexivity.
  - vm_compute. reflexivity.
  - repeat constructor.
Defined.

(** A row with one field too many for the columns its HEADER declares. *)
Example column_count_mismatch_halts :
  let r := collectServerStatusFromReader (ext := offline) offlineExporter
             (fileOf ["TITLE,OpenVPN 2.4.7";
                      "HEADER,CLIENT_LIST,Common Name,Username,Bytes Received";
                      "CLIENT_LIST,alice,u1,10,20"; "END"]) "," emptyWorld in
  ret r = Returned (Some (ErrColumnCount "CLIENT_LIST")) /\ sent r = [].
Proof. vm_compute. split; reflexivity. Qed.

(** ** C6: a first row can be suppressed as well *)

(** C6, where the code departs from it.  The last two routes of
    [fourRoutes] have the same label vector.  No route before them has it,
    and still neither of the two is sent: only the first two routes are,
    and [subslice] finds the values of the third in the pool of their two
    label vectors. *)
Lemma first_of_identical_rows_not_sent :
  let r := collectStatusFromReader (ext := offline) offlineExporter "" fourRoutes emptyWorld in
  let row := labelsOfRow offlineExporter routingTableHeader routeColumns in
  ret r = Returned None /\
  row "ROUTING_TABLE,10.8.0.2,bob,300" = row "ROUTING_TABLE,10.8.0.2,bob,400" /\
  row "ROUTING_TABLE,10.8.0.2,bob,300" <> row "ROUTING_TABLE,10.8.0.2,alice,100" /\
  row "ROUTING_TABLE,10.8.0.2,bob,300" <> row "ROUTING_TABLE,10.8.0.3,bob,200" /\
  sentFor routeLastReference (sent r)
  = [row "ROUTING_TABLE,10.8.0.2,alice,100"; row "ROUTING_TABLE,10.8.0.3,bob,200"] /\
  subslice (row "ROUTING_TABLE,10.8.0.2,bob,300")
    (row "ROUTING_TABLE,10.8.0.2,alice,100" ++ row "ROUTING_TABLE,10.8.0.3,bob,200") = true.
Proof. vm_compute. repeat split; discriminate. Qed.

(** ** C8: the server's own location is unresolved *)

(** The exporter of the host without network, and a client whose address
    the cache resolves. *)
Lemma unresolved_server_location_witness :
  let row := <["Real Address" := "203.0.113.7:49152"]> (∅ : gmap string string) in
  Forall (fun m => take 5 (labelValues m) = [""; ""; ""; ""; ""])
    (sent (Collect (ext := offline) offlineExporter (fun _ => inl threeClients) emptyWorld)) /\
  overlayGeo (ext := offline) offlineExporter someClientLocation row
    !! "Distance From Server" = Some "0" /\
  resolveRow (ext := offline) offlineExporter row warmWorld
  = (overlayGeo (ext := offline) offlineExporter someClientLocation row, warmWorld).
Proof.
  cbv zeta.
  apply (unresolved_server_location (ext := offline) offlineExporter
           (fun _ => inl threeClients) emptyWorld
           (<["Real Address" := "203.0.113.7:49152"]> ∅) someClientLocation warmWorld warmWorld).
  - vm_compute. reflexivity.
  - vm_compute. discriminate.
  - vm_compute. reflexivity.
Defined.

(** ** C9: the gauge of connected clients *)

(** One client with a name and one peer without: the gauge counts 1. *)
Lemma client_count_sent_once_witness :
  let e := fst (NewOpenVPNExporter (ext := offline) "/var/run/openvpn/status.log" emptyWorld) in
  let r := collectServerStatusFromReader (ext := offline) e oneNamedClient "," emptyWorld in
  list.last (sent r)
  = Some {| desc := openvpnConnectedClientsDesc e; valueType := GaugeValue;
            value := f64_of_Z 1; labelValues := [""; ""; ""; ""; ""] |}.
Proof.
  cbv zeta.
  destruct (client_count_sent_once (ext := offline) "/var/run/openvpn/status.log" emptyWorld
              oneNamedClient "," emptyWorld) as (before & Hsent & _).
  { vm_compute. reflexivity. }
  rewrite Hsent, last_snoc. reflexivity.
Defined.

(** ** C10: the scanner fails *)

(** A stream that breaks off: the gauge is sent, the read error returned. *)
Lemma client_count_sent_before_scan_error_witness :
  let e := fst (NewOpenVPNExporter (ext := offline) "/var/run/openvpn/status.log" emptyWorld) in
  let r := collectServerStatusFromReader (ext := offline) e brokenFile "," emptyWorld in
  sent r = [connectedClientsMetric e 0] /\
  ret r = Returned (Some (ErrExternal "read /var/run/openvpn/status.log: input/output error")).
Proof.
  cbv zeta.
  refine (proj1 (proj1 (client_count_sent_before_scan_error (ext := offline)
                          "/var/run/openvpn/status.log" emptyWorld brokenFile "," emptyWorld
                          (ErrExternal "read /var/run/openvpn/status.log: input/output error") _)
                   (initialState emptyWorld) _) _).
  - vm_compute. reflexivity.
  - vm_compute. reflexivity.
  - vm_compute. reflexivity.
Defined.

(** ** One client *)

(** Given HEADER CLIENT_LIST with the columns Common Name, Bytes Received
    and Bytes Sent and the one row alice, 100, 200, two counters are sent,
    100 and 200, labelled with the name alice, and then the gauge of
    connected clients with value 1. *)
Example one_client_snapshot :
  let r := collectStatusFromReader (ext := offline) offlineExporter ""
             (fileOf ["TITLE,OpenVPN 2.4.7";
                      "HEADER,CLIENT_LIST,Common Name,Bytes Received,Bytes Sent";
                      "CLIENT_LIST,alice,100,200"; "END"]) emptyWorld in
  let labels := [""; ""; ""; ""; ""; "alice"; ""; ""; ""; ""; ""; ""; ""; ""] in
  ret r = Returned None /\
  sent r = [constMetric (Desc clientReceivedBytes) CounterValue (f64_of_Z 100) labels;
            constMetric (Desc clientSentBytes) CounterValue (f64_of_Z 200) labels;
            connectedClientsMetric offlineExporter 1].
Proof. vm_compute. split; reflexivity. Qed.

(** ** C2: the four kinds of prefix *)

(** A version 2 file, a version 3 file, a client status file and a file of
    another kind. *)
Lemma format_detection_witness :
  let scrape := collectStatusFromReader (ext := offline) offlineExporter "" in
  scrape (fileOf ["TITLE,OpenVPN 2.4.7"; "END"]) emptyWorld
  = collectServerStatusFromReader (ext := offline) offlineExporter
      (fileOf ["TITLE,OpenVPN 2.4.7"; "END"]) "," emptyWorld /\
  scrape (fileOf ["TITLE" +:+ tab +:+ "OpenVPN 2.4.7"; "END"]) emptyWorld
  = collectServerStatusFromReader (ext := offline) offlineExporter
      (fileOf ["TITLE" +:+ tab +:+ "OpenVPN 2.4.7"; "END"]) tab emptyWorld /\
  scrape (fileOf ["OpenVPN STATISTICS"; "Updated,Thu Jun 18 04:23:03 2015"]) emptyWorld
  = {| sent := []; ret := Returned (Some ErrClientStatus); after := emptyWorld |} /\
  scrape (fileOf ["<html>"]) emptyWorld
  = {| sent := []; ret := Returned (Some (ErrUnexpectedContents "<html>"));
       after := emptyWorld |}.
Proof.
  cbv zeta. split; [|split; [|split]].
  - apply (format_detection (ext := offline) offlineExporter ""
             (fileOf ["TITLE,OpenVPN 2.4.7"; "END"]) emptyWorld). reflexivity.
  - apply (format_detection (ext := offline) offlineExporter ""
             (fileOf ["TITLE" +:+ tab +:+ "OpenVPN 2.4.7"; "END"]) emptyWorld). reflexivity.
  - apply (format_detection (ext := offline) offlineExporter ""
             (fileOf ["OpenVPN STATISTICS"; "Updated,Thu Jun 18 04:23:03 2015"]) emptyWorld).
    reflexivity.
  - apply (format_detection (ext := offline) offlineExporter "" (fileOf ["<html>"]) emptyWorld);
      reflexivity.
Defined.

(** ** C7: the gauge of success *)

(** C7 does not hold for every scrape.  The client of [invalidName] has a
    name that is not valid UTF-8; the library refuses the label values of
    its first tuple, [MustNewConstMetric] panics, and the call of
    [Collect] ends without an [up] gauge, with nothing sent at all. *)
Lemma invalid_label_no_up_gauge :
  let r := Collect (ext := offline) offlineExporter (fun _ => inl invalidName) emptyWorld in
  ret r = Panicked /\
  filter (fun m => desc m = openvpnUpDesc offlineExporter) (sent r) = [] /\
  sent r = [].
Proof. vm_compute. repeat split. Qed.

(** A status file that cannot be opened, and one that can be read. *)
Lemma up_gauge_sent_once_witness :
  let up v := {| desc := openvpnUpDesc offlineExporter; valueType := GaugeValue; value := v;
                 labelValues := [""; ""; ""; ""; ""] |} in
  sent (Collect (ext := offline) offlineExporter
          (fun _ => inr (ErrExternal "open /etc/openvpn/status.log: no such file or directory"))
          emptyWorld)
  = [up f64_zero] /\
  sent (Collect (ext := offline) offlineExporter
          (fun _ => inl (fileOf ["TITLE,OpenVPN 2.4.7"; "END"])) emptyWorld)
  = [connectedClientsMetric offlineExporter 0; up f64_one].
Proof.
  cbv zeta. split.
  - pose proof (up_gauge_sent_once (ext := offline) "/etc/openvpn/status.log" emptyWorld
                  (fun _ => inr (ErrExternal
                     "open /etc/openvpn/status.log: no such file or directory"))
                  emptyWorld) as H.
    cbv zeta in H. destruct H as (_ & _ & _ & Hret & _).
    destruct (Hret eq_refl) as (_ & Hzero & _).
    exact (Hzero _ eq_refl).
  - pose proof (up_gauge_sent_once (ext := offline) "/etc/openvpn/status.log" emptyWorld
                  (fun _ => inl (fileOf ["TITLE,OpenVPN 2.4.7"; "END"])) emptyWorld) as H.
    cbv zeta in H. destruct H as (_ & _ & _ & Hret & _).
    destruct (Hret eq_refl) as (Hone & _).
    exact (Hone eq_refl).
Defined.

(** ** X3: a location is requested once *)

(** The first call asks the service and fills the cache; the second call
    is answered from the cache. *)
Lemma getGeo_memoizes_successes_witness :
  getGeo (ext := lookupService) "203.0.113.7" emptyWorld = (someClientLocation, None, warmWorld) /\
  getGeo (ext := lookupService) "203.0.113.7" warmWorld = (someClientLocation, None, warmWorld).
Proof.
  assert (getGeo (ext := lookupService) "203.0.113.7" emptyWorld
          = (someClientLocation, None, warmWorld)) as Hfirst by reflexivity.
  split; [exact Hfirst|].
  exact (proj1 (proj1 (getGeo_memoizes_successes (ext := lookupService) "203.0.113.7"
                         emptyWorld) someClientLocation warmWorld Hfirst)).
Defined.

(** ** X10: a footer with a second field *)

Lemma unrecognised_line_halts_witness :
  let r := collectServerStatusFromReader (ext := offline) offlineExporter longFooter ","
             emptyWorld in
  ret r = Returned (Some (ErrUnsupportedKey "END")) /\ sent r = [].
Proof.
  cbv zeta.
  refine (unrecognised_line_halts (ext := offline) "/etc/openvpn/status.log" emptyWorld
            longFooter "," ["TITLE,OpenVPN 2.4.7"] "END,of file"
            ["GLOBAL_STATS,Max bcast/mcast queue length,0"] emptyWorld
            (initialState emptyWorld) _ _ _ _ _ _ _ _).
  - vm_compute. reflexivity.
  - vm_compute. reflexivity.
  - discriminate.
  - intros H. repeat (apply elem_of_cons in H as [H | H]; [discriminate H|]). inversion H.
  - intros _. vm_compute. discriminate.
  - intros H. vm_compute in H. discriminate H.
  - intros H. vm_compute in H. discriminate H.
  - intros H. vm_compute in H. discriminate H.
Defined.

(** ** X9: the error of a row without HEADER *)

Lemma returned_errors_witness :
  let headless := fileOf ["TITLE,OpenVPN 2.4.7"; "CLIENT_LIST,alice,u1,10"; "END"] in
  scanErr (NewScanner headless) = Some (ErrNoHeader "CLIENT_LIST") \/
  loopError (ErrNoHeader "CLIENT_LIST").
Proof.
  cbv zeta.
  apply (returned_errors (ext := offline) offlineExporter
           (fileOf ["TITLE,OpenVPN 2.4.7"; "CLIENT_LIST,alice,u1,10"; "END"]) "," emptyWorld).
  vm_compute. reflexivity.
Defined.

(** ** X13: three clients, two tuples *)

(** All three clients of [threeClients] are counted, though the tuple of
    the third is suppressed. *)
Lemma client_count_counts_named_rows_witness :
  list.last (sent (collectServerStatusFromReader (ext := offline) offlineExporter threeClients
                     "," emptyWorld))
  = Some (connectedClientsMetric offlineExporter 3).
Proof.
  apply (client_count_counts_named_rows (ext := offline) "/etc/openvpn/status.log" emptyWorld
           threeClients "," emptyWorld).
  vm_compute. reflexivity.
Defined.

(** ** X7: the user name of a client *)

(** "Username" is the fifth label column of CLIENT_LIST and the second
    column of the HEADER line of [threeClients]. *)
Lemma labels_follow_column_names_witness :
  buildLabels offlineExporter clientListHeader
    (fst (resolveRow (ext := offline) offlineExporter
            (buildColumnValues clientListHeader clientColumns
               (Split "CLIENT_LIST,alice,u1,10" ",")) emptyWorld))
    !! 9%nat = Some "u1".
Proof.
  destruct (labels_follow_column_names (ext := offline) offlineExporter clientListHeader
              clientColumns (Split "CLIENT_LIST,alice,u1,10" ",") emptyWorld 4 "Username"
              eq_refl)
    as (_ & _ & Hcolumn).
  assert ("Username" ∉ ["Geohash"; "City"; "Region"; "Country"; "Distance From Server"])
    as Hgeo.
  { intros H. repeat (apply elem_of_cons in H as [H | H]; [discriminate H|]). inversion H. }
  destruct (Hcolumn Hgeo) as [Hdeclared _].
  apply (Hdeclared 1%nat); [reflexivity|].
  intros H. apply list_elem_of_singleton in H. discriminate H.
Defined.

(** ** X8: an address with a port *)

Lemma real_address_port_stripped_witness :
  let row := <["Real Address" := "203.0.113.7:49152"]> (∅ : gmap string string) in
  resolveRow (ext := offline) offlineExporter row warmWorld
  = match getGeo (ext := offline) "203.0.113.7" warmWorld with
    | (geo, None, w') => (overlayGeo (ext := offline) offlineExporter geo row, w')
    | (_, Some _, w') => (row, w')
    end.
Proof.
  cbv zeta.
  apply (real_address_port_stripped (ext := offline) offlineExporter
           (<["Real Address" := "203.0.113.7:49152"]> ∅) warmWorld "203.0.113.7" "49152").
  - reflexivity.
  - left. vm_compute. reflexivity.
Defined.

(** ** X14: two update times *)

Lemma update_time_gauges_witness :
  filter (fun m => desc m = openvpnStatusUpdateTimeDesc offlineExporter)
    (sent (collectServerStatusFromReader (ext := offline) offlineExporter twoTimes ","
             emptyWorld))
  = [statusUpdateTimeMetric offlineExporter (f64_of_Z 1434601383);
     statusUpdateTimeMetric offlineExporter (f64_of_Z 1434601393)].
Proof.
  apply (update_time_gauges (ext := offline) "/etc/openvpn/status.log" emptyWorld twoTimes ","
           emptyWorld).
  vm_compute. reflexivity.
Defined.

(** ** X17: a file of ASCII bytes *)

Lemma valid_status_file_never_panics_witness :
  ret (Collect (ext := offline) offlineExporter (fun _ => inl threeClients) emptyWorld)
  = Returned None.
Proof.
  assert (validWorld emptyWorld) as Hw.
  { intros a g H. cbn in H. rewrite lookup_empty in H. discriminate H. }
  apply (valid_status_file_never_panics (ext := offline)).
  - split; [intros n a; reflexivity | split; intros; reflexivity].
  - exact Hw.
  - exact Hw.
  - intros file [= <-]. vm_compute. reflexivity.
Defined.
